(** * Aime multi-agent prototype: planner, actor, factory and progress tracker

    A shallow embedding of the Python sources [utils.py], [planner.py],
    [factory.py], [actor.py] and [progress.py], and the properties of the
    design document that were checked against it.

    Conventions of the embedding:
    - a Python [str] is the list of its code points ([PyStr.str]);
    - dictionaries with a fixed set of keys (tasks, agents, statistics,
      execution steps) are records; JSON-decoded data, whose shape the
      code does not control, is a value of the dynamic type [pyval];
    - an operation that can raise, read the clock or call the generator is a
      computation in the monad [M] (state of the outside world plus an
      exception result);
    - what the interpreter and the outside world provide (case tables, the
      JSON decoder, [eval], the generator, the clock) is the interface
      [Runtime]; every theorem holds for every implementation of it.
    - logging is not modelled. *)

From stdpp Require Import gmap list.
From Stdlib Require Import ZArith NArith QArith Ascii String Lia.

Set Default Proof Using "Type".
Local Open Scope N_scope.

(** ** Python strings *)

Module PyStr.

(** A string is the sequence of its Unicode code points: [len], slicing,
    [strip] and [split] all count code points. *)
Abbreviation str := (list N).

(** UTF-8 decoding of the bytes of a literal of this file. *)
Fixpoint utf8_decode (bs : list N) : str :=
  match bs with
  | [] => []
  | b0 :: r0 =>
    if b0 <? 128 then b0 :: utf8_decode r0
    else if b0 <? 224 then
      match r0 with
      | b1 :: r1 => ((b0 mod 32) * 64 + b1 mod 64) :: utf8_decode r1
      | _ => []
      end
    else if b0 <? 240 then
      match r0 with
      | b1 :: b2 :: r2 =>
        ((b0 mod 16) * 4096 + (b1 mod 64) * 64 + b2 mod 64) :: utf8_decode r2
      | _ => []
      end
    else
      match r0 with
      | b1 :: b2 :: b3 :: r3 =>
        ((b0 mod 8) * 262144 + (b1 mod 64) * 4096 + (b2 mod 64) * 64 + b3 mod 64)
          :: utf8_decode r3
      | _ => []
      end
  end.

(** [py "..."] is the Python string written between the quotes. *)
Definition py (s : string) : str :=
  utf8_decode (map N_of_ascii (list_ascii_of_string s)).

(** [pyq "..."] is the same, with every backquote of the literal standing
    for a double quote (code point 34). *)
Definition pyq (s : string) : str :=
  map (fun c => if c =? 96 then 34 else c) (py s).

Definition str_eqb (a b : str) : bool := bool_decide (a = b).

(** [str.isspace] on one code point; also what [strip] removes and what
    [\s] matches in a [str] pattern. *)
Definition is_space (c : N) : bool :=
  ((9 <=? c) && (c <=? 13)) || ((28 <=? c) && (c <=? 32))
  || (c =? 133) || (c =? 160) || (c =? 5760)
  || ((8192 <=? c) && (c <=? 8202))
  || (c =? 8232) || (c =? 8233) || (c =? 8239) || (c =? 8287) || (c =? 12288).

Fixpoint lstrip (s : str) : str :=
  match s with
  | c :: r => if is_space c then lstrip r else s
  | [] => []
  end.

Definition rstrip (s : str) : str := rev (lstrip (rev s)).

(** [s.strip()] *)
Definition strip (s : str) : str := rstrip (lstrip s).

(** [s.startswith(p)] *)
Fixpoint startswith (s p : str) : bool :=
  match p, s with
  | [], _ => true
  | a :: p', b :: s' => (a =? b) && startswith s' p'
  | _ :: _, [] => false
  end.

(** [s.partition(sep)] when [sep] occurs: the text before and after the
    first occurrence of [sep]. *)
Fixpoint find (sep s : str) : option (str * str) :=
  if startswith s sep then Some ([], drop (List.length sep) s)
  else match s with
       | [] => None
       | c :: r =>
         match find sep r with
         | Some (before, after) => Some (c :: before, after)
         | None => None
         end
       end.

(** [sub in s] *)
Definition contains (sub s : str) : bool :=
  match find sub s with Some _ => true | None => false end.

(** [any(word in s for word in words)] *)
Definition any_in (words : list str) (s : str) : bool :=
  existsb (fun w => contains w s) words.

(** [s.split(sep, 1)] for a non-empty [sep]. *)
Definition split1 (sep s : str) : list str :=
  match find sep s with
  | Some (before, after) => [before; after]
  | None => [s]
  end.

(** [s.split(sep, 1)[1]] at the places where the source has checked that
    [sep] occurs in [s]. *)
Definition split1_snd (sep s : str) : str :=
  match find sep s with
  | Some (_, after) => after
  | None => []
  end.

(** [s.split('\n')] *)
Fixpoint split_lines_from (cur : str) (s : str) : list str :=
  match s with
  | [] => [rev cur]
  | c :: r => if c =? 10 then rev cur :: split_lines_from [] r
              else split_lines_from (c :: cur) r
  end.

Definition split_lines (s : str) : list str := split_lines_from [] s.

(** [sep.join(parts)] *)
Fixpoint join (sep : str) (parts : list str) : str :=
  match parts with
  | [] => []
  | [p] => p
  | p :: rest => p ++ sep ++ join sep rest
  end.

(** [s[:n]] *)
Definition prefix (n : nat) (s : str) : str := take n s.

(** [l[-n:]] for a list and [n > 0]. *)
Definition last_n {A} (n : nat) (l : list A) : list A :=
  drop (List.length l - n) l.

(** [str(n)] for an integer. *)
Definition digit_char (d : N) : N := 48 + d.

Fixpoint digits_of_pos (fuel : nat) (n : N) (acc : str) : str :=
  match fuel with
  | O => acc
  | S f =>
    let acc' := digit_char (n mod 10) :: acc in
    if n <? 10 then acc' else digits_of_pos f (n / 10) acc'
  end.

Definition str_of_N (n : N) : str := digits_of_pos (S (N.to_nat (N.log2 n))) n [].

Definition str_of_Z (z : Z) : str :=
  match z with
  | Zneg p => 45 :: str_of_N (Npos p)
  | _ => str_of_N (Z.to_N z)
  end.

Definition str_of_nat (n : nat) : str := str_of_N (N.of_nat n).

(** ASCII part of [str.lower]. *)
Definition ascii_lower (s : str) : str :=
  map (fun c => if (65 <=? c) && (c <=? 90) then c + 32 else c) s.

(** String operations are evaluated by computation, not unfolded while a
    goal is simplified. *)
#[global] Arguments py : simpl never.
#[global] Arguments pyq : simpl never.
#[global] Arguments str_eqb : simpl never.
#[global] Arguments strip : simpl never.
#[global] Arguments startswith : simpl never.
#[global] Arguments find : simpl never.
#[global] Arguments contains : simpl never.
#[global] Arguments any_in : simpl never.
#[global] Arguments split1_snd : simpl never.
#[global] Arguments split_lines : simpl never.
#[global] Arguments join : simpl never.
#[global] Arguments prefix : simpl never.
#[global] Arguments last_n : simpl never.
#[global] Arguments str_of_N : simpl never.
#[global] Arguments str_of_Z : simpl never.
#[global] Arguments str_of_nat : simpl never.

End PyStr.
Export PyStr.

(** ** Dynamic values, exceptions and the outside world *)

Module Py.

(** A value decoded from JSON, or built by the planner from one. A [dict]
    keeps its keys in insertion order; its keys are strings. *)
#[warnings="-register-all"] Inductive pyval : Type :=
| PNone
| PBool (b : bool)
| PInt (z : Z)
| PFloat (repr : str)
| PStr (s : str)
| PList (items : list pyval)
| PDict (entries : list (str * pyval)).

(** An exception: the name of its class and [str(e)]. *)
Record exn : Type := Exn { exn_class : str; exn_msg : str }.

Definition TypeError (msg : str) : exn := Exn (py "TypeError") msg.
Definition AttributeError (msg : str) : exn := Exn (py "AttributeError") msg.
Definition KeyError (msg : str) : exn := Exn (py "KeyError") msg.
Definition JSONDecodeError (msg : str) : exn := Exn (py "JSONDecodeError") msg.

Definition is_JSONDecodeError (e : exn) : bool :=
  str_eqb (exn_class e) (py "JSONDecodeError").

Inductive result (A : Type) : Type :=
| Ok (a : A)
| Raise (e : exn).
Arguments Ok {A} a.
Arguments Raise {A} e.

(** What the interpreter and the environment provide. *)
Class Runtime : Type := {
  (** [str.lower()], which follows the Unicode case tables. *)
  str_lower : str -> str;
  (** [json.loads(text)]: the decoded value, or the exception it raises
      ([JSONDecodeError] for malformed text). *)
  json_loads : str -> result pyval;
  (** [eval(expression)] followed by [str()] of the value, or the
      exception raised. *)
  py_eval : str -> result str;
  (** The generator behind [llm.generate(prompt, max_tokens)]: it has a
      state of its own, and returns a text or raises. *)
  gen_state : Type;
  llm_generate : str -> Z -> gen_state -> result str * gen_state;
  (** [datetime.now().isoformat()] at the n-th reading of the clock. *)
  now_isoformat : nat -> str;
  (** [int(time.time() * 1000)] at the n-th reading of the clock. *)
  time_ms : nat -> Z;
  (** [config.MAX_ITERATIONS], read from the environment at start-up. *)
  MAX_ITERATIONS : Z;
  (** Whether [save_json_file] manages to write the file, when called after
      n readings of the clock. *)
  write_succeeds : nat -> bool
}.

(** The state-and-exception monad of the embedding: a computation reads
    and changes a state [S] and returns or raises; what it did to the state
    before raising stays done. *)
Definition M (S A : Type) : Type := S -> result A * S.

Definition ret {S A} (a : A) : M S A := fun s => (Ok a, s).

Definition raise {S A} (e : exn) : M S A := fun s => (Raise e, s).

Definition bind {S A B} (m : M S A) (k : A -> M S B) : M S B :=
  fun s => match m s with
           | (Ok a, s') => k a s'
           | (Raise e, s') => (Raise e, s')
           end.

(** [try: body  except Exception as e: handler(e)] *)
Definition try_except {S A} (body : M S A) (handler : exn -> M S A) : M S A :=
  fun s => match body s with
           | (Ok a, s') => (Ok a, s')
           | (Raise e, s') => handler e s'
           end.

(** [try: body  finally: cleanup] *)
Definition try_finally {S A} (body : M S A) (cleanup : M S unit) : M S A :=
  fun s => let '(r, s') := body s in
           match cleanup s' with
           | (Ok _, s'') => (r, s'')
           | (Raise e, s'') => (Raise e, s'')
           end.

(** A pure step that can raise. *)
Definition lift {S A} (r : result A) : M S A := fun s => (r, s).

Section World.
Context {R : Runtime}.

(** The outside world: the generator, the number of clock readings and the
    number of calls of the generator so far. *)
Record world : Type := World { w_gen : gen_state; w_clock : nat; w_calls : nat }.

(** The world after one reading of the clock. *)
Definition tick (w : world) : world := World (w_gen w) (S (w_clock w)) (w_calls w).

(** [datetime.now().isoformat()] *)
Definition datetime_now : M world str :=
  fun w => (Ok (now_isoformat (w_clock w)), tick w).

(** [int(time.time() * 1000)] *)
Definition time_time_ms : M world Z :=
  fun w => (Ok (time_ms (w_clock w)), tick w).

(** [llm.generate(prompt, max_tokens=n)] *)
Definition generate (prompt : str) (max_tokens : Z) : M world str :=
  fun w => let '(r, g) := llm_generate prompt max_tokens (w_gen w) in
           (r, World g (w_clock w) (S (w_calls w))).

(** A method runs on its object and the world. *)
Definition on_world {O A} (m : M world A) : M (O * world) A :=
  fun ow => let '(r, w') := m (snd ow) in (r, (fst ow, w')).

(** Reading [self] and assigning to its attributes. *)
Definition get_self {O} : M (O * world) O := fun ow => (Ok (fst ow), ow).

Definition update_self {O} (f : O -> O) : M (O * world) unit :=
  fun ow => (Ok tt, (f (fst ow), snd ow)).

End World.

Declare Scope monad_scope.
Delimit Scope monad_scope with monad.
Notation "x <- m ;; k" := (bind m (fun x => k))
  (at level 100, m at next level, right associativity) : monad_scope.
Notation "m ;;; k" := (bind m (fun _ => k))
  (at level 100, right associativity) : monad_scope.

(** Results of pure steps form a monad too. *)
Definition rbind {A B} (r : result A) (k : A -> result B) : result B :=
  match r with
  | Ok a => k a
  | Raise e => Raise e
  end.

(** [try: body  except Exception as e: handler(e)] for a pure step. *)
Definition rcatch {A} (body : result A) (handler : exn -> result A) : result A :=
  match body with
  | Ok a => Ok a
  | Raise e => handler e
  end.

(** *** The operations of the language on dynamic values *)

Fixpoint dict_get {V} (k : str) (d : list (str * V)) : option V :=
  match d with
  | [] => None
  | (k', v) :: rest => if str_eqb k k' then Some v else dict_get k rest
  end.

(** [d[k] = v]: an existing key keeps its place. *)
Fixpoint dict_set {V} (k : str) (v : V) (d : list (str * V)) : list (str * V) :=
  match d with
  | [] => [(k, v)]
  | (k', v') :: rest =>
    if str_eqb k k' then (k, v) :: rest else (k', v') :: dict_set k v rest
  end.

Definition type_name (v : pyval) : str :=
  match v with
  | PNone => py "NoneType"
  | PBool _ => py "bool"
  | PInt _ => py "int"
  | PFloat _ => py "float"
  | PStr _ => py "str"
  | PList _ => py "list"
  | PDict _ => py "dict"
  end.

Definition is_PStr (s : str) (v : pyval) : bool :=
  match v with PStr s' => str_eqb s s' | _ => false end.

(** [key in v] for a string [key]. *)
Definition py_in (key : str) (v : pyval) : result bool :=
  match v with
  | PDict d => Ok (match dict_get key d with Some _ => true | None => false end)
  | PList l => Ok (existsb (is_PStr key) l)
  | PStr s => Ok (contains key s)
  | _ => Raise (TypeError (py "argument of type '" ++ type_name v ++ py "' is not iterable"))
  end.

(** [v[key] = x] for a string [key]. *)
Definition py_setitem (v : pyval) (key : str) (x : pyval) : result pyval :=
  match v with
  | PDict d => Ok (PDict (dict_set key x d))
  | PList _ => Raise (TypeError (py "list indices must be integers or slices, not str"))
  | _ => Raise (TypeError (py "'" ++ type_name v ++ py "' object does not support item assignment"))
  end.

(** [v[key]] for a string [key]. *)
Definition py_getitem (v : pyval) (key : str) : result pyval :=
  match v with
  | PDict d => match dict_get key d with
               | Some x => Ok x
               | None => Raise (KeyError (py "'" ++ key ++ py "'"))
               end
  | PList _ => Raise (TypeError (py "list indices must be integers or slices, not str"))
  | PStr _ => Raise (TypeError (py "string indices must be integers, not 'str'"))
  | _ => Raise (TypeError (py "'" ++ type_name v ++ py "' object is not subscriptable"))
  end.

(** [len(v)] *)
Definition py_len (v : pyval) : result nat :=
  match v with
  | PStr s => Ok (List.length s)
  | PList l => Ok (List.length l)
  | PDict d => Ok (List.length d)
  | _ => Raise (TypeError (py "object of type '" ++ type_name v ++ py "' has no len()"))
  end.

(** The items [for x in v] goes through. *)
Definition py_iter (v : pyval) : result (list pyval) :=
  match v with
  | PList l => Ok l
  | PStr s => Ok (map (fun c => PStr [c]) s)
  | PDict d => Ok (map (fun kv => PStr (fst kv)) d)
  | _ => Raise (TypeError (py "'" ++ type_name v ++ py "' object is not iterable"))
  end.

(** [bool(v)] *)
Definition truthy (v : pyval) : bool :=
  match v with
  | PNone => false
  | PBool b => b
  | PInt z => negb (Z.eqb z 0)
  | PFloat _ => true
  | PStr s => negb (str_eqb s [])
  | PList l => match l with [] => false | _ => true end
  | PDict d => match d with [] => false | _ => true end
  end.

End Py.
Export Py.
Open Scope monad_scope.

(** ** utils.py *)

Module Utils.
Section Utils.
Context {R : Runtime}.

(** [re.search(r'\{.*\}', text, re.DOTALL)]: the leftmost match starts at
    the first opening brace and, [.*] being greedy and matching newlines,
    ends at the last closing brace of the text. *)
Fixpoint from_first_open (s : str) : option str :=
  match s with
  | [] => None
  | c :: r => if c =? 123 then Some s else from_first_open r
  end.

Fixpoint through_last_close (s : str) : option str :=
  match s with
  | [] => None
  | c :: r =>
    match through_last_close r with
    | Some t => Some (c :: t)
    | None => if c =? 125 then Some [c] else None
    end
  end.

Definition re_search_braces (text : str) : option str :=
  match from_first_open text with
  | Some s => through_last_close s
  | None => None
  end.

(** The dictionary [safe_json_parse] degrades to. *)
Definition json_error_dict (text : str) : M world pyval :=
  now <- datetime_now ;;
  ret (PDict [ (py "error", PStr (py "JSON解析失败"));
               (py "raw_text", PStr text);
               (py "timestamp", PStr now) ]).

(** [try: return json.loads(text)  except json.JSONDecodeError: ...]; an
    exception of another class is not caught. *)
Definition safe_json_parse (text : str) : M world pyval :=
  match json_loads text with
  | Ok v => ret v
  | Raise e =>
    if is_JSONDecodeError e then
      match re_search_braces text with
      | Some fragment =>
        match json_loads fragment with
        | Ok v => ret v
        | Raise e' =>
          if is_JSONDecodeError e' then json_error_dict text else raise e'
        end
      | None => json_error_dict text
      end
    else raise e
  end.

(** One line of [parse_response]'s loop. *)
Definition parse_response_line (acc : str * str) (line : str) : str * str :=
  let '(thought, action) := acc in
  let line := strip line in
  if startswith line (py "思考:") || startswith line (py "Thought:") then
    (strip (split1_snd (py ":") line), action)
  else if startswith line (py "行动:") || startswith line (py "Action:") then
    (thought, strip (split1_snd (py ":") line))
  else (thought, action).

Definition parse_response (response : str) : str * str :=
  fold_left parse_response_line (split_lines response) ([], []).

Definition generate_task_id : M world str :=
  timestamp <- time_time_ms ;;
  ret (py "task_" ++ str_of_Z timestamp).



End Utils.

#[global] Arguments safe_json_parse : simpl never.
#[global] Arguments parse_response : simpl never.

End Utils.
Export Utils.

(** ** planner.py *)

Module Planner.
Section Planner.
Context {R : Runtime}.

Record HistoryEntry : Type := {
  h_timestamp : str;
  h_goal : str;
  h_plan : pyval;
  h_current_state : option str;
  h_feedback : option str;
  h_task_count : nat
}.

(** The planner object; its generator is the one of the world, and the
    elapsed time of a history entry (a float) is left out. *)
Record SimpleDynamicPlanner : Type := {
  planning_history : list HistoryEntry
}.

(** An optional argument used as a condition: [None] and the empty string
    are false. *)
Definition given (o : option str) : bool :=
  match o with
  | Some (_ :: _) => true
  | _ => false
  end.

(** [o or default] *)
Definition or_default (o : option str) (default : str) : str :=
  match o with
  | Some (c :: r) => c :: r
  | _ => default
  end.

Inductive template_key : Type := basic | with_feedback | replan.

Definition _select_template (current_state feedback : option str) : template_key :=
  if given feedback then replan
  else if given current_state then with_feedback
  else basic.

(** The part the three templates share, after [format]. *)
Definition task_schema : str := pyq "{
  `tasks`: [
    {
      `id`: `task_1`,
      `description`: `具体的任务描述`,
      `tool_type`: `search|calculator|data_analysis|file_ops|general`,
      `priority`: `high|normal|low`
    }
  ],
  `strategy`: `sequential|parallel|mixed`,
  `estimated_time`: `预估总耗时(秒)`".

(** [template.format(goal=..., current_state=..., feedback=..., history=...)] *)
Definition render_template (key : template_key) (goal current_state feedback history : str) : str :=
  match key with
  | basic =>
    py "你是一个专业的任务规划专家。请将以下目标分解为3-5个可执行的子任务。

目标: " ++ goal ++ py "

请按照以下JSON格式输出规划结果：

" ++ task_schema ++ py "
}

要求：
1. 任务描述要具体明确
2. 合理选择工具类型
3. 按重要性设置优先级
4. 考虑任务之间的依赖关系"
  | with_feedback =>
    py "你是一个专业的任务规划专家。基于当前状态调整任务规划。

目标: " ++ goal ++ py "
当前状态: " ++ current_state ++ py "
历史规划: " ++ history ++ py "

请按照以下JSON格式输出调整后的规划：

" ++ task_schema ++ pyq ",
  `adjustments`: `相比历史规划的调整说明`
}

要求：
1. 基于当前状态调整任务
2. 考虑已完成的工作
3. 优化任务顺序和优先级"
  | replan =>
    py "你是一个专业的任务规划专家。基于执行反馈重新制定规划。

目标: " ++ goal ++ py "
当前状态: " ++ current_state ++ py "
执行反馈: " ++ feedback ++ py "
历史规划: " ++ history ++ py "

分析反馈信息，重新制定规划。输出JSON格式：

" ++ task_schema ++ pyq ",
  `reason`: `重新规划的原因`,
  `changes`: `主要变化说明`
}

要求：
1. 分析反馈中的问题
2. 调整策略和方法
3. 确保目标可达成"
  end.

(** [d.get(key, default)] on a value that has to be a dictionary. *)
Definition py_get (v : pyval) (key : str) (default : pyval) : result pyval :=
  match v with
  | PDict d => Ok (match dict_get key d with Some x => x | None => default end)
  | _ => Raise (AttributeError (py "'" ++ type_name v ++ py "' object has no attribute 'get'"))
  end.

(** [len(plan.get("tasks", []))] *)
Definition plan_task_count (plan : pyval) : result nat :=
  rbind (py_get plan (py "tasks") (PList [])) py_len.

Definition format_history_entry (entry : HistoryEntry) : result (list str) :=
  rbind (plan_task_count (h_plan entry)) (fun n =>
  Ok [ py "目标: " ++ prefix 50 (h_goal entry) ++ py "...";
       py "任务数: " ++ str_of_nat n;
       py "状态: " ++ match h_current_state entry with
                      | Some s => s
                      | None => py "None"
                      end;
       py "---" ]).

Fixpoint format_history_entries (entries : list HistoryEntry) : result (list str) :=
  match entries with
  | [] => Ok []
  | e :: rest =>
    rbind (format_history_entry e) (fun lines =>
    rbind (format_history_entries rest) (fun more => Ok (lines ++ more)))
  end.

Definition _format_recent_history (self : SimpleDynamicPlanner) : result str :=
  match planning_history self with
  | [] => Ok (py "无历史规划")
  | _ =>
    rbind (format_history_entries (last_n 2 (planning_history self)))
          (fun formatted => Ok (join [10] formatted))
  end.

Definition _build_prompt (self : SimpleDynamicPlanner) (key : template_key)
    (goal : str) (current_state feedback : option str) : result str :=
  rbind (_format_recent_history self) (fun history =>
  Ok (render_template key goal
        (or_default current_state (py "初始状态"))
        (or_default feedback (py "无"))
        history)).

Definition _guess_tool_type (description : str) : str :=
  let desc_lower := str_lower description in
  if any_in [py "搜索"; py "查找"; py "检索"; py "search"] desc_lower then py "search"
  else if any_in [py "计算"; py "数学"; py "统计"; py "calc"] desc_lower then py "calculator"
  else if any_in [py "分析"; py "处理"; py "analysis"] desc_lower then py "data_analysis"
  else if any_in [py "文件"; py "保存"; py "file"] desc_lower then py "file_ops"
  else py "general".

(** [self._guess_tool_type(v)] for a decoded value: only a string has
    [lower]. *)
Definition guess_tool_type_of (v : pyval) : result str :=
  match v with
  | PStr s => Ok (_guess_tool_type s)
  | _ => Raise (AttributeError (py "'" ++ type_name v ++ py "' object has no attribute 'lower'"))
  end.

Definition make_task (id description tool_type priority : str) : pyval :=
  PDict [ (py "id", PStr id);
          (py "description", PStr description);
          (py "tool_type", PStr tool_type);
          (py "priority", PStr priority) ].

(** The loop of [_fallback_parse] over the lines; [tasks] is the list built
    so far. *)
Fixpoint fallback_tasks (lines : list str) (tasks : list pyval) : list pyval :=
  match lines with
  | [] => tasks
  | line :: rest =>
    let line := strip line in
    if negb (str_eqb line []) && negb (startswith line (py "#"))
       && (10 <? List.length line)%nat
    then fallback_tasks rest
           (tasks ++ [make_task (py "task_" ++ str_of_nat (List.length tasks + 1))
                                (prefix 200 line)
                                (_guess_tool_type line)
                                (py "normal")])
    else fallback_tasks rest tasks
  end.

Definition _fallback_parse (response : str) : pyval :=
  let tasks := fallback_tasks (split_lines response) [] in
  PDict [ (py "tasks",
           PList (match tasks with
                  | [] => [make_task (py "task_1") (prefix 200 response)
                                     (py "general") (py "normal")]
                  | _ => tasks
                  end));
          (py "strategy", PStr (py "sequential"));
          (py "estimated_time",
           PInt (match tasks with
                 | [] => 30
                 | _ => Z.of_nat (List.length tasks) * 30
                 end)) ].

(** [if key not in d: d[key] = value], the value being computed only when
    the key is missing. *)
Definition set_default (d : pyval) (key : str) (value : result pyval) : result pyval :=
  rbind (py_in key d) (fun present =>
  if present then Ok d
  else rbind value (fun v => py_setitem d key v)).

(** The body of the loop of [_validate_and_enhance_plan] for the task at
    index [i]. *)
Definition enhance_task (i : nat) (task : pyval) : result pyval :=
  rbind (set_default task (py "id") (Ok (PStr (py "task_" ++ str_of_nat (i + 1))))) (fun task =>
  rbind (set_default task (py "description") (Ok (PStr (py "子任务 " ++ str_of_nat (i + 1))))) (fun task =>
  rbind (set_default task (py "tool_type")
           (rbind (py_getitem task (py "description")) (fun d =>
            rbind (guess_tool_type_of d) (fun t => Ok (PStr t))))) (fun task =>
  set_default task (py "priority") (Ok (PStr (py "normal")))))).

Fixpoint enhance_tasks (i : nat) (tasks : list pyval) : result (list pyval) :=
  match tasks with
  | [] => Ok []
  | task :: rest =>
    rbind (enhance_task i task) (fun task' =>
    rbind (enhance_tasks (S i) rest) (fun rest' => Ok (task' :: rest')))
  end.

(** The tasks are changed in place: when [plan["tasks"]] is a list, the
    plan holds the enhanced tasks afterwards; the items of a string or of a
    dictionary are strings, which cannot change. *)
Definition _validate_and_enhance_plan (plan : pyval) : result pyval :=
  rbind (set_default plan (py "tasks") (Ok (PList []))) (fun plan =>
  rbind (set_default plan (py "strategy") (Ok (PStr (py "sequential")))) (fun plan =>
  rbind (set_default plan (py "estimated_time")
           (rbind (py_getitem plan (py "tasks")) (fun tasks =>
            rbind (py_len tasks) (fun n => Ok (PInt (Z.of_nat n * 30)))))) (fun plan =>
  rbind (py_getitem plan (py "tasks")) (fun tasks =>
  rbind (py_iter tasks) (fun items =>
  rbind (enhance_tasks 0 items) (fun items' =>
  match tasks with
  | PList _ => py_setitem plan (py "tasks") (PList items')
  | _ => Ok plan
  end)))))).

Definition _parse_plan (response : str) : M world pyval :=
  parsed <- safe_json_parse response ;;
  failed <- lift (py_in (py "error") parsed) ;;
  if failed then ret (_fallback_parse response)
  else lift (_validate_and_enhance_plan parsed).

Definition _save_planning_history (goal : str) (plan : pyval)
    (current_state feedback : option str) : M (SimpleDynamicPlanner * world) unit :=
  now <- on_world datetime_now ;;
  count <- lift (plan_task_count plan) ;;
  let entry := {| h_timestamp := now; h_goal := goal; h_plan := plan;
                  h_current_state := current_state; h_feedback := feedback;
                  h_task_count := count |} in
  update_self (fun self =>
    let history := planning_history self ++ [entry] in
    {| planning_history :=
         if (10 <? List.length history)%nat then last_n 10 history else history |}).

Definition plan (goal : str) (current_state feedback : option str)
    : M (SimpleDynamicPlanner * world) pyval :=
  let key := _select_template current_state feedback in
  self <- get_self ;;
  prompt <- lift (_build_prompt self key goal current_state feedback) ;;
  response <- on_world (generate prompt 1500) ;;
  plan <- on_world (_parse_plan response) ;;
  _save_planning_history goal plan current_state feedback ;;;
  ret plan.


(** The task list of the plan [_fallback_parse] builds. *)
Definition fallback_task_list (response : str) : list pyval :=
  match fallback_tasks (split_lines response) [] with
  | [] => [make_task (py "task_1") (prefix 200 response) (py "general") (py "normal")]
  | tasks => tasks
  end.

(** Every plan kept in the history has a task count, as every plan that
    [plan] has returned does. *)
Definition history_ok (self : SimpleDynamicPlanner) : Prop :=
  Forall (fun entry => exists n, plan_task_count (h_plan entry) = Ok n)
         (planning_history self).



End Planner.

#[global] Arguments _fallback_parse : simpl never.
#[global] Arguments _build_prompt : simpl never.
#[global] Arguments _select_template : simpl never.
#[global] Arguments render_template : simpl never.

End Planner.
Export Planner.

(** ** factory.py *)

Module Factory.
Section Factory.
Context {R : Runtime}.

Record AgentTemplate : Type := {
  tpl_persona : str;
  tpl_tools : list str;
  tpl_capabilities : list str
}.

Definition _init_agent_templates : list (str * AgentTemplate) :=
  [ (py "analyst",
     {| tpl_persona := py "你是一个专业的数据分析专家，擅长：
- 数据分析和统计推理
- 问题分解和逻辑思考  
- 量化评估和比较分析
- 趋势识别和模式发现

你的特点：
- 思维严谨，注重数据驱动
- 善于发现数据中的规律和异常
- 能够提供客观的分析结论
- 会使用适当的分析工具和方法";
        tpl_tools := [py "calculator"; py "data_analysis"; py "statistics"; py "visualization"; py "comparison"];
        tpl_capabilities := [py "数值计算和统计分析";
                             py "数据可视化和图表生成";
                             py "趋势分析和预测";
                             py "异常检测和模式识别";
                             py "量化评估和风险分析"] |});
    (py "executor",
     {| tpl_persona := py "你是一个高效的执行专家，擅长：
- 任务执行和操作实施
- 文件处理和系统操作
- 流程化工作和批量处理
- 结果生成和输出整理

你的特点：
- 执行力强，注重结果导向
- 善于将抽象需求转化为具体操作
- 能够高效完成重复性工作
- 注重输出质量和格式规范";
        tpl_tools := [py "file_ops"; py "api_calls"; py "text_processing"; py "format_converter"; py "batch_processor"];
        tpl_capabilities := [py "文件读写和格式转换";
                             py "批量数据处理";
                             py "API接口调用";
                             py "文档生成和格式化";
                             py "自动化流程执行"] |});
    (py "researcher",
     {| tpl_persona := py "你是一个专业的研究专家，擅长：
- 信息搜索和资料收集
- 知识整理和内容总结
- 多源信息综合分析
- 报告撰写和知识管理

你的特点：
- 知识面广，信息敏感度高
- 善于快速获取和筛选信息
- 能够从多个角度分析问题
- 注重信息的准确性和完整性";
        tpl_tools := [py "search"; py "web_scraping"; py "summarizer"; py "knowledge_base"; py "citation_manager"];
        tpl_capabilities := [py "信息搜索和资料收集";
                             py "内容总结和知识提取";
                             py "多源信息整合";
                             py "报告撰写和文档编制";
                             py "知识库构建和管理"] |}) ].

(** [task_type in self.agent_templates] *)
Definition in_templates (task_type : str) : bool :=
  match dict_get task_type _init_agent_templates with
  | Some _ => true
  | None => false
  end.

Definition analyst_keywords : list str :=
  [ py "分析"; py "计算"; py "推理"; py "统计"; py "评估"; py "比较"; py "研究";
    py "analysis"; py "calculate"; py "reasoning"; py "statistics"; py "evaluate" ].

Definition executor_keywords : list str :=
  [ py "执行"; py "操作"; py "运行"; py "处理"; py "生成"; py "创建"; py "构建"; py "实施";
    py "execute"; py "operate"; py "run"; py "process"; py "generate"; py "create"; py "build" ].

Definition researcher_keywords : list str :=
  [ py "搜索"; py "查找"; py "收集"; py "整理"; py "总结"; py "调研"; py "探索";
    py "search"; py "find"; py "collect"; py "organize"; py "summarize"; py "research" ].

(** [sum(1 for kw in keywords if kw in desc_lower)] *)
Definition keyword_score (keywords : list str) (desc_lower : str) : nat :=
  List.length (List.filter (fun kw => contains kw desc_lower) keywords).

Definition analyst_score (task_description : str) : nat :=
  keyword_score analyst_keywords (str_lower task_description).
Definition executor_score (task_description : str) : nat :=
  keyword_score executor_keywords (str_lower task_description).
Definition researcher_score (task_description : str) : nat :=
  keyword_score researcher_keywords (str_lower task_description).

Definition _select_agent_type (task_description : str) (task_type : option str) : str :=
  let by_keywords :=
    if (executor_score task_description <=? analyst_score task_description)%nat
       && (researcher_score task_description <=? analyst_score task_description)%nat
    then py "analyst"
    else if (researcher_score task_description <=? executor_score task_description)%nat
    then py "executor"
    else py "researcher" in
  match task_type with
  | Some t => if negb (str_eqb t []) && in_templates t then t else by_keywords
  | None => by_keywords
  end.

End Factory.

#[global] Arguments keyword_score : simpl never.

End Factory.
Export Factory.

(** ** actor.py *)

Module Actor.
Section Actor.
Context {R : Runtime}.

(** One entry of [steps]: the step that records a completion response, or
    a thought/action/result step. *)
Inductive Step : Type :=
| CompletionStep (iteration : nat) (response result timestamp : str)
| ActionStep (iteration : nat) (thought action result timestamp : str).

Definition step_iteration (step : Step) : nat :=
  match step with
  | CompletionStep i _ _ _ => i
  | ActionStep i _ _ _ _ => i
  end.

(** [step.get("type") == "completion"] *)
Definition is_completion_step (step : Step) : bool :=
  match step with
  | CompletionStep _ _ _ _ => true
  | ActionStep _ _ _ _ _ => false
  end.

(** [step.get("thought", default)] and the like. *)
Definition step_thought (step : Step) (default : str) : str :=
  match step with
  | CompletionStep _ _ _ _ => default
  | ActionStep _ thought _ _ _ => thought
  end.

Definition step_action (step : Step) (default : str) : str :=
  match step with
  | CompletionStep _ _ _ _ => default
  | ActionStep _ _ action _ _ => action
  end.

Definition step_result (step : Step) : str :=
  match step with
  | CompletionStep _ _ result _ => result
  | ActionStep _ _ _ result _ => result
  end.

Record LogEntry : Type := {
  log_timestamp : str;
  log_task : str;
  log_result : str;
  log_success : bool;
  log_agent_type : str
}.

Inductive ActorStatus : Type := idle | working | completed | error.

(** The actor object; the elapsed time of a log entry (a float) is left
    out. *)
Record SimpleActor : Type := {
  agent_id : str;
  agent_type : str;
  persona : str;
  available_tools : list str;
  capabilities : list str;
  status : ActorStatus;
  current_task : option str;
  execution_history : list LogEntry;
  created_time : str
}.

Definition set_status (v : ActorStatus) (self : SimpleActor) : SimpleActor :=
  {| agent_id := agent_id self; agent_type := agent_type self; persona := persona self;
     available_tools := available_tools self; capabilities := capabilities self;
     status := v; current_task := current_task self;
     execution_history := execution_history self; created_time := created_time self |}.

Definition set_current_task (v : option str) (self : SimpleActor) : SimpleActor :=
  {| agent_id := agent_id self; agent_type := agent_type self; persona := persona self;
     available_tools := available_tools self; capabilities := capabilities self;
     status := status self; current_task := v;
     execution_history := execution_history self; created_time := created_time self |}.

Definition set_execution_history (v : list LogEntry) (self : SimpleActor) : SimpleActor :=
  {| agent_id := agent_id self; agent_type := agent_type self; persona := persona self;
     available_tools := available_tools self; capabilities := capabilities self;
     status := status self; current_task := current_task self;
     execution_history := v; created_time := created_time self |}.

(** The context: a dictionary from strings to strings, in insertion
    order. *)
Definition ContextDict : Type := list (str * str).

(** *** The tools *)

Definition _tool_search (query : str) : result str :=
  Ok (py "搜索结果: 关于'" ++ query
      ++ py "'的相关信息。[这是模拟结果，实际实现可集成真实搜索API]").

Definition calc_char (c : N) : bool :=
  ((48 <=? c) && (c <=? 57))
  || existsb (N.eqb c) (py "+-*/().%")
  || is_space c.

(** [re.match(r'^[0-9+\-*/().%\s]+$', expression)]: one or more characters
    of the class, up to the end of the string or up to a newline that ends
    it. *)
Definition class_run (s : str) : bool :=
  match s with
  | [] => false
  | _ => forallb calc_char s
  end.

Definition re_match_expression (expression : str) : bool :=
  class_run expression
  || match rev expression with
     | c :: r => (c =? 10) && class_run (rev r)
     | [] => false
     end.

Definition _tool_calculator (expression : str) : result str :=
  rcatch
    (if re_match_expression expression then
       rbind (py_eval expression) (fun result =>
       Ok (py "计算结果: " ++ expression ++ py " = " ++ result))
     else Ok (py "无效的数学表达式: " ++ expression))
    (fun e => Ok (py "计算错误: " ++ exn_msg e)).

Definition _tool_data_analysis (data_description : str) : result str :=
  Ok (py "数据分析结果: 对'" ++ data_description
      ++ py "'进行了分析。[这是模拟结果，实际实现可集成数据分析库]").

Definition _tool_file_ops (operation : str) : result str :=
  Ok (py "文件操作结果: 执行了'" ++ operation
      ++ py "'操作。[这是模拟结果，实际实现可进行真实文件操作]").

Definition _tool_summarizer (text : str) : result str :=
  let summary := if (200 <? List.length text)%nat then prefix 200 text ++ py "..." else text in
  Ok (py "总结结果: " ++ summary).

Definition _tool_general (input_text : str) : result str :=
  Ok (py "处理结果: 已处理输入'" ++ prefix 100 input_text ++ py "...'").

Definition _init_tool_implementations : list (str * (str -> result str)) :=
  [ (py "search", _tool_search);
    (py "calculator", _tool_calculator);
    (py "data_analysis", _tool_data_analysis);
    (py "file_ops", _tool_file_ops);
    (py "summarizer", _tool_summarizer);
    (py "general", _tool_general) ].

(** *** Prompts *)

Definition _format_context (context : ContextDict) : str :=
  match context with
  | [] => py "无额外上下文"
  | _ =>
    let formatted :=
      flat_map (fun kv =>
        let '(key, value) := kv in
        if startswith key (py "_") then []
        else
          let value_str := if (100 <? List.length value)%nat
                           then prefix 100 value ++ py "..." else value in
          [py "- " ++ key ++ py ": " ++ value_str]) context in
    match formatted with
    | [] => py "无额外上下文"
    | _ => join [10] formatted
    end
  end.

Definition _format_steps (steps : list Step) : str :=
  join [10]
    (map (fun step =>
            py "步骤" ++ str_of_nat (step_iteration step)
            ++ py ": 思考=" ++ prefix 100 (step_thought step [])
            ++ py " 行动=" ++ prefix 100 (step_action step [])
            ++ py " 结果=" ++ prefix 100 (step_result step))
         (last_n 3 steps)).

Definition _build_react_prompt (self : SimpleActor) (task_description : str)
    (context : ContextDict) (steps : list Step) (iteration : nat) : str :=
  let prompt := persona self ++ py "

当前任务: " ++ task_description ++ py "

可用工具: " ++ join (py ", ") (available_tools self) ++ py "

上下文信息: " ++ _format_context context in
  let prompt := match steps with
                | [] => prompt
                | _ => prompt ++ py "

执行历史:
" ++ _format_steps steps
                end in
  if (iteration =? 0)%nat then
    prompt ++ pyq "

请按照以下格式思考和行动：

思考: [分析当前情况，确定下一步行动]
行动: [选择合适的工具或直接回答]

如果任务已完成，请以`完成:`开始你的回复，然后提供最终结果。

现在开始第" ++ str_of_nat (iteration + 1) ++ py "步："
  else
    prompt ++ py "

请继续执行任务，这是第" ++ str_of_nat (iteration + 1) ++ py "步：
思考: [基于前面的结果，分析下一步需要做什么]
行动: [选择行动或提供最终答案]".

(** *** The loop *)

Definition _is_completion_response (response : str) : bool :=
  startswith (strip response) (py "完成:") || startswith (strip response) (py "完成：").

Definition _extract_completion_result (response : str) : str :=
  if contains (py "完成:") response then strip (split1_snd (py "完成:") response)
  else if contains (py "完成：") response then strip (split1_snd (py "完成：") response)
  else strip response.

Definition tool_mapping : list (str * str) :=
  [ (py "搜索", py "search");
    (py "计算", py "calculator");
    (py "分析", py "data_analysis");
    (py "文件", py "file_ops");
    (py "总结", py "summarizer") ].

Definition _parse_tool_call (self : SimpleActor) (action : str) : str * str :=
  let action := strip action in
  let guessed :=
    let action_lower := str_lower action in
    if any_in [py "搜索"; py "查找"; py "search"] action_lower then (py "search", action)
    else if any_in [py "计算"; py "数学"; py "calc"] action_lower then (py "calculator", action)
    else if any_in [py "分析"; py "analysis"] action_lower then (py "data_analysis", action)
    else (py "general", action) in
  match find (py ":") action with
  | Some (before, after) =>
    let tool_name := str_lower (strip before) in
    let tool_input := strip after in
    match dict_get tool_name tool_mapping with
    | Some tool => (tool, tool_input)
    | None =>
      if bool_decide (tool_name ∈ available_tools self) then (tool_name, tool_input)
      else guessed
    end
  | None => guessed
  end.

Definition _execute_action (self : SimpleActor) (action : str) : str :=
  match action with
  | [] => py "无效行动"
  | _ =>
    let '(tool_name, tool_input) := _parse_tool_call self action in
    match dict_get tool_name _init_tool_implementations with
    | Some tool =>
      match tool tool_input with
      | Ok text => text
      | Raise e => py "工具执行失败: " ++ exn_msg e
      end
    | None => py "思考结果: " ++ action
    end
  end.

Definition _should_continue (action_result : str) (iteration : nat) (max_iterations : Z) : bool :=
  if contains (py "失败") action_result || contains (py "错误") action_result then
    (Z.of_nat iteration <? max_iterations - 2)%Z
  else if any_in [py "完成"; py "成功"; py "结束"; py "completed"; py "finished"]
                 (str_lower action_result) then false
  else true.

Definition _generate_summary (task_description : str) (steps : list Step) (timeout : bool) : str :=
  match steps with
  | [] => py "无法完成任务，未执行任何步骤"
  | _ =>
    let summary :=
      (if timeout then py "任务执行超时（" else py "任务执行完成（")
      ++ str_of_nat (List.length steps) ++ py "步）: " ++ task_description ++ [10; 10] in
    let summary := summary ++ py "执行过程:" ++ [10] in
    let summary :=
      fold_left (fun summary step =>
        if is_completion_step step
        then summary ++ py "最终结果: " ++ step_result step ++ [10]
        else summary ++ py "- " ++ prefix 100 (step_thought step (py "N/A")) ++ [10])
        steps summary in
    match last steps with
    | Some last_step =>
      if is_completion_step last_step
      then summary ++ [10] ++ py "最终输出: " ++ step_result last_step
      else summary ++ [10] ++ py "最新结果: " ++ prefix 200 (step_result last_step)
    | None => summary
    end
  end.

(** The iterations of [for iteration in range(max_iterations)] that are
    left, with the local variables [context] and [steps]. *)
Fixpoint react_iterations (self : SimpleActor) (task_description : str)
    (max_iterations : Z) (iterations : list nat)
    (context : ContextDict) (steps : list Step) : M world str :=
  match iterations with
  | [] => ret (_generate_summary task_description steps true)
  | iteration :: rest =>
    let prompt := _build_react_prompt self task_description context steps iteration in
    response <- generate prompt 800 ;;
    if _is_completion_response response then
      let final_result := _extract_completion_result response in
      timestamp <- datetime_now ;;
      let steps := steps ++ [CompletionStep (iteration + 1) response final_result timestamp] in
      ret final_result
    else
      let '(thought, action) := parse_response response in
      let action_result := _execute_action self action in
      timestamp <- datetime_now ;;
      let steps := steps ++ [ActionStep (iteration + 1) thought action action_result timestamp] in
      let context := dict_set (py "last_action") action context in
      let context := dict_set (py "last_result") action_result context in
      if _should_continue action_result iteration max_iterations then
        react_iterations self task_description max_iterations rest context steps
      else ret (_generate_summary task_description steps false)
  end.

Definition _react_loop (self : SimpleActor) (task_description : str) (context : ContextDict)
    : M world str :=
  let max_iterations := MAX_ITERATIONS in
  react_iterations self task_description max_iterations
    (seq 0 (Z.to_nat max_iterations)) context [].

Definition _log_execution_result (task result : str) (success : bool)
    : M (SimpleActor * world) unit :=
  timestamp <- on_world datetime_now ;;
  self <- get_self ;;
  let log_entry := {| log_timestamp := timestamp;
                      log_task := prefix 200 task;
                      log_result := prefix 500 result;
                      log_success := success;
                      log_agent_type := agent_type self |} in
  let history := execution_history self ++ [log_entry] in
  update_self (set_execution_history
                 (if (20 <? List.length history)%nat then last_n 20 history else history)).

(** [execute(task_description, context)]; [context or {}] is the context
    given, or a new empty one. *)
Definition execute (task_description : str) (context : option ContextDict)
    : M (SimpleActor * world) str :=
  update_self (set_status working) ;;;
  update_self (set_current_task (Some task_description)) ;;;
  let context := match context with Some c => c | None => [] end in
  try_finally
    (try_except
       (self <- get_self ;;
        result <- on_world (_react_loop self task_description context) ;;
        update_self (set_status completed) ;;;
        _log_execution_result task_description result true ;;;
        ret result)
       (fun e =>
        update_self (set_status error) ;;;
        let error_msg := py "任务执行失败: " ++ exn_msg e in
        _log_execution_result task_description error_msg false ;;;
        ret error_msg))
    (update_self (set_current_task None)).

(** The actor while the loop runs. *)
Definition started (self : SimpleActor) (task : str) : SimpleActor :=
  set_current_task (Some task) (set_status working self).

(** A summary tagged as a timeout. *)
Definition is_timeout_summary (result : str) : bool :=
  startswith result (py "任务执行超时").

(** From the state [g] on, the generator answers every call with a text
    that satisfies [P]. *)
Definition always_answers (P : str -> Prop) (g : gen_state) : Prop :=
  exists Inv : gen_state -> Prop,
    Inv g /\
    forall g0, Inv g0 -> forall prompt max_tokens,
      exists response g1,
        llm_generate prompt max_tokens g0 = (Ok response, g1) /\ Inv g1 /\ P response.

(** The generator answers its next [rounds] calls, and its answer to the
    call number [k], counted from 0, satisfies [P k]. *)
Definition answers_in_turn (P : nat -> str -> Prop) (rounds : nat) (g : gen_state) : Prop :=
  exists Inv : nat -> gen_state -> Prop,
    Inv 0%nat g /\
    forall k g0, (k < rounds)%nat -> Inv k g0 -> forall prompt max_tokens,
      exists response g1,
        llm_generate prompt max_tokens g0 = (Ok response, g1) /\ Inv (S k) g1 /\ P k response.

(** A response on which the loop goes on at the iteration [iteration]: it
    is not a completion, and the result of its action passes
    [_should_continue] at this iteration. *)
Definition goes_on_at (self : SimpleActor) (iteration : nat) (response : str) : Prop :=
  _is_completion_response response = false /\
  _should_continue (_execute_action self (snd (parse_response response)))
                   iteration MAX_ITERATIONS = true.

End Actor.

#[global] Arguments _build_react_prompt : simpl never.
#[global] Arguments _is_completion_response : simpl never.
#[global] Arguments _extract_completion_result : simpl never.
#[global] Arguments _execute_action : simpl never.
#[global] Arguments _should_continue : simpl never.
#[global] Arguments _generate_summary : simpl never.

End Actor.
Export Actor.

(** ** progress.py *)

Module Progress.
Section Progress.
Context {R : Runtime}.

(** A task; the keys of the dictionary are the fields, [None] is an absent
    value. The status is whatever string the caller passed. *)
Record Task : Type := {
  task_id : str;
  t_description : str;
  t_type : str;
  t_status : str;
  t_priority : str;
  t_subtasks : list str;
  t_assigned_agent : option str;
  t_progress : Q;
  t_start_time : option str;
  t_end_time : option str;
  t_result : option str;
  t_error_message : option str;
  t_created_time : str;
  t_updated_time : str
}.

(** An agent record; [updated_time] is absent until the first assignment. *)
Record AgentRecord : Type := {
  a_agent_id : str;
  a_status : str;
  a_current_task : option str;
  a_assigned_tasks : list str;
  a_completed_tasks : list str;
  a_failed_tasks : list str;
  a_created_time : str;
  a_updated_time : option str
}.

Record SystemStats : Type := {
  s_created_time : str;
  total_tasks : Z;
  completed_tasks : Z;
  failed_tasks : Z;
  active_agents : Z
}.

(** What [_save_state] writes to the state file. *)
Record Snapshot : Type := {
  snap_tasks : gmap str Task;
  snap_agents : gmap str AgentRecord;
  snap_system_stats : SystemStats;
  snap_timestamp : str
}.

(** The manager: its two dictionaries, the statistics, and what the state
    file holds. *)
Record SimpleProgressManager : Type := {
  tasks : gmap str Task;
  agents : gmap str AgentRecord;
  system_stats : SystemStats;
  state_file : option Snapshot
}.

Definition set_t_status (v : str) (x : Task) : Task :=
  {| task_id := task_id x; t_description := t_description x; t_type := t_type x;
     t_status := v; t_priority := t_priority x; t_subtasks := t_subtasks x;
     t_assigned_agent := t_assigned_agent x; t_progress := t_progress x;
     t_start_time := t_start_time x; t_end_time := t_end_time x;
     t_result := t_result x; t_error_message := t_error_message x;
     t_created_time := t_created_time x; t_updated_time := t_updated_time x |}.

Definition set_t_assigned_agent (v : option str) (x : Task) : Task :=
  {| task_id := task_id x; t_description := t_description x; t_type := t_type x;
     t_status := t_status x; t_priority := t_priority x; t_subtasks := t_subtasks x;
     t_assigned_agent := v; t_progress := t_progress x; t_start_time := t_start_time x;
     t_end_time := t_end_time x; t_result := t_result x;
     t_error_message := t_error_message x; t_created_time := t_created_time x;
     t_updated_time := t_updated_time x |}.

Definition set_t_progress (v : Q) (x : Task) : Task :=
  {| task_id := task_id x; t_description := t_description x; t_type := t_type x;
     t_status := t_status x; t_priority := t_priority x; t_subtasks := t_subtasks x;
     t_assigned_agent := t_assigned_agent x; t_progress := v;
     t_start_time := t_start_time x; t_end_time := t_end_time x;
     t_result := t_result x; t_error_message := t_error_message x;
     t_created_time := t_created_time x; t_updated_time := t_updated_time x |}.

Definition set_t_start_time (v : option str) (x : Task) : Task :=
  {| task_id := task_id x; t_description := t_description x; t_type := t_type x;
     t_status := t_status x; t_priority := t_priority x; t_subtasks := t_subtasks x;
     t_assigned_agent := t_assigned_agent x; t_progress := t_progress x;
     t_start_time := v; t_end_time := t_end_time x; t_result := t_result x;
     t_error_message := t_error_message x; t_created_time := t_created_time x;
     t_updated_time := t_updated_time x |}.

Definition set_t_end_time (v : option str) (x : Task) : Task :=
  {| task_id := task_id x; t_description := t_description x; t_type := t_type x;
     t_status := t_status x; t_priority := t_priority x; t_subtasks := t_subtasks x;
     t_assigned_agent := t_assigned_agent x; t_progress := t_progress x;
     t_start_time := t_start_time x; t_end_time := v; t_result := t_result x;
     t_error_message := t_error_message x; t_created_time := t_created_time x;
     t_updated_time := t_updated_time x |}.

Definition set_t_result (v : option str) (x : Task) : Task :=
  {| task_id := task_id x; t_description := t_description x; t_type := t_type x;
     t_status := t_status x; t_priority := t_priority x; t_subtasks := t_subtasks x;
     t_assigned_agent := t_assigned_agent x; t_progress := t_progress x;
     t_start_time := t_start_time x; t_end_time := t_end_time x; t_result := v;
     t_error_message := t_error_message x; t_created_time := t_created_time x;
     t_updated_time := t_updated_time x |}.

Definition set_t_error_message (v : option str) (x : Task) : Task :=
  {| task_id := task_id x; t_description := t_description x; t_type := t_type x;
     t_status := t_status x; t_priority := t_priority x; t_subtasks := t_subtasks x;
     t_assigned_agent := t_assigned_agent x; t_progress := t_progress x;
     t_start_time := t_start_time x; t_end_time := t_end_time x;
     t_result := t_result x; t_error_message := v; t_created_time := t_created_time x;
     t_updated_time := t_updated_time x |}.

Definition set_t_updated_time (v : str) (x : Task) : Task :=
  {| task_id := task_id x; t_description := t_description x; t_type := t_type x;
     t_status := t_status x; t_priority := t_priority x; t_subtasks := t_subtasks x;
     t_assigned_agent := t_assigned_agent x; t_progress := t_progress x;
     t_start_time := t_start_time x; t_end_time := t_end_time x;
     t_result := t_result x; t_error_message := t_error_message x;
     t_created_time := t_created_time x; t_updated_time := v |}.

Definition set_a_status (v : str) (x : AgentRecord) : AgentRecord :=
  {| a_agent_id := a_agent_id x; a_status := v; a_current_task := a_current_task x;
     a_assigned_tasks := a_assigned_tasks x; a_completed_tasks := a_completed_tasks x;
     a_failed_tasks := a_failed_tasks x; a_created_time := a_created_time x;
     a_updated_time := a_updated_time x |}.

Definition set_a_current_task (v : option str) (x : AgentRecord) : AgentRecord :=
  {| a_agent_id := a_agent_id x; a_status := a_status x; a_current_task := v;
     a_assigned_tasks := a_assigned_tasks x; a_completed_tasks := a_completed_tasks x;
     a_failed_tasks := a_failed_tasks x; a_created_time := a_created_time x;
     a_updated_time := a_updated_time x |}.

Definition set_a_assigned_tasks (v : list str) (x : AgentRecord) : AgentRecord :=
  {| a_agent_id := a_agent_id x; a_status := a_status x;
     a_current_task := a_current_task x; a_assigned_tasks := v;
     a_completed_tasks := a_completed_tasks x; a_failed_tasks := a_failed_tasks x;
     a_created_time := a_created_time x; a_updated_time := a_updated_time x |}.

Definition set_a_completed_tasks (v : list str) (x : AgentRecord) : AgentRecord :=
  {| a_agent_id := a_agent_id x; a_status := a_status x;
     a_current_task := a_current_task x; a_assigned_tasks := a_assigned_tasks x;
     a_completed_tasks := v; a_failed_tasks := a_failed_tasks x;
     a_created_time := a_created_time x; a_updated_time := a_updated_time x |}.

Definition set_a_failed_tasks (v : list str) (x : AgentRecord) : AgentRecord :=
  {| a_agent_id := a_agent_id x; a_status := a_status x;
     a_current_task := a_current_task x; a_assigned_tasks := a_assigned_tasks x;
     a_completed_tasks := a_completed_tasks x; a_failed_tasks := v;
     a_created_time := a_created_time x; a_updated_time := a_updated_time x |}.

Definition set_a_updated_time (v : option str) (x : AgentRecord) : AgentRecord :=
  {| a_agent_id := a_agent_id x; a_status := a_status x;
     a_current_task := a_current_task x; a_assigned_tasks := a_assigned_tasks x;
     a_completed_tasks := a_completed_tasks x; a_failed_tasks := a_failed_tasks x;
     a_created_time := a_created_time x; a_updated_time := v |}.

Definition set_total_tasks (v : Z) (x : SystemStats) : SystemStats :=
  {| s_created_time := s_created_time x; total_tasks := v;
     completed_tasks := completed_tasks x; failed_tasks := failed_tasks x;
     active_agents := active_agents x |}.

Definition set_completed_tasks (v : Z) (x : SystemStats) : SystemStats :=
  {| s_created_time := s_created_time x; total_tasks := total_tasks x;
     completed_tasks := v; failed_tasks := failed_tasks x;
     active_agents := active_agents x |}.

Definition set_failed_tasks (v : Z) (x : SystemStats) : SystemStats :=
  {| s_created_time := s_created_time x; total_tasks := total_tasks x;
     completed_tasks := completed_tasks x; failed_tasks := v;
     active_agents := active_agents x |}.

Definition set_active_agents (v : Z) (x : SystemStats) : SystemStats :=
  {| s_created_time := s_created_time x; total_tasks := total_tasks x;
     completed_tasks := completed_tasks x; failed_tasks := failed_tasks x;
     active_agents := v |}.

Definition set_tasks (v : gmap str Task) (self : SimpleProgressManager) : SimpleProgressManager :=
  {| tasks := v; agents := agents self; system_stats := system_stats self;
     state_file := state_file self |}.

Definition set_agents (v : gmap str AgentRecord) (self : SimpleProgressManager)
    : SimpleProgressManager :=
  {| tasks := tasks self; agents := v; system_stats := system_stats self;
     state_file := state_file self |}.

Definition set_system_stats (v : SystemStats) (self : SimpleProgressManager)
    : SimpleProgressManager :=
  {| tasks := tasks self; agents := agents self; system_stats := v;
     state_file := state_file self |}.

Definition set_state_file (v : option Snapshot) (self : SimpleProgressManager)
    : SimpleProgressManager :=
  {| tasks := tasks self; agents := agents self; system_stats := system_stats self;
     state_file := v |}.

(** [task[...] = ...] on the task stored under [task_id], and the same for
    an agent: the dictionaries hold the objects that are changed. *)
Definition update_task (task_id : str) (f : Task -> Task) : M (SimpleProgressManager * world) unit :=
  update_self (fun self => set_tasks (alter f task_id (tasks self)) self).

Definition update_agent (agent_id : str) (f : AgentRecord -> AgentRecord)
    : M (SimpleProgressManager * world) unit :=
  update_self (fun self => set_agents (alter f agent_id (agents self)) self).

Definition update_stats (f : SystemStats -> SystemStats) : M (SimpleProgressManager * world) unit :=
  update_self (fun self => set_system_stats (f (system_stats self)) self).

Definition now : M (SimpleProgressManager * world) str := on_world datetime_now.

(** [save_json_file(state_data, self.state_file)]; a failed write is only
    logged. *)
Definition _save_state : M (SimpleProgressManager * world) unit :=
  self <- get_self ;;
  timestamp <- now ;;
  ok <- (fun ow => (Ok (write_succeeds (w_clock (snd ow))), ow)) ;;
  if ok : bool then
    update_self (set_state_file
      (Some {| snap_tasks := tasks self; snap_agents := agents self;
               snap_system_stats := system_stats self; snap_timestamp := timestamp |}))
  else ret tt.

Definition create_task (description task_type : str) (subtasks : option (list str))
    (priority : str) : M (SimpleProgressManager * world) str :=
  task_id <- on_world generate_task_id ;;
  created <- now ;;
  updated <- now ;;
  let task := {| task_id := task_id; t_description := description; t_type := task_type;
                 t_status := py "pending"; t_priority := priority;
                 t_subtasks := match subtasks with Some (x :: l) => x :: l | _ => [] end;
                 t_assigned_agent := None; t_progress := 0;
                 t_start_time := None; t_end_time := None; t_result := None;
                 t_error_message := None;
                 t_created_time := created; t_updated_time := updated |} in
  update_self (fun self => set_tasks (<[task_id := task]> (tasks self)) self) ;;;
  update_stats (fun st => set_total_tasks (total_tasks st + 1)%Z st) ;;;
  _save_state ;;;
  ret task_id.

Definition assign_task (task_id agent_id : str) : M (SimpleProgressManager * world) bool :=
  self <- get_self ;;
  match tasks self !! task_id with
  | None => ret false
  | Some task =>
    if negb (str_eqb (t_status task) (py "pending")) then ret false
    else
      update_task task_id (set_t_assigned_agent (Some agent_id)) ;;;
      update_task task_id (set_t_status (py "running")) ;;;
      t <- now ;; update_task task_id (set_t_start_time (Some t)) ;;;
      t <- now ;; update_task task_id (set_t_updated_time t) ;;;
      self <- get_self ;;
      (match agents self !! agent_id with
       | None =>
         t <- now ;;
         update_self (fun self => set_agents
           (<[agent_id := {| a_agent_id := agent_id; a_status := py "active";
                             a_current_task := Some task_id; a_assigned_tasks := [];
                             a_completed_tasks := []; a_failed_tasks := [];
                             a_created_time := t; a_updated_time := None |}]>
              (agents self)) self) ;;;
         update_stats (fun st => set_active_agents (active_agents st + 1)%Z st)
       | Some _ => ret tt
       end) ;;;
      update_agent agent_id (set_a_current_task (Some task_id)) ;;;
      update_agent agent_id (set_a_status (py "working")) ;;;
      update_agent agent_id (fun a => set_a_assigned_tasks (a_assigned_tasks a ++ [task_id]) a) ;;;
      t <- now ;; update_agent agent_id (set_a_updated_time (Some t)) ;;;
      _save_state ;;;
      ret true
  end.

Definition is_terminal (status : str) : bool :=
  bool_decide (status ∈ [py "completed"; py "failed"; py "cancelled"]).

(** [max(0.0, min(100.0, progress))] *)
Definition clamp_progress (progress : Q) : Q :=
  let m := if Qle_bool 100 progress then 100%Q else progress in
  if Qle_bool m 0 then 0%Q else m.

(** The part of [update_progress] under [if status is not None]. *)
Definition update_status (task_id status : str) : M (SimpleProgressManager * world) unit :=
  self <- get_self ;;
  match tasks self !! task_id with
  | None => ret tt
  | Some task =>
    update_task task_id (set_t_status status) ;;;
    if is_terminal status && bool_decide (t_end_time task = None) then
      t <- now ;; update_task task_id (set_t_end_time (Some t)) ;;;
      (if str_eqb status (py "completed") then
         update_stats (fun st => set_completed_tasks (completed_tasks st + 1)%Z st)
       else if str_eqb status (py "failed") then
         update_stats (fun st => set_failed_tasks (failed_tasks st + 1)%Z st)
       else ret tt) ;;;
      match t_assigned_agent task with
      | Some (c :: r) =>
        let agent_id := c :: r in
        match agents self !! agent_id with
        | Some _ =>
          update_agent agent_id (set_a_current_task None) ;;;
          update_agent agent_id (set_a_status (py "idle")) ;;;
          if str_eqb status (py "completed") then
            update_agent agent_id
              (fun a => set_a_completed_tasks (a_completed_tasks a ++ [task_id]) a)
          else if str_eqb status (py "failed") then
            update_agent agent_id
              (fun a => set_a_failed_tasks (a_failed_tasks a ++ [task_id]) a)
          else ret tt
        | None => ret tt
        end
      | _ => ret tt
      end
    else ret tt
  end.

Definition update_progress (task_id : str) (progress : option Q)
    (status result error_message : option str) : M (SimpleProgressManager * world) bool :=
  self <- get_self ;;
  match tasks self !! task_id with
  | None => ret false
  | Some _ =>
    (match progress with
     | Some p => update_task task_id (set_t_progress (clamp_progress p))
     | None => ret tt
     end) ;;;
    (match status with
     | Some s => update_status task_id s
     | None => ret tt
     end) ;;;
    (match result with
     | Some r => update_task task_id (set_t_result (Some r))
     | None => ret tt
     end) ;;;
    (match error_message with
     | Some e => update_task task_id (set_t_error_message (Some e))
     | None => ret tt
     end) ;;;
    let updated := match progress, status, result, error_message with
                   | None, None, None, None => false
                   | _, _, _, _ => true
                   end in
    if updated then
      t <- now ;; update_task task_id (set_t_updated_time t) ;;;
      _save_state ;;;
      ret true
    else ret false
  end.

Definition complete_task (task_id result : str) : M (SimpleProgressManager * world) bool :=
  update_progress task_id (Some 100%Q) (Some (py "completed")) (Some result) None.

Definition fail_task (task_id error_message : str) : M (SimpleProgressManager * world) bool :=
  update_progress task_id None (Some (py "failed")) None (Some error_message).

Definition cancel_task (task_id : str) (reason : option str)
    : M (SimpleProgressManager * world) bool :=
  let error_msg := match reason with
                   | Some (c :: r) => py "任务已取消: " ++ (c :: r)
                   | _ => py "任务已取消"
                   end in
  update_progress task_id None (Some (py "cancelled")) None (Some error_msg).

(** [_load_state]: the collections of the state file, when there is one. *)
Definition _load_state (self : SimpleProgressManager) : SimpleProgressManager :=
  match state_file self with
  | Some data =>
    set_system_stats (snap_system_stats data)
      (set_agents (snap_agents data) (set_tasks (snap_tasks data) self))
  | None => self
  end.

(** [SimpleProgressManager(state_file)], [file] being what the state file
    holds. *)
Definition init (file : option Snapshot) : M world SimpleProgressManager :=
  created <- datetime_now ;;
  ret (_load_state
         {| tasks := ∅; agents := ∅;
            system_stats := {| s_created_time := created; total_tasks := 0;
                               completed_tasks := 0; failed_tasks := 0;
                               active_agents := 0 |};
            state_file := file |}).

(** *** Sequences of operations *)

Inductive Op : Type :=
| CreateTask (description task_type : str) (subtasks : option (list str)) (priority : str)
| AssignTask (task_id agent_id : str)
| UpdateProgress (task_id : str) (progress : option Q) (status result error_message : option str)
| CompleteTask (task_id result : str)
| FailTask (task_id error_message : str)
| CancelTask (task_id : str) (reason : option str).

Definition call (op : Op) : M (SimpleProgressManager * world) unit :=
  match op with
  | CreateTask d ty sub prio => create_task d ty sub prio ;;; ret tt
  | AssignTask t a => assign_task t a ;;; ret tt
  | UpdateProgress t p s r e => update_progress t p s r e ;;; ret tt
  | CompleteTask t r => complete_task t r ;;; ret tt
  | FailTask t e => fail_task t e ;;; ret tt
  | CancelTask t r => cancel_task t r ;;; ret tt
  end.

Fixpoint run (ops : list Op) : M (SimpleProgressManager * world) unit :=
  match ops with
  | [] => ret tt
  | op :: rest => call op ;;; run rest
  end.

(** The status an operation asks for, for the task [task_id]. *)
Definition requested_status (op : Op) (task_id : str) : option str :=
  match op with
  | UpdateProgress t _ (Some s) _ _ => if str_eqb t task_id then Some s else None
  | CompleteTask t _ => if str_eqb t task_id then Some (py "completed") else None
  | FailTask t _ => if str_eqb t task_id then Some (py "failed") else None
  | CancelTask t _ => if str_eqb t task_id then Some (py "cancelled") else None
  | _ => None
  end.

(** The identifier [generate_task_id] returns at the n-th reading of the
    clock. *)
Definition task_id_at (n : nat) : str := py "task_" ++ str_of_Z (time_ms n).

(** The operation creates a task under the identifier [task_id]. *)
Definition creates (op : Op) (w : world) (task_id : str) : Prop :=
  match op with
  | CreateTask _ _ _ _ => task_id_at (w_clock w) = task_id
  | _ => False
  end.

(** Whether an update to [status] is the first one that ends the task. *)
Definition ends_task (task : Task) (status : str) : bool :=
  is_terminal status && bool_decide (t_end_time task = None).

Definition ends_with (task : Task) (status : option str) : bool :=
  match status with
  | Some s => ends_task task s
  | None => false
  end.

(** The statistics after a task has ended with [status]. *)
Definition count_end (status : str) (st : SystemStats) : SystemStats :=
  if str_eqb status (py "completed") then set_completed_tasks (completed_tasks st + 1)%Z st
  else if str_eqb status (py "failed") then set_failed_tasks (failed_tasks st + 1)%Z st
  else st.

Definition any_given (progress : option Q) (status result error_message : option str) : bool :=
  match progress, status, result, error_message with
  | None, None, None, None => false
  | _, _, _, _ => true
  end.

(** What one operation may do to a task: [rq] is the status it asks for
    for this task, [assigning] says that it is an assignment of this task,
    [w] is the world it starts in. *)
Definition task_step (rq : option str) (assigning : Prop) (w : world) (task task' : Task) : Prop :=
  (t_end_time task' = t_end_time task \/
   t_end_time task = None /\ t_end_time task' = Some (now_isoformat (w_clock w)) /\
   exists s, rq = Some s /\ is_terminal s = true) /\
  (forall s, rq = Some s -> is_terminal s = true -> t_end_time task' <> None) /\
  (t_status task' = t_status task \/
   assigning /\ t_status task = py "pending" /\ t_status task' = py "running" \/
   rq = Some (t_status task')) /\
  (forall s, rq = Some s -> t_status task' = s).

(** The transitions of the life cycle pending, running, then completed,
    failed or cancelled, a pending task being cancellable too. *)
Definition allowed_transition (old new : str) : bool :=
  (str_eqb old (py "pending") && str_eqb new (py "running"))
  || (str_eqb old (py "running") && is_terminal new)
  || (str_eqb old (py "pending") && str_eqb new (py "cancelled")).

End Progress.

#[global] Arguments _save_state : simpl never.
#[global] Arguments update_status : simpl never.

End Progress.
Export Progress.

(** ** A runtime for the examples

    An implementation of [Runtime] on which the definitions compute: the
    JSON grammar of RFC 8259 with the decoder's extensions, the integer
    fragment of [eval], a scripted generator and a clock that ticks. It
    stands in for the interpreter at the concrete inputs of the examples
    and plays no part in the general theorems. *)

Module Reference.

(** *** The JSON decoder *)

Definition is_json_ws (c : N) : bool :=
  (c =? 32) || (c =? 9) || (c =? 10) || (c =? 13).

Fixpoint skip_ws (s : str) : str :=
  match s with
  | c :: r => if is_json_ws c then skip_ws r else s
  | [] => []
  end.

Definition is_digit (c : N) : bool := (48 <=? c) && (c <=? 57).

Definition hex_value (c : N) : option N :=
  if is_digit c then Some (c - 48)
  else if (97 <=? c) && (c <=? 102) then Some (c - 87)
  else if (65 <=? c) && (c <=? 70) then Some (c - 55)
  else None.

(** Four hexadecimal digits. *)
Definition hex4 (s : str) : option (N * str) :=
  match s with
  | a :: b :: c :: d :: r =>
    match hex_value a, hex_value b, hex_value c, hex_value d with
    | Some x, Some y, Some z, Some t => Some (x * 4096 + y * 256 + z * 16 + t, r)
    | _, _, _, _ => None
    end
  | _ => None
  end.

(** The characters of a string after its opening quote, up to the closing
    one; [acc] holds the decoded characters in reverse. *)
Fixpoint json_string (fuel : nat) (s : str) (acc : str) : option (str * str) :=
  match fuel with
  | O => None
  | S f =>
    match s with
    | [] => None
    | 34 :: r => Some (rev acc, r)
    | 92 :: e :: r =>
      if e =? 117 then
        match hex4 r with
        | Some (hi, r') =>
          match r' with
          | 92 :: 117 :: r'' =>
            match hex4 r'' with
            | Some (lo, r3) =>
              if (55296 <=? hi) && (hi <=? 56319) && (56320 <=? lo) && (lo <=? 57343)
              then json_string f r3 (65536 + (hi - 55296) * 1024 + (lo - 56320) :: acc)
              else json_string f r' (hi :: acc)
            | None => json_string f r' (hi :: acc)
            end
          | _ => json_string f r' (hi :: acc)
          end
        | None => None
        end
      else
        match (if e =? 34 then Some 34 else if e =? 92 then Some 92
               else if e =? 47 then Some 47 else if e =? 98 then Some 8
               else if e =? 102 then Some 12 else if e =? 110 then Some 10
               else if e =? 114 then Some 13 else if e =? 116 then Some 9
               else None) with
        | Some c => json_string f r (c :: acc)
        | None => None
        end
    | c :: r => if c <? 32 then None else json_string f r (c :: acc)
    end
  end.

Fixpoint take_digits (s : str) : str * str :=
  match s with
  | c :: r => if is_digit c then let '(d, r') := take_digits r in (c :: d, r') else ([], s)
  | [] => ([], [])
  end.

Definition digits_value (d : str) : Z :=
  fold_left (fun acc c => (acc * 10 + Z.of_N (c - 48))%Z) d 0%Z.

(** A number: an optional minus sign, the integer part (a zero, or digits
    that do not start with a zero), an optional fraction and an optional
    exponent. An integer is decoded; a float is kept as its text. *)
Definition json_number (s : str) : option (pyval * str) :=
  let '(neg, s1) := match s with 45 :: r => (true, r) | _ => (false, s) end in
  let '(int_part, s2) := take_digits s1 in
  match int_part with
  | [] => None
  | d0 :: more =>
    let '(int_part, s2) := if d0 =? 48 then ([d0], more ++ s2) else (int_part, s2) in
    let '(frac, s3) :=
      match s2 with
      | 46 :: r => match take_digits r with
                   | ([], _) => ([], s2)
                   | (d, r') => (46 :: d, r')
                   end
      | _ => ([], s2)
      end in
    let '(expo, s4) :=
      match s3 with
      | e :: r =>
        if (e =? 101) || (e =? 69) then
          let '(sign, r1) := match r with
                             | c :: r' => if (c =? 43) || (c =? 45) then ([c], r') else ([], r)
                             | [] => ([], r)
                             end in
          match take_digits r1 with
          | ([], _) => ([], s3)
          | (d, r') => (e :: sign ++ d, r')
          end
        else ([], s3)
      | [] => ([], s3)
      end in
    let sign := if neg : bool then [45] else [] in
    match frac, expo with
    | [], [] => Some (PInt (if neg then - digits_value int_part else digits_value int_part)%Z, s4)
    | _, _ => Some (PFloat (sign ++ int_part ++ frac ++ expo), s4)
    end
  end.

Definition literal (word : str) (v : pyval) (s : str) : option (pyval * str) :=
  if startswith s word then Some (v, drop (List.length word) s) else None.

Definition first_of {A} (l : list (option A)) : option A :=
  fold_right (fun o rest => match o with Some a => Some a | None => rest end) None l.

(** A value at the head of [s], and what follows it. [json_elements] and
    [json_members] read what follows the opening bracket or brace. *)
Fixpoint json_value (fuel : nat) (s : str) : option (pyval * str) :=
  match fuel with
  | O => None
  | S f =>
    match s with
    | 34 :: r =>
      match json_string (List.length r) r [] with
      | Some (text, r') => Some (PStr text, r')
      | None => None
      end
    | 91 :: r =>
      match skip_ws r with
      | 93 :: r' => Some (PList [], r')
      | r' => match json_elements f r' [] with
              | Some (items, r'') => Some (PList items, r'')
              | None => None
              end
      end
    | 123 :: r =>
      match skip_ws r with
      | 125 :: r' => Some (PDict [], r')
      | r' => match json_members f r' [] with
              | Some (entries, r'') => Some (PDict entries, r'')
              | None => None
              end
      end
    | _ =>
      first_of [ literal (py "null") PNone s;
                 literal (py "true") (PBool true) s;
                 literal (py "false") (PBool false) s;
                 json_number s;
                 literal (py "NaN") (PFloat (py "nan")) s;
                 literal (py "Infinity") (PFloat (py "inf")) s;
                 literal (py "-Infinity") (PFloat (py "-inf")) s ]
    end
  end
with json_elements (fuel : nat) (s : str) (acc : list pyval) : option (list pyval * str) :=
  match fuel with
  | O => None
  | S f =>
    match json_value f s with
    | Some (v, r) =>
      match skip_ws r with
      | 44 :: r' => json_elements f (skip_ws r') (acc ++ [v])
      | 93 :: r' => Some (acc ++ [v], r')
      | _ => None
      end
    | None => None
    end
  end
with json_members (fuel : nat) (s : str) (acc : list (str * pyval))
    : option (list (str * pyval) * str) :=
  match fuel with
  | O => None
  | S f =>
    match s with
    | 34 :: r =>
      match json_string (List.length r) r [] with
      | Some (key, r1) =>
        match skip_ws r1 with
        | 58 :: r2 =>
          match json_value f (skip_ws r2) with
          | Some (v, r3) =>
            match skip_ws r3 with
            | 44 :: r4 => json_members f (skip_ws r4) (dict_set key v acc)
            | 125 :: r4 => Some (dict_set key v acc, r4)
            | _ => None
            end
          | None => None
          end
        | _ => None
        end
      | None => None
      end
    | _ => None
    end
  end.

(** [json.loads(text)]: one value, with white space around it and nothing
    else. *)
Definition json_loads (text : str) : result pyval :=
  match json_value (2 * List.length text + 2) (skip_ws text) with
  | Some (v, r) =>
    match skip_ws r with
    | [] => Ok v
    | _ => Raise (JSONDecodeError (py "Extra data"))
    end
  | None => Raise (JSONDecodeError (py "Expecting value"))
  end.

(** *** The integer fragment of [eval]

    Sums, differences and products of decimal integers with parentheses and
    signs, and the division by a zero integer, which raises. Anything else
    is outside the fragment and reported as such. *)

Definition NotModelled : exn := Exn (py "NotModelled") (py "expression outside the integer fragment").
Definition ZeroDivisionError : exn := Exn (py "ZeroDivisionError") (py "division by zero").

Fixpoint skip_blanks (s : str) : str :=
  match s with
  | c :: r => if (c =? 32) || (c =? 9) then skip_blanks r else s
  | [] => []
  end.

Fixpoint eval_factor (fuel : nat) (s : str) : result (Z * str) :=
  match fuel with
  | O => Raise NotModelled
  | S f =>
    match skip_blanks s with
    | 45 :: r => rbind (eval_factor f r) (fun '(v, r') => Ok ((- v)%Z, r'))
    | 43 :: r => eval_factor f r
    | 40 :: r =>
      rbind (eval_sum f r) (fun '(v, r') =>
      match skip_blanks r' with
      | 41 :: r'' => Ok (v, r'')
      | _ => Raise NotModelled
      end)
    | c :: r =>
      match take_digits (c :: r) with
      | ([], _) => Raise NotModelled
      | (48 :: _ :: _, _) => Raise NotModelled
      | (d, r') =>
        match r' with
        | 46 :: _ => Raise NotModelled
        | _ => Ok (digits_value d, r')
        end
      end
    | [] => Raise NotModelled
    end
  end
with eval_product (fuel : nat) (s : str) : result (Z * str) :=
  match fuel with
  | O => Raise NotModelled
  | S f => rbind (eval_factor f s) (fun '(v, r) => eval_product_rest f v r)
  end
with eval_product_rest (fuel : nat) (left : Z) (s : str) : result (Z * str) :=
  match fuel with
  | O => Raise NotModelled
  | S f =>
    match skip_blanks s with
    | 42 :: 42 :: _ => Raise NotModelled
    | 42 :: r =>
      rbind (eval_factor f r) (fun '(v, r') => eval_product_rest f (left * v)%Z r')
    | 47 :: 47 :: _ => Raise NotModelled
    | 47 :: r =>
      rbind (eval_factor f r) (fun '(v, r') =>
      if (v =? 0)%Z then Raise ZeroDivisionError else Raise NotModelled)
    | 37 :: _ => Raise NotModelled
    | _ => Ok (left, s)
    end
  end
with eval_sum (fuel : nat) (s : str) : result (Z * str) :=
  match fuel with
  | O => Raise NotModelled
  | S f => rbind (eval_product f s) (fun '(v, r) => eval_sum_rest f v r)
  end
with eval_sum_rest (fuel : nat) (left : Z) (s : str) : result (Z * str) :=
  match fuel with
  | O => Raise NotModelled
  | S f =>
    match skip_blanks s with
    | 43 :: r =>
      rbind (eval_product f r) (fun '(v, r') => eval_sum_rest f (left + v)%Z r')
    | 45 :: r =>
      rbind (eval_product f r) (fun '(v, r') => eval_sum_rest f (left - v)%Z r')
    | _ => Ok (left, s)
    end
  end.

Definition py_eval (expression : str) : result str :=
  rbind (eval_sum (3 * List.length expression + 3) expression) (fun '(v, r) =>
  match skip_blanks r with
  | [] => Ok (str_of_Z v)
  | _ => Raise NotModelled
  end).

(** *** The generator, the clock and the configuration *)

(** A scripted generator: the answers to the next calls, and the answer to
    every call after them. *)
Definition script : Type := list (result str) * result str.

Definition scripted_generate (prompt : str) (max_tokens : Z) (g : script)
    : result str * script :=
  match fst g with
  | r :: rest => (r, (rest, snd g))
  | [] => (snd g, g)
  end.

Definition always (answer : str) : script := ([], Ok answer).

Definition clock_isoformat (n : nat) : str :=
  py "2024-01-01T00:00:00." ++ repeat 48 (6 - List.length (str_of_nat n)) ++ str_of_nat n.

Definition runtime (max_iterations : Z) : Runtime :=
  {| str_lower := ascii_lower;
     Py.json_loads := json_loads;
     Py.py_eval := py_eval;
     gen_state := script;
     llm_generate := scripted_generate;
     now_isoformat := clock_isoformat;
     time_ms := fun n => (1704067200000 + Z.of_nat n)%Z;
     MAX_ITERATIONS := max_iterations;
     write_succeeds := fun _ => true |}.

End Reference.

(** ** The properties as the design document states them

    Each definition below is one sentence of the document, written over the
    embedding as the sentence reads; the theorems that follow settle which
    of them the code satisfies. *)

Module Spec.
Section Spec.
Context {R : Runtime}.


(** [plan] raises nothing but what the call of the generator raises. *)
Definition plan_raises_only_generator_errors (self : SimpleDynamicPlanner) (w : world)
    (goal : str) (current_state feedback : option str) : Prop :=
  forall e ow, plan goal current_state feedback (self, w) = (Raise e, ow) ->
    exists prompt g, llm_generate prompt 1500 (w_gen w) = (Raise e, g).

(** When the three scores are zero the role is researcher. *)
Definition default_role_is_researcher (task_description : str) : Prop :=
  analyst_score task_description = 0%nat ->
  executor_score task_description = 0%nat ->
  researcher_score task_description = 0%nat ->
  _select_agent_type task_description None = py "researcher".

(** An operation moves the status of a task along the life cycle only. *)
Definition status_follows_lifecycle (self : SimpleProgressManager) (w : world)
    (op : Op) (task_id : str) : Prop :=
  forall task self' w' task',
    tasks self !! task_id = Some task ->
    call op (self, w) = (Ok tt, (self', w')) ->
    tasks self' !! task_id = Some task' ->
    t_status task' = t_status task \/
    allowed_transition (t_status task) (t_status task') = true.

(** Two calls of [complete_task] on an existing task: the second one leaves
    [end_time] as the first one left it, and the counter of completed tasks
    has grown by one. *)
Definition complete_twice_counts_once (self : SimpleProgressManager) (w : world)
    (task_id result1 result2 : str) : Prop :=
  is_Some (tasks self !! task_id) ->
  exists ow1 ow2,
    complete_task task_id result1 (self, w) = (Ok true, ow1) /\
    complete_task task_id result2 ow1 = (Ok true, ow2) /\
    t_end_time <$> (tasks (fst ow2) !! task_id) = t_end_time <$> (tasks (fst ow1) !! task_id) /\
    completed_tasks (system_stats (fst ow2)) = (completed_tasks (system_stats self) + 1)%Z.

(** When no answer of the generator is a completion, the result is a
    timeout summary. *)
Definition timeout_without_completion (self : SimpleActor) (w : world) (task : str)
    (context : option ContextDict) : Prop :=
  always_answers (fun response => _is_completion_response response = false) (w_gen w) ->
  exists result ow, execute task context (self, w) = (Ok result, ow) /\
    is_timeout_summary result = true.

(** [execute] returns a string that is not empty. *)
Definition execute_result_nonempty (self : SimpleActor) (w : world) (task : str)
    (context : option ContextDict) : Prop :=
  exists result ow, execute task context (self, w) = (Ok result, ow) /\ result <> [].

End Spec.
End Spec.

(** ** Concrete objects for the examples *)

Module Example.

(** The runtime of the examples, with the default of [MAX_ITERATIONS]. *)
Definition rt : Runtime := Reference.runtime 15.
#[local] Existing Instance rt.

(** A world whose generator gives the same answer to every call. *)
Definition world_answering (answer : str) : world := World (Reference.always answer) 0 0.

Definition new_planner : SimpleDynamicPlanner := {| planning_history := [] |}.

(** The analyst the factory builds from its template. *)
Definition analyst : SimpleActor :=
  match dict_get (py "analyst") _init_agent_templates with
  | Some template =>
    {| agent_id := py "analyst_7"; agent_type := py "analyst";
       persona := tpl_persona template; available_tools := tpl_tools template;
       capabilities := tpl_capabilities template;
       status := idle; current_task := None; execution_history := [];
       created_time := Reference.clock_isoformat 0 |}
  | None =>
    {| agent_id := []; agent_type := []; persona := []; available_tools := [];
       capabilities := []; status := idle; current_task := None;
       execution_history := []; created_time := [] |}
  end.

(** A manager that starts without a state file, and the states it goes
    through when a task is created, fails and is completed twice. *)
Definition started : SimpleProgressManager * world :=
  match init None (world_answering []) with
  | (Ok self, w) => (self, w)
  | (Raise _, w) =>
    ({| tasks := ∅; agents := ∅;
        system_stats := {| s_created_time := []; total_tasks := 0; completed_tasks := 0;
                           failed_tasks := 0; active_agents := 0 |};
        state_file := None |}, w)
  end.

Definition created : SimpleProgressManager * world :=
  snd (create_task (py "write the report") (py "general") None (py "normal") started).

Definition the_task : str := task_id_at 1.

Definition failed : SimpleProgressManager * world :=
  snd (fail_task the_task (py "no data") created).

Definition assigned : SimpleProgressManager * world :=
  snd (assign_task the_task (py "analyst_7") created).

(** A manager that starts from a state file holding one pending task. *)
Definition restored_task : str := py "report_2023".

Definition state_file_data : Snapshot :=
  {| snap_tasks :=
       {[ restored_task :=
            {| task_id := restored_task; t_description := py "write the report";
               t_type := py "general"; t_status := py "pending"; t_priority := py "normal";
               t_subtasks := []; t_assigned_agent := None; t_progress := 0;
               t_start_time := None; t_end_time := None; t_result := None;
               t_error_message := None;
               t_created_time := py "2023-12-31T23:59:59.000000";
               t_updated_time := py "2023-12-31T23:59:59.000000" |} ]};
     snap_agents := ∅;
     snap_system_stats := {| s_created_time := py "2023-12-31T23:00:00.000000";
                             total_tasks := 1; completed_tasks := 0; failed_tasks := 0;
                             active_agents := 0 |};
     snap_timestamp := py "2023-12-31T23:59:59.000000" |}.

Definition restored : SimpleProgressManager * world :=
  match init (Some state_file_data) (world_answering []) with
  | (Ok self, w) => (self, w)
  | (Raise _, _) => started
  end.

(** A world whose generator gives the answers listed, then [rest] for
    ever. *)
Definition world_scripted (answers : list str) (rest : str) : world :=
  World (map Ok answers, Ok rest) 0 0.

End Example.

(** ** progress.py: queries and cleaning *)

Module Queries.
Section Queries.
Context {R : Runtime}.

(** [get_task_status(task_id)]: a copy of the task, or the empty dictionary
    ([None]) for an unknown identifier. *)
Definition get_task_status (self : SimpleProgressManager) (task_id : str) : option Task :=
  tasks self !! task_id.

Definition get_agent_status (self : SimpleProgressManager) (agent_id : str)
    : option AgentRecord :=
  agents self !! agent_id.

(** [len([t for t in self.tasks.values() if t["status"] == status])] *)
Definition count_tasks (self : SimpleProgressManager) (status : str) : nat :=
  List.length (List.filter (fun kv => str_eqb (t_status (snd kv)) status)
                           (map_to_list (tasks self))).




(** [clear_completed_tasks]: the identifiers of the completed tasks are
    collected, then deleted one by one. *)
Definition clear_completed_tasks : M (SimpleProgressManager * world) nat :=
  self <- get_self ;;
  let completed_tasks :=
    map fst (List.filter (fun kv => str_eqb (t_status (snd kv)) (py "completed"))
                         (map_to_list (tasks self))) in
  update_self (fun self =>
    set_tasks (fold_left (fun m task_id => delete task_id m) completed_tasks (tasks self))
              self) ;;;
  _save_state ;;;
  ret (List.length completed_tasks).

(** The state file agrees with the manager: it holds the collections as
    they are, or it does not exist and there is no task and no agent. *)
Definition in_sync (self : SimpleProgressManager) : Prop :=
  match state_file self with
  | Some data =>
    snap_tasks data = tasks self /\ snap_agents data = agents self /\
    snap_system_stats data = system_stats self
  | None => tasks self = ∅ /\ agents self = ∅
  end.

End Queries.
End Queries.
Export Queries.

(** ** More concrete objects for the examples *)

Module Scenario.

(** A runtime whose clock has a coarse millisecond: eight readings in a
    row give the same value of [time.time()]. *)
Definition coarse_rt : Runtime :=
  {| str_lower := ascii_lower;
     json_loads := Reference.json_loads;
     py_eval := Reference.py_eval;
     gen_state := Reference.script;
     llm_generate := Reference.scripted_generate;
     now_isoformat := Reference.clock_isoformat;
     time_ms := fun n => (1704067200000 + Z.of_nat (n / 8))%Z;
     MAX_ITERATIONS := 15;
     write_succeeds := fun _ => true |}.

(** A manager without state file under that clock. *)
Definition coarse_started : SimpleProgressManager * @world coarse_rt :=
  match @init coarse_rt None (@World coarse_rt (Reference.always []) 0 0) with
  | (Ok self, w) => (self, w)
  | (Raise _, w) =>
    ({| tasks := ∅; agents := ∅;
        system_stats := {| s_created_time := []; total_tasks := 0; completed_tasks := 0;
                           failed_tasks := 0; active_agents := 0 |};
        state_file := None |}, w)
  end.

(** A runtime configured with no iteration at all. *)
Definition no_budget_rt : Runtime := Reference.runtime 0.

End Scenario.

(** ** Shapes of the planner's values *)

Module PlanShape.

(** The tool types [_guess_tool_type] can answer. *)
Definition tool_types : list str :=
  [py "search"; py "calculator"; py "data_analysis"; py "file_ops"; py "general"].

(** A task as [_fallback_parse] makes it, at index [i] of the list. *)
Definition fallback_task_shape (i : nat) (task : pyval) : Prop :=
  exists description tool_type,
    task = make_task (py "task_" ++ str_of_nat (i + 1)) description tool_type (py "normal") /\
    (List.length description <= 200)%nat /\
    tool_type ∈ tool_types.

End PlanShape.
Export PlanShape.

(** ** More about the actor's loop *)

Module ActorShape.
Section ActorShape.
Context {R : Runtime}.

(** A response whose action fails: it is not a completion, and the result
    of its action reports a failure or an error. *)
Definition fails (self : SimpleActor) (response : str) : Prop :=
  _is_completion_response response = false /\
  let action_result := _execute_action self (snd (parse_response response)) in
  contains (py "失败") action_result || contains (py "错误") action_result = true.

(** The entries of the context that reach the prompt. *)
Definition public_entries (context : ContextDict) : ContextDict :=
  List.filter (fun kv => negb (startswith (fst kv) (py "_"))) context.

End ActorShape.
End ActorShape.
Export ActorShape.

(** ** utils.py: the client of the generator *)

Module Client.
Section Client.

(** What the service does with the n-th request it receives, for a prompt
    and a limit of tokens: the text of its answer ([None] when the answer
    holds no text), or the exception that the call, or the reading of the
    answer, raises. *)
Variable service : nat -> str -> Z -> result (option str).

(** [config.MAX_RETRIES], read from the environment at start-up. *)
Variable MAX_RETRIES : Z.

(** The requests sent so far, and the pauses made between them, in
    seconds. *)
Record Session : Type := { requests : nat; slept : list Z }.

(** The attempts of [for attempt in range(config.MAX_RETRIES)] that are
    left. *)
Fixpoint attempts (remaining : list nat) (prompt : str) (max_tokens : Z)
    : M Session (option str) :=
  match remaining with
  | [] => ret None
  | attempt :: rest =>
    fun s =>
      match service (requests s) prompt max_tokens with
      | Ok content => (Ok content, {| requests := S (requests s); slept := slept s |})
      | Raise e =>
        if (Z.of_nat attempt =? MAX_RETRIES - 1)%Z
        then (Ok (Some (py "LLM调用失败: " ++ exn_msg e)),
              {| requests := S (requests s); slept := slept s |})
        else attempts rest prompt max_tokens
               {| requests := S (requests s);
                  slept := slept s ++ [(2 ^ Z.of_nat attempt)%Z] |}
      end
  end.

(** [LLMClient.generate(prompt, max_tokens)]; a loop that ends without
    [return] gives [None]. *)
Definition generate (prompt : str) (max_tokens : Z) : M Session (option str) :=
  attempts (seq 0 (Z.to_nat MAX_RETRIES)) prompt max_tokens.

End Client.
End Client.

(** ** factory.py: the agents a factory has created *)

Module Agents.
Section Agents.
Context {R : Runtime}.

(** [generate_agent_id(agent_type, task_hash)] of utils.py *)
Definition generate_agent_id (agent_type : str) (task_hash : Z) : str :=
  agent_type ++ py "_" ++ str_of_Z (Z.abs task_hash mod 1000).

(** The factory: its cache, from identifiers to agents. *)
Record SimpleActorFactory : Type := { created_agents : gmap str SimpleActor }.

(** [SimpleActor(agent_id, agent_type, persona, tools, llm_client,
    capabilities)] *)
Definition new_actor (id type persona_text : str) (tools caps : list str)
    : M world SimpleActor :=
  created <- datetime_now ;;
  ret {| agent_id := id; agent_type := type; persona := persona_text;
         available_tools := tools; capabilities := caps;
         status := idle; current_task := None; execution_history := [];
         created_time := created |}.

(** [create_actor(task_description, task_type)]; [hash] is the function
    [hash] of the interpreter on strings, which changes from one process to
    the next. *)
Definition create_actor (hash : str -> Z) (task_description : str) (task_type : option str)
    : M (SimpleActorFactory * world) SimpleActor :=
  let type := _select_agent_type task_description task_type in
  match dict_get type _init_agent_templates with
  | None => raise (KeyError (py "'" ++ type ++ py "'"))
  | Some template =>
    let id := generate_agent_id type (hash task_description) in
    self <- get_self ;;
    match created_agents self !! id with
    | Some actor => ret actor
    | None =>
      actor <- on_world (new_actor id type (tpl_persona template) (tpl_tools template)
                                   (tpl_capabilities template)) ;;
      update_self (fun self =>
        {| created_agents := <[id := actor]> (created_agents self) |}) ;;;
      ret actor
    end
  end.

End Agents.
End Agents.
Export Agents.

(** * Theorems *)

(** ** Strings *)

Lemma str_eqb_eq (a b : str) : str_eqb a b = true <-> a = b.
Proof. unfold str_eqb. apply bool_decide_eq_true. Qed.

Lemma str_eqb_refl (a : str) : str_eqb a a = true.
Proof. apply str_eqb_eq. reflexivity. Qed.

Lemma str_eqb_neq (a b : str) : str_eqb a b = false <-> a <> b.
Proof. unfold str_eqb. apply bool_decide_eq_false. Qed.

Lemma startswith_nil (s : str) : startswith s [] = true.
Proof. destruct s; reflexivity. Qed.

Lemma startswith_cons (c d : N) (s p : str) :
  startswith (c :: s) (d :: p) = (d =? c) && startswith s p.
Proof. reflexivity. Qed.

Lemma startswith_app_more (p q s : str) :
  startswith p q = true -> startswith (p ++ s) q = true.
Proof.
  revert q. induction p as [|c p IH]; intros [|d q]; cbn [app]; intros H;
    rewrite ?startswith_nil; auto; try discriminate.
  rewrite startswith_cons in *. apply andb_true_iff in H as [H1 H2].
  rewrite H1. cbn. auto.
Qed.

Lemma app_not_nil {A} (a b : list A) : a <> [] -> a ++ b <> [].
Proof. destruct a; [congruence|discriminate]. Qed.

Lemma fold_left_extends {A} (f : str -> A -> str) :
  (forall acc x, exists more, f acc x = acc ++ more) ->
  forall l init, exists suffix, fold_left f l init = init ++ suffix.
Proof.
  intros Hf l. induction l as [|x l IH]; intros init; cbn.
  - exists []. rewrite app_nil_r. reflexivity.
  - destruct (Hf init x) as [more ->]. destruct (IH (init ++ more)) as [suffix ->].
    exists (more ++ suffix). rewrite <- app_assoc. reflexivity.
Qed.

Example py_literal : py "完成:" = [23436; 25104; 58].
Proof. reflexivity. Qed.

Example strip_example : strip (py "  a b
 ") = py "a b".
Proof. reflexivity. Qed.

Example split_lines_example : split_lines (py "a
b
") = [py "a"; py "b"; py ""].
Proof. reflexivity. Qed.

Example str_of_Z_example :
  str_of_Z 1205 = py "1205" /\ str_of_Z 0 = py "0" /\ str_of_Z (-7) = py "-7".
Proof. repeat split; reflexivity. Qed.

Example json_loads_example :
  Reference.json_loads (pyq "{`tasks`: [{`id`: `t1`}, 2, null], `n`: -3}")
  = Ok (PDict [ (py "tasks", PList [PDict [(py "id", PStr (py "t1"))]; PInt 2; PNone]);
                (py "n", PInt (-3)) ]).
Proof. vm_compute. reflexivity. Qed.

Example py_eval_example :
  Reference.py_eval (py "125 + 375") = Ok (py "500") /\
  Reference.py_eval (py "2 * (3 - 5)") = Ok (py "-4") /\
  Reference.py_eval (py "1/0") = Raise Reference.ZeroDivisionError.
Proof. repeat split; vm_compute; reflexivity. Qed.

(** ** The progress tracker *)

Section SavedState.
Context {R : Runtime}.

(** Saving the state reads the clock once and changes nothing but what the
    state file holds. *)
Lemma save_state_run (self : SimpleProgressManager) (w : world) :
  exists self', _save_state (self, w) = (Ok tt, (self', tick w)) /\
    tasks self' = tasks self /\ agents self' = agents self /\
    system_stats self' = system_stats self.
Proof.
  unfold _save_state, bind, get_self, now, on_world, datetime_now, update_self, ret; cbn.
  destruct (write_succeeds _); eexists; (split; [reflexivity|]); auto.
Qed.

End SavedState.

Ltac run_save :=
  match goal with
  | |- context [_save_state (?s, ?w0)] =>
    let s' := fresh "saved" in
    let E := fresh "Esave" in
    let Ht := fresh "Htasks" in
    let Ha := fresh "Hagents" in
    let Hs := fresh "Hstats" in
    destruct (save_state_run s w0) as (s' & E & Ht & Ha & Hs); rewrite E; clear E
  end.

Section Tracker.
Context {R : Runtime}.

Lemma is_terminal_completed : is_terminal (py "completed") = true.
Proof. vm_compute. reflexivity. Qed.

Lemma assign_task_rejects (self : SimpleProgressManager) (w : world) (task_id agent_id : str) :
  (forall task, tasks self !! task_id = Some task -> t_status task <> py "pending") ->
  assign_task task_id agent_id (self, w) = (Ok false, (self, w)).
Proof.
  intros H. unfold assign_task, bind, get_self; cbn.
  destruct (tasks self !! task_id) as [task|] eqn:E; [|reflexivity].
  destruct (str_eqb (t_status task) (py "pending")) eqn:Es; [|reflexivity].
  apply str_eqb_eq in Es. exfalso. exact (H task eq_refl Es).
Qed.

Lemma assign_task_accepts (self : SimpleProgressManager) (w : world)
    (task_id agent_id : str) (task : Task) :
  tasks self !! task_id = Some task -> t_status task = py "pending" ->
  exists self' w',
    assign_task task_id agent_id (self, w) = (Ok true, (self', w')) /\
    (exists task', tasks self' !! task_id = Some task' /\
       t_status task' = py "running" /\
       t_assigned_agent task' = Some agent_id /\
       t_start_time task' = Some (now_isoformat (w_clock w))) /\
    (exists agent', agents self' !! agent_id = Some agent' /\
       a_status agent' = py "working" /\
       a_current_task agent' = Some task_id /\
       a_assigned_tasks agent' =
         match agents self !! agent_id with
         | Some agent => a_assigned_tasks agent
         | None => []
         end ++ [task_id]).
Proof.
  intros Ht Hs. unfold assign_task, bind, get_self; cbn.
  rewrite Ht. replace (str_eqb (t_status task) (py "pending")) with true
    by (symmetry; apply str_eqb_eq; exact Hs).
  cbn.
  destruct (agents self !! agent_id) as [agent|] eqn:Ea; cbn.
  - run_save. eexists _, _. split; [reflexivity|]. cbn. rewrite Htasks, Hagents. cbn. split.
    + rewrite !lookup_alter_eq, Ht. cbn. eexists; split; [reflexivity|]. auto.
    + rewrite !lookup_alter_eq, Ea. cbn. eexists; split; [reflexivity|]. auto.
  - run_save. eexists _, _. split; [reflexivity|]. cbn. rewrite Htasks, Hagents. cbn. split.
    + rewrite !lookup_alter_eq, Ht. cbn. eexists; split; [reflexivity|]. auto.
    + rewrite !lookup_alter_eq, lookup_insert_eq. cbn. eexists; split; [reflexivity|]. auto.
Qed.

(** C6. [assign_task] on a task that does not exist or is not pending
    returns false and changes nothing: the manager (its tasks, agents and
    statistics) and the world are the ones it started with. On a pending
    task it returns true; the task is then running, assigned to the agent
    and has its start time, and the agent record, created if it was
    missing, is working on the task, which ends its assigned list. *)
Theorem assign_task_spec (self : SimpleProgressManager) (w : world) (task_id agent_id : str) :
  ((forall task, tasks self !! task_id = Some task -> t_status task <> py "pending") ->
   assign_task task_id agent_id (self, w) = (Ok false, (self, w))) /\
  (forall task,
     tasks self !! task_id = Some task -> t_status task = py "pending" ->
     exists self' w',
       assign_task task_id agent_id (self, w) = (Ok true, (self', w')) /\
       (exists task', tasks self' !! task_id = Some task' /\
          t_status task' = py "running" /\
          t_assigned_agent task' = Some agent_id /\
          t_start_time task' = Some (now_isoformat (w_clock w))) /\
       (exists agent', agents self' !! agent_id = Some agent' /\
          a_status agent' = py "working" /\
          a_current_task agent' = Some task_id /\
          a_assigned_tasks agent' =
            match agents self !! agent_id with
            | Some agent => a_assigned_tasks agent
            | None => []
            end ++ [task_id])).
Proof.
  split.
  - apply assign_task_rejects.
  - intros task. apply assign_task_accepts.
Qed.

End Tracker.

Lemma assign_task_spec_witness :
  assign_task Example.the_task (py "analyst_7") (fst Example.assigned, snd Example.assigned)
    = (Ok false, (fst Example.assigned, snd Example.assigned)) /\
  exists self' w',
    assign_task Example.the_task (py "analyst_7") (fst Example.created, snd Example.created)
      = (Ok true, (self', w')).
Proof.
  assert (Hrunning : exists task,
            tasks (fst Example.assigned) !! Example.the_task = Some task /\
            t_status task <> py "pending").
  { vm_compute. eexists. split; [reflexivity|discriminate]. }
  assert (Hpending : exists task,
            tasks (fst Example.created) !! Example.the_task = Some task /\
            t_status task = py "pending").
  { vm_compute. eexists. split; reflexivity. }
  destruct Hrunning as (running & Hl1 & Hs1). destruct Hpending as (pending & Hl2 & Hs2).
  split.
  - apply (proj1 (assign_task_spec (fst Example.assigned) (snd Example.assigned)
                    Example.the_task (py "analyst_7"))).
    intros task H. rewrite Hl1 in H. injection H as <-. exact Hs1.
  - destruct (proj2 (assign_task_spec (fst Example.created) (snd Example.created)
                       Example.the_task (py "analyst_7")) pending Hl2 Hs2)
      as (self' & w' & E & _).
    exists self', w'. exact E.
Defined.

Section TrackerUpdates.
Context {R : Runtime}.

Lemma update_status_run (self : SimpleProgressManager) (w : world)
    (task_id status : str) (task : Task) :
  tasks self !! task_id = Some task ->
  exists self',
    update_status task_id status (self, w)
      = (Ok tt, (self', if ends_task task status then tick w else w)) /\
    tasks self' !! task_id
      = Some (if ends_task task status
              then set_t_end_time (Some (now_isoformat (w_clock w))) (set_t_status status task)
              else set_t_status status task) /\
    (forall other, other <> task_id -> tasks self' !! other = tasks self !! other) /\
    system_stats self'
      = (if ends_task task status then count_end status (system_stats self)
         else system_stats self) /\
    (ends_task task status = false -> agents self' = agents self) /\
    state_file self' = state_file self.
Proof.
  intros Ht. unfold update_status, bind, get_self; cbn. rewrite Ht.
  fold (ends_task task status). unfold count_end.
  destruct (ends_task task status) eqn:Ee; cbn.
  - destruct (str_eqb status (py "completed")) eqn:Ec;
      [|destruct (str_eqb status (py "failed")) eqn:Ef]; cbn;
      (destruct (t_assigned_agent task) as [[|c r]|]; cbn;
       [| destruct (agents self !! (c :: r)); cbn |]);
      eexists; (split; [reflexivity|]); cbn;
      rewrite !lookup_alter_eq, Ht; cbn;
      (split; [reflexivity|]);
      (split; [intros other Hne; rewrite !lookup_alter_ne by auto; reflexivity|]);
      (split; [reflexivity|]); (split; [discriminate|reflexivity]).
  - eexists; (split; [reflexivity|]); cbn.
    rewrite lookup_alter_eq, Ht; cbn. repeat split; auto.
    intros other Hne. rewrite lookup_alter_ne; auto.
Qed.

Lemma ends_task_progress (p : Q) (task : Task) (s : str) :
  ends_task (set_t_progress p task) s = ends_task task s.
Proof. reflexivity. Qed.

(** What [update_progress] does to an existing task, to the other tasks,
    to the statistics and to the agents. *)
Lemma update_progress_run (self : SimpleProgressManager) (w : world) (task_id : str)
    (progress : option Q) (status result error_message : option str) (task : Task) :
  tasks self !! task_id = Some task ->
  exists self' w' task',
    update_progress task_id progress status result error_message (self, w)
      = (Ok (any_given progress status result error_message), (self', w')) /\
    (w_clock w <= w_clock w')%nat /\
    tasks self' !! task_id = Some task' /\
    t_status task' = match status with Some s => s | None => t_status task end /\
    t_end_time task' = (if ends_with task status then Some (now_isoformat (w_clock w))
                        else t_end_time task) /\
    (forall other, other <> task_id -> tasks self' !! other = tasks self !! other) /\
    system_stats self' = (if ends_with task status
                          then count_end (default [] status) (system_stats self)
                          else system_stats self) /\
    (ends_with task status = false -> agents self' = agents self).
Proof.
  intros Ht. unfold update_progress, bind, get_self; cbn. rewrite Ht.
  destruct status as [s|]; cbn.
  - destruct progress as [p|]; cbn.
    + destruct (update_status_run
                  (set_tasks (alter (set_t_progress (clamp_progress p)) task_id (tasks self)) self)
                  w task_id s (set_t_progress (clamp_progress p) task))
        as (s1 & -> & Hl & Ho & Hst & Hag & _).
      { cbn. rewrite lookup_alter_eq, Ht. reflexivity. }
      rewrite ends_task_progress in *. cbn in Ho, Hst, Hag.
      destruct result, error_message; cbn; run_save;
        eexists _, _, _; (split; [reflexivity|]); cbn; rewrite Htasks, Hstats, Hagents; cbn;
        rewrite ?lookup_alter_eq, Hl; cbn;
        (split; [destruct (ends_task task s); cbn; lia|]);
        (split; [reflexivity|]);
        (split; [destruct (ends_task task s); reflexivity|]);
        (split; [destruct (ends_task task s); reflexivity|]);
        (split; [intros other Hne; rewrite ?lookup_alter_ne by auto; rewrite Ho by auto;
                 rewrite lookup_alter_ne by auto; reflexivity|]);
        (split; [exact Hst | exact Hag]).
    + destruct (update_status_run self w task_id s task Ht)
        as (s1 & -> & Hl & Ho & Hst & Hag & _).
      destruct result, error_message; cbn; run_save;
        eexists _, _, _; (split; [reflexivity|]); cbn; rewrite Htasks, Hstats, Hagents; cbn;
        rewrite ?lookup_alter_eq, Hl; cbn;
        (split; [destruct (ends_task task s); cbn; lia|]);
        (split; [reflexivity|]);
        (split; [destruct (ends_task task s); reflexivity|]);
        (split; [destruct (ends_task task s); reflexivity|]);
        (split; [intros other Hne; rewrite ?lookup_alter_ne by auto; rewrite Ho by auto;
                 reflexivity|]);
        (split; [exact Hst | exact Hag]).
  - destruct progress, result, error_message; cbn; try run_save;
      eexists _, _, _; (split; [reflexivity|]); cbn;
      rewrite ?Htasks, ?Hstats, ?Hagents; cbn;
      rewrite ?lookup_alter_eq, Ht; cbn;
      (split; [lia|]); (split; [reflexivity|]); (split; [reflexivity|]);
      (split; [reflexivity|]);
      (split; [intros other Hne; rewrite ?lookup_alter_ne by auto; reflexivity|]);
      (split; [reflexivity | reflexivity]).
Qed.

Lemma ends_with_ended (task : Task) (status : option str) :
  t_end_time task <> None -> ends_with task status = false.
Proof.
  intros H. destruct status as [s|]; [|reflexivity]. cbn. unfold ends_task.
  rewrite bool_decide_eq_false_2 by exact H. apply andb_false_r.
Qed.

Lemma ends_with_completed (task : Task) :
  t_end_time task = None -> ends_with task (Some (py "completed")) = true.
Proof.
  intros H. cbn. unfold ends_task. rewrite is_terminal_completed.
  rewrite bool_decide_eq_true_2 by exact H. reflexivity.
Qed.

(** C9. On a task whose [end_time] is set, [update_progress] with a status
    (for example [fail_task] after [complete_task]) returns true and
    overwrites the status, and leaves [end_time], the statistics (so the
    counters of completed and failed tasks) and the agents (so their lists
    of completed and failed tasks) as they were. *)
Theorem update_after_end_overwrites_status (self : SimpleProgressManager) (w : world)
    (task_id : str) (task : Task) (progress : option Q) (status : str)
    (result error_message : option str) :
  tasks self !! task_id = Some task ->
  t_end_time task <> None ->
  exists self' w' task',
    update_progress task_id progress (Some status) result error_message (self, w)
      = (Ok true, (self', w')) /\
    tasks self' !! task_id = Some task' /\
    t_status task' = status /\
    t_end_time task' = t_end_time task /\
    system_stats self' = system_stats self /\
    agents self' = agents self.
Proof.
  intros Ht He.
  destruct (update_progress_run self w task_id progress (Some status) result error_message
              task Ht)
    as (s1 & w1 & t1 & E & _ & Hl & Hs & Hend & _ & Hst & Hag).
  rewrite (ends_with_ended task (Some status) He) in *.
  exists s1, w1, t1. split.
  - rewrite E. destruct progress; reflexivity.
  - repeat split; auto.
Qed.

(** C5, amended. Two calls of [complete_task] in succession on an existing
    task both return true, and the second one changes neither [end_time]
    nor the counter of completed tasks. When the task had not ended before
    ([end_time] unset), the first call sets [end_time] and adds one to the
    counter, so that the counter has grown by exactly one over the two
    calls; when it had ended already, the first call changes neither. *)
Theorem complete_task_twice (self : SimpleProgressManager) (w : world)
    (task_id result1 result2 : str) (task : Task) :
  tasks self !! task_id = Some task ->
  exists s1 w1 t1 s2 w2 t2,
    complete_task task_id result1 (self, w) = (Ok true, (s1, w1)) /\
    complete_task task_id result2 (s1, w1) = (Ok true, (s2, w2)) /\
    tasks s1 !! task_id = Some t1 /\ tasks s2 !! task_id = Some t2 /\
    t_end_time t2 = t_end_time t1 /\
    completed_tasks (system_stats s2) = completed_tasks (system_stats s1) /\
    (t_end_time task = None ->
       t_end_time t1 = Some (now_isoformat (w_clock w)) /\
       completed_tasks (system_stats s1) = (completed_tasks (system_stats self) + 1)%Z) /\
    (t_end_time task <> None ->
       t_end_time t1 = t_end_time task /\
       completed_tasks (system_stats s1) = completed_tasks (system_stats self)).
Proof.
  intros Ht. unfold complete_task.
  destruct (update_progress_run self w task_id (Some 100%Q) (Some (py "completed"))
              (Some result1) None task Ht)
    as (s1 & w1 & t1 & E1 & _ & Hl1 & _ & Hend1 & _ & Hst1 & _).
  destruct (update_progress_run s1 w1 task_id (Some 100%Q) (Some (py "completed"))
              (Some result2) None t1 Hl1)
    as (s2 & w2 & t2 & E2 & _ & Hl2 & _ & Hend2 & _ & Hst2 & _).
  assert (Hended : t_end_time t1 <> None).
  { rewrite Hend1. destruct (ends_with task _) eqn:Ee; [discriminate|].
    cbn in Ee. unfold ends_task in Ee. rewrite is_terminal_completed in Ee. cbn in Ee.
    apply bool_decide_eq_false in Ee. exact Ee. }
  rewrite (ends_with_ended t1 _ Hended) in Hend2, Hst2.
  exists s1, w1, t1, s2, w2, t2.
  split; [exact E1|]. split; [exact E2|]. split; [exact Hl1|]. split; [exact Hl2|].
  split; [exact Hend2|]. split; [rewrite Hst2; reflexivity|]. split.
  - intros Hnone. rewrite (ends_with_completed task Hnone) in Hend1, Hst1.
    split; [exact Hend1|]. rewrite Hst1. cbn. unfold count_end.
    rewrite str_eqb_refl. reflexivity.
  - intros Hsome. rewrite (ends_with_ended task _ Hsome) in Hend1, Hst1.
    split; [exact Hend1|]. rewrite Hst1. reflexivity.
Qed.

End TrackerUpdates.

Lemma update_after_end_overwrites_status_witness :
  exists task self' w' task',
    tasks (fst Example.failed) !! Example.the_task = Some task /\
    t_end_time task <> None /\
    update_progress Example.the_task (Some 100%Q) (Some (py "completed")) (Some (py "done")) None
      (fst Example.failed, snd Example.failed) = (Ok true, (self', w')) /\
    tasks self' !! Example.the_task = Some task' /\
    t_status task' = py "completed" /\
    t_end_time task' = t_end_time task /\
    system_stats self' = system_stats (fst Example.failed).
Proof.
  assert (Hended : exists task,
            tasks (fst Example.failed) !! Example.the_task = Some task /\
            t_end_time task <> None).
  { vm_compute. eexists. split; [reflexivity|discriminate]. }
  destruct Hended as (task & Hl0 & He0).
  destruct (update_after_end_overwrites_status (fst Example.failed) (snd Example.failed)
              Example.the_task task (Some 100%Q) (py "completed") (Some (py "done")) None
              Hl0 He0)
    as (self' & w' & task' & E & Hl & Hs & He & Hst & _).
  exists task, self', w', task'.
  split; [exact Hl0|]. split; [exact He0|]. split; [exact E|]. split; [exact Hl|].
  split; [exact Hs|]. split; [exact He|exact Hst].
Defined.

Lemma complete_task_twice_witness :
  exists task s1 w1 s2 w2,
    tasks (fst Example.created) !! Example.the_task = Some task /\
    t_end_time task = None /\
    complete_task Example.the_task (py "done") (fst Example.created, snd Example.created)
      = (Ok true, (s1, w1)) /\
    complete_task Example.the_task (py "done again") (s1, w1) = (Ok true, (s2, w2)) /\
    completed_tasks (system_stats s2)
      = (completed_tasks (system_stats (fst Example.created)) + 1)%Z.
Proof.
  assert (Hfresh : exists task,
            tasks (fst Example.created) !! Example.the_task = Some task /\
            t_end_time task = None).
  { vm_compute. eexists. split; reflexivity. }
  destruct Hfresh as (task & Hl0 & He0).
  destruct (complete_task_twice (fst Example.created) (snd Example.created)
              Example.the_task (py "done") (py "done again") task Hl0)
    as (s1 & w1 & t1 & s2 & w2 & t2 & E1 & E2 & _ & _ & _ & Hc & Hfirst & _).
  exists task, s1, w1, s2, w2. split; [exact Hl0|]. split; [exact He0|].
  split; [exact E1|]. split; [exact E2|]. rewrite Hc. apply Hfirst. exact He0.
Defined.

(** C5, as stated, fails on a task that has already ended: after
    [fail_task], two calls of [complete_task] leave the counter of
    completed tasks at zero. *)
Lemma complete_twice_after_failure_counterexample :
  ~ Spec.complete_twice_counts_once (fst Example.failed) (snd Example.failed)
      Example.the_task (py "done") (py "done again").
Proof.
  assert (Hended : exists task,
            tasks (fst Example.failed) !! Example.the_task = Some task /\
            t_end_time task <> None).
  { vm_compute. eexists. split; [reflexivity|discriminate]. }
  destruct Hended as (task & Hl0 & He0).
  intros H. destruct H as (ow1 & ow2 & F1 & F2 & _ & Fc); [rewrite Hl0; eauto|].
  unfold complete_task in F1, F2.
  destruct (update_progress_run (fst Example.failed) (snd Example.failed) Example.the_task
              (Some 100%Q) (Some (py "completed")) (Some (py "done")) None task Hl0)
    as (s1 & w1 & t1 & E1 & _ & Hl1 & _ & Hend1 & _ & Hst1 & _).
  rewrite E1 in F1. injection F1 as <-.
  rewrite (ends_with_ended task _ He0) in Hend1, Hst1.
  destruct (update_progress_run s1 w1 Example.the_task
              (Some 100%Q) (Some (py "completed")) (Some (py "done again")) None t1 Hl1)
    as (s2 & w2 & t2 & E2 & _ & _ & _ & _ & _ & Hst2 & _).
  rewrite E2 in F2. injection F2 as <-.
  rewrite (ends_with_ended t1 _) in Hst2 by (rewrite Hend1; exact He0).
  cbn [fst] in Fc. rewrite Hst2, Hst1 in Fc. lia.
Qed.

Section TrackerSteps.
Context {R : Runtime}.

Lemma create_task_run (self : SimpleProgressManager) (w : world) d ty sub prio :
  exists self' task,
    create_task d ty sub prio (self, w)
      = (Ok (task_id_at (w_clock w)), (self', tick (tick (tick (tick w))))) /\
    tasks self' = <[task_id_at (w_clock w) := task]> (tasks self) /\
    t_status task = py "pending" /\ t_end_time task = None /\
    agents self' = agents self /\
    total_tasks (system_stats self') = (total_tasks (system_stats self) + 1)%Z.
Proof.
  unfold create_task, bind, generate_task_id, on_world, ret; cbn.
  run_save. eexists _, _. split; [reflexivity|]. rewrite Htasks, Hagents, Hstats. cbn.
  split; [reflexivity|]. auto.
Qed.

Lemma task_step_refl (assigning : Prop) (w : world) (task : Task) :
  task_step None assigning w task task.
Proof. repeat split; auto; discriminate. Qed.

Lemma task_step_weaken (rq : option str) (P Q : Prop) (w : world) (task task' : Task) :
  (P -> Q) -> task_step rq P w task task' -> task_step rq Q w task task'.
Proof.
  intros HPQ (H1 & H2 & H3 & H4). repeat split; auto.
  destruct H3 as [H3|[(HP & H3)|H3]]; auto.
Qed.

Lemma assign_task_step (self : SimpleProgressManager) (w : world)
    (t a task_id : str) (task : Task) :
  tasks self !! task_id = Some task ->
  exists b self' w' task',
    assign_task t a (self, w) = (Ok b, (self', w')) /\
    (w_clock w <= w_clock w')%nat /\
    tasks self' !! task_id = Some task' /\
    task_step None (t = task_id) w task task'.
Proof.
  intros Ht. unfold assign_task, bind, get_self; cbn.
  destruct (tasks self !! t) as [target|] eqn:Et;
    [|eexists _, _, _, _; split; [reflexivity|]; split; [lia|]; split; [exact Ht|];
      apply task_step_refl].
  destruct (str_eqb (t_status target) (py "pending")) eqn:Ep; cbn;
    [|eexists _, _, _, _; split; [reflexivity|]; split; [lia|]; split; [exact Ht|];
      apply task_step_refl].
  apply str_eqb_eq in Ep.
  destruct (decide (t = task_id)) as [->|Hne];
    (destruct (agents self !! a) as [agent|] eqn:Ea; cbn; run_save;
     eexists _, _, _, _; (split; [reflexivity|]); cbn; (split; [lia|]); rewrite Htasks; cbn).
  1,2: rewrite !lookup_alter_eq, Ht; cbn; (split; [reflexivity|]);
       rewrite Ht in Et; injection Et as <-; repeat split; auto; discriminate.
  all: rewrite !lookup_alter_ne by auto; (split; [exact Ht|]); apply task_step_refl.
Qed.

Lemma update_progress_step (self : SimpleProgressManager) (w : world) (t : str)
    (p : option Q) (s r e : option str) (task_id : str) (task : Task) :
  tasks self !! task_id = Some task ->
  exists b self' w' task',
    update_progress t p s r e (self, w) = (Ok b, (self', w')) /\
    (w_clock w <= w_clock w')%nat /\
    tasks self' !! task_id = Some task' /\
    task_step (if str_eqb t task_id then s else None) False w task task'.
Proof.
  intros Ht. destruct (decide (t = task_id)) as [->|Hne].
  - rewrite str_eqb_refl.
    destruct (update_progress_run self w task_id p s r e task Ht)
      as (s1 & w1 & t1 & E & Hc & Hl & Hs & He & _).
    eexists _, _, _, _. split; [exact E|]. split; [exact Hc|]. split; [exact Hl|].
    destruct s as [st|]; cbn in He, Hs |- *.
    + symmetry in Hs. subst st. unfold ends_task in He.
      destruct (is_terminal (t_status t1)) eqn:Eterm; cbn in He.
      * destruct (t_end_time task) as [e0|] eqn:Ee.
        -- rewrite bool_decide_eq_false_2 in He by discriminate.
           split; [left; congruence|]. split; [intros; congruence|].
           split; [right; right; reflexivity|]. intros; congruence.
        -- rewrite bool_decide_eq_true_2 in He by reflexivity.
           split; [right; eauto|]. split; [intros; congruence|].
           split; [right; right; reflexivity|]. intros; congruence.
      * split; [left; congruence|]. split; [intros; congruence|].
        split; [right; right; reflexivity|]. intros; congruence.
    + split; [left; congruence|]. split; [intros; congruence|].
      split; [left; exact Hs|]. intros; congruence.
  - replace (str_eqb t task_id) with false by (symmetry; apply str_eqb_neq; exact Hne).
    destruct (tasks self !! t) as [other|] eqn:Eo.
    + destruct (update_progress_run self w t p s r e other Eo)
        as (s1 & w1 & t1 & E & Hc & _ & _ & _ & Hothers & _).
      eexists _, _, _, _. split; [exact E|]. split; [exact Hc|].
      rewrite Hothers by auto. split; [exact Ht|]. apply task_step_refl.
    + unfold update_progress, bind, get_self; cbn. rewrite Eo.
      eexists _, _, _, _. split; [reflexivity|]. split; [lia|]. split; [exact Ht|].
      apply task_step_refl.
Qed.

(** One operation on the manager, seen from one task that it does not
    replace. *)
Lemma call_step (op : Op) (self : SimpleProgressManager) (w : world)
    (task_id : str) (task : Task) :
  tasks self !! task_id = Some task ->
  ~ creates op w task_id ->
  exists self' w' task',
    call op (self, w) = (Ok tt, (self', w')) /\
    (w_clock w <= w_clock w')%nat /\
    tasks self' !! task_id = Some task' /\
    task_step (requested_status op task_id)
              (exists agent_id, op = AssignTask task_id agent_id) w task task'.
Proof.
  intros Ht Hfresh.
  assert (Hwrap : forall t p s r e,
    exists self' w' task',
      (update_progress t p s r e ;;; ret tt) (self, w) = (Ok tt, (self', w')) /\
      (w_clock w <= w_clock w')%nat /\
      tasks self' !! task_id = Some task' /\
      task_step (if str_eqb t task_id then s else None) False w task task').
  { intros t p s r e.
    destruct (update_progress_step self w t p s r e task_id task Ht)
      as (b & s1 & w1 & t1 & E & Hc & Hl & Hstep).
    unfold bind. rewrite E. eexists _, _, _. split; [reflexivity|].
    split; [exact Hc|]. split; [exact Hl|exact Hstep]. }
  destruct op as [d ty sub prio | t a | t p s r e | t r | t e | t r];
    cbn [call requested_status].
  - cbn in Hfresh.
    destruct (create_task_run self w d ty sub prio) as (s1 & nt & E & Hts & _).
    unfold bind. rewrite E. cbn. eexists _, _, _. split; [reflexivity|].
    split; [unfold tick; cbn; lia|]. rewrite Hts, lookup_insert_ne by auto.
    split; [exact Ht|]. apply task_step_refl.
  - destruct (assign_task_step self w t a task_id task Ht)
      as (b & s1 & w1 & t1 & E & Hc & Hl & Hstep).
    unfold bind. rewrite E. eexists _, _, _. split; [reflexivity|]. split; [exact Hc|].
    split; [exact Hl|]. revert Hstep. apply task_step_weaken. intros ->. eauto.
  - destruct (Hwrap t p s r e) as (s1 & w1 & t1 & E & Hc & Hl & Hstep).
    eexists _, _, _. split; [exact E|]. split; [exact Hc|]. split; [exact Hl|].
    destruct s; (eapply task_step_weaken; [|destruct (str_eqb t task_id); exact Hstep]);
      tauto.
  - destruct (Hwrap t (Some 100%Q) (Some (py "completed")) (Some r) None)
      as (s1 & w1 & t1 & E & Hc & Hl & Hstep).
    eexists _, _, _. split; [exact E|]. split; [exact Hc|]. split; [exact Hl|].
    eapply task_step_weaken; [|exact Hstep]; tauto.
  - destruct (Hwrap t None (Some (py "failed")) None (Some e))
      as (s1 & w1 & t1 & E & Hc & Hl & Hstep).
    eexists _, _, _. split; [exact E|]. split; [exact Hc|]. split; [exact Hl|].
    eapply task_step_weaken; [|exact Hstep]; tauto.
  - unfold cancel_task.
    match goal with |- context [update_progress t None ?s None ?e] =>
      destruct (Hwrap t None s None e) as (s1 & w1 & t1 & E & Hc & Hl & Hstep) end.
    eexists _, _, _. split; [exact E|]. split; [exact Hc|]. split; [exact Hl|].
    eapply task_step_weaken; [|exact Hstep]; tauto.
Qed.

(** A sequence of operations keeps a task whose identifier the clock does
    not produce again, and keeps its [end_time] once it is set. *)
Lemma run_preserves (ops : list Op) :
  forall (self : SimpleProgressManager) (w : world) (task_id : str) (task : Task),
    tasks self !! task_id = Some task ->
    (forall n, (w_clock w <= n)%nat -> task_id_at n <> task_id) ->
    exists self' w' task',
      run ops (self, w) = (Ok tt, (self', w')) /\
      (w_clock w <= w_clock w')%nat /\
      tasks self' !! task_id = Some task' /\
      (t_end_time task <> None -> t_end_time task' = t_end_time task).
Proof.
  induction ops as [|op rest IH]; intros self w task_id task Ht Hclock; cbn.
  - eexists _, _, _. split; [reflexivity|]. split; [lia|]. split; [exact Ht|]. auto.
  - destruct (call_step op self w task_id task Ht) as (s1 & w1 & t1 & E & Hc & Hl & Hstep).
    { destruct op; cbn; auto; apply Hclock; lia. }
    unfold bind at 1. rewrite E.
    destruct (IH s1 w1 task_id t1 Hl) as (s2 & w2 & t2 & E2 & Hc2 & Hl2 & Hend).
    { intros n Hn. apply Hclock. lia. }
    rewrite E2. eexists _, _, _. split; [reflexivity|]. split; [lia|]. split; [exact Hl2|].
    intros Hset. destruct Hstep as ([Hsame|(Hnone & _)] & _); [|congruence].
    rewrite Hend by congruence. exact Hsame.
Qed.

(** C4, amended. After any sequence of operations of the tracker, the task
    (whose identifier the clock does not produce again) is still there, and
    the next operation, whichever it is, does this to it:
    [end_time] stays as it is, unless it is unset and the operation asks
    for a terminal status for the task, in which case it is set to the
    time of the call; a request for a terminal status always leaves it
    set; so it is set once, by the first such request, and an [end_time]
    that was set at the start is the same at the end.
    The status stays as it is, or [assign_task] moves a pending task to
    running, or the status becomes the one [update_progress] or one of its
    wrappers asks for, whatever the status was: [update_progress] checks no
    transition. *)
Theorem tracker_lifecycle_steps (before : list Op) (op : Op)
    (self : SimpleProgressManager) (w : world) (task_id : str) (task : Task) :
  tasks self !! task_id = Some task ->
  (forall n, (w_clock w <= n)%nat -> task_id_at n <> task_id) ->
  exists s1 w1 t1 s2 w2 t2,
    run before (self, w) = (Ok tt, (s1, w1)) /\
    tasks s1 !! task_id = Some t1 /\
    call op (s1, w1) = (Ok tt, (s2, w2)) /\
    tasks s2 !! task_id = Some t2 /\
    task_step (requested_status op task_id)
              (exists agent_id, op = AssignTask task_id agent_id) w1 t1 t2 /\
    (t_end_time task <> None -> t_end_time t2 = t_end_time task).
Proof.
  intros Ht Hclock.
  destruct (run_preserves before self w task_id task Ht Hclock)
    as (s1 & w1 & t1 & E1 & Hc1 & Hl1 & Hend1).
  destruct (call_step op s1 w1 task_id t1 Hl1) as (s2 & w2 & t2 & E2 & Hc2 & Hl2 & Hstep).
  { destruct op; cbn; auto; apply Hclock; lia. }
  exists s1, w1, t1, s2, w2, t2. repeat (split; [assumption|]).
  intros Hset. destruct Hstep as ([Hsame|(Hnone & _)] & _).
  - rewrite Hsame. auto.
  - rewrite Hend1 in Hnone by exact Hset. congruence.
Qed.

End TrackerSteps.

Lemma task_id_at_not_restored (n : nat) :
  @task_id_at Example.rt n <> Example.restored_task.
Proof.
  unfold task_id_at, Example.restored_task.
  change (py "task_") with [116; 97; 115; 107; 95].
  change (py "report_2023") with [114; 101; 112; 111; 114; 116; 95; 50; 48; 50; 51].
  discriminate.
Qed.

Lemma tracker_lifecycle_steps_witness :
  exists task s1 w1 t1 s2 w2 t2,
    tasks (fst Example.restored) !! Example.restored_task = Some task /\
    run [AssignTask Example.restored_task (py "analyst_7");
         CompleteTask Example.restored_task (py "done")]
        (fst Example.restored, snd Example.restored) = (Ok tt, (s1, w1)) /\
    tasks s1 !! Example.restored_task = Some t1 /\
    call (FailTask Example.restored_task (py "too late")) (s1, w1) = (Ok tt, (s2, w2)) /\
    tasks s2 !! Example.restored_task = Some t2 /\
    t_status t2 = py "failed".
Proof.
  assert (Hl : exists task, tasks (fst Example.restored) !! Example.restored_task = Some task).
  { vm_compute. eexists. reflexivity. }
  destruct Hl as (task & Hl).
  destruct (tracker_lifecycle_steps
              [AssignTask Example.restored_task (py "analyst_7");
               CompleteTask Example.restored_task (py "done")]
              (FailTask Example.restored_task (py "too late"))
              (fst Example.restored) (snd Example.restored) Example.restored_task task Hl)
    as (s1 & w1 & t1 & s2 & w2 & t2 & E1 & Hl1 & E2 & Hl2 & (_ & _ & _ & Hs) & _).
  { intros n _. apply task_id_at_not_restored. }
  exists task, s1, w1, t1, s2, w2, t2.
  split; [exact Hl|]. split; [exact E1|]. split; [exact Hl1|]. split; [exact E2|].
  split; [exact Hl2|]. apply Hs. cbn. rewrite str_eqb_refl. reflexivity.
Defined.

(** C4, as stated, fails: [complete_task] on a task that was never assigned
    moves it from pending to completed without passing through running. *)
Lemma status_skips_running_counterexample :
  ~ Spec.status_follows_lifecycle (fst Example.created) (snd Example.created)
      (CompleteTask Example.the_task (py "done")) Example.the_task.
Proof.
  assert (Hpending : exists task,
            tasks (fst Example.created) !! Example.the_task = Some task /\
            t_status task = py "pending").
  { vm_compute. eexists. split; reflexivity. }
  destruct Hpending as (task & Hl & Hs).
  destruct (update_progress_run (fst Example.created) (snd Example.created) Example.the_task
              (Some 100%Q) (Some (py "completed")) (Some (py "done")) None task Hl)
    as (s1 & w1 & t1 & E & _ & Hl1 & Hs1 & _).
  intros H. destruct (H task s1 w1 t1 Hl) as [Hsame|Hallowed].
  - cbn [call]. unfold bind, complete_task. rewrite E. reflexivity.
  - exact Hl1.
  - rewrite Hs, Hs1 in Hsame. vm_compute in Hsame. discriminate.
  - rewrite Hs, Hs1 in Hallowed. vm_compute in Hallowed. discriminate.
Qed.

(** ** The planner *)

Section PlannerProofs.
Context {R : Runtime}.























Lemma last_n_length {A} (n : nat) (l : list A) : (List.length (last_n n l) <= n)%nat.
Proof. unfold last_n. rewrite length_drop. lia. Qed.

Lemma last_n_snoc {A} (n : nat) (l : list A) (x : A) :
  (0 < n)%nat -> last (last_n n (l ++ [x])) = Some x.
Proof.
  intros Hn. unfold last_n. rewrite length_app. cbn [List.length].
  rewrite drop_app_le by lia. apply last_snoc.
Qed.

(** The history [_save_planning_history] leaves. *)
Lemma save_planning_history_run (self : SimpleDynamicPlanner) (w : world) (goal : str)
    (p : pyval) (current_state feedback : option str) (n : nat) :
  plan_task_count p = Ok n ->
  exists self',
    _save_planning_history goal p current_state feedback (self, w)
      = (Ok tt, (self', tick w)) /\
    (List.length (planning_history self') <= 10)%nat /\
    last (planning_history self')
      = Some {| h_timestamp := now_isoformat (w_clock w); h_goal := goal; h_plan := p;
                h_current_state := current_state; h_feedback := feedback;
                h_task_count := n |} /\
    (history_ok self -> history_ok self').
Proof.
  intros Hn.
  unfold _save_planning_history, bind, on_world, datetime_now, lift, update_self;
    cbn -[Nat.ltb].
  rewrite Hn. cbn -[Nat.ltb]. eexists. split; [reflexivity|]. cbn -[Nat.ltb].
  set (entry := {| h_timestamp := now_isoformat (w_clock w); h_goal := goal; h_plan := p;
                   h_current_state := current_state; h_feedback := feedback;
                   h_task_count := n |}).
  destruct (10 <? List.length (planning_history self ++ [entry]))%nat eqn:E.
  - split; [apply last_n_length|]. split; [apply last_n_snoc; lia|].
    unfold history_ok. cbn. intros Hok. unfold last_n. apply Forall_drop.
    apply Forall_app. split; [exact Hok|]. constructor; [|constructor].
    cbn. exists n. exact Hn.
  - apply Nat.ltb_ge in E. split; [exact E|]. split; [apply last_snoc|].
    unfold history_ok. cbn. intros Hok.
    apply Forall_app. split; [exact Hok|]. constructor; [|constructor].
    cbn. exists n. exact Hn.
Qed.




End PlannerProofs.

Section PlannerExamples.
#[local] Existing Instance Example.rt.




(** C2: the code raises where the claim says it does not. The generator
    returns the text [123] without raising; the text is valid JSON, so
    [safe_json_parse] returns the integer, and the test ["error" in parsed]
    of [_parse_plan] raises a [TypeError] that [plan] lets through. *)
Theorem plan_raises_on_json_number :
  fst (plan (py "summarise the sales data") None None
         (Example.new_planner, Example.world_answering (py "123")))
    = Raise (TypeError (py "argument of type 'int' is not iterable")) /\
  ~ Spec.plan_raises_only_generator_errors Example.new_planner
      (Example.world_answering (py "123")) (py "summarise the sales data") None None.
Proof.
  assert (F : fst (plan (py "summarise the sales data") None None
                     (Example.new_planner, Example.world_answering (py "123")))
              = Raise (TypeError (py "argument of type 'int' is not iterable")))
    by (vm_compute; reflexivity).
  split; [exact F|].
  intros H.
  destruct (H (TypeError (py "argument of type 'int' is not iterable"))
              (snd (plan (py "summarise the sales data") None None
                      (Example.new_planner, Example.world_answering (py "123")))))
    as (prompt & g & Hg).
  - rewrite <- F. destruct (plan _ _ _ _); reflexivity.
  - cbv [llm_generate Example.rt Reference.runtime Reference.scripted_generate w_gen
         Example.world_answering Reference.always fst snd] in Hg.
    discriminate.
Qed.

End PlannerExamples.

(** ** The actor factory *)

Section FactoryProofs.
Context {R : Runtime}.

(** With no known task type, the role is chosen by score, a role of higher
    priority winning a tie: analyst when no score is above its own,
    executor when it beats the analyst and the researcher does not beat
    it, researcher when it beats both. *)
Lemma select_agent_type_by_score (task_description : str) :
  ((executor_score task_description <= analyst_score task_description)%nat /\
   (researcher_score task_description <= analyst_score task_description)%nat ->
     _select_agent_type task_description None = py "analyst") /\
  ((analyst_score task_description < executor_score task_description)%nat /\
   (researcher_score task_description <= executor_score task_description)%nat ->
     _select_agent_type task_description None = py "executor") /\
  ((analyst_score task_description < researcher_score task_description)%nat /\
   (executor_score task_description < researcher_score task_description)%nat ->
     _select_agent_type task_description None = py "researcher").
Proof.
  unfold _select_agent_type.
  generalize (analyst_score task_description) (executor_score task_description)
             (researcher_score task_description).
  intros a e r.
  destruct (Nat.leb_spec e a); destruct (Nat.leb_spec r a); destruct (Nat.leb_spec r e);
    cbn [andb]; repeat split; intros; try reflexivity; lia.
Qed.

End FactoryProofs.

Section FactoryExamples.
#[local] Existing Instance Example.rt.

(** C3: the code does not do what the claim says for a description without
    any keyword. The three scores of ["hello"] are zero and the role chosen
    is analyst, by the rule for ties, and not researcher, which the comment
    in [_select_agent_type] calls the default type. *)
Theorem select_agent_type_without_keyword :
  analyst_score (py "hello") = 0%nat /\
  executor_score (py "hello") = 0%nat /\
  researcher_score (py "hello") = 0%nat /\
  _select_agent_type (py "hello") None = py "analyst" /\
  ~ Spec.default_role_is_researcher (py "hello").
Proof.
  assert (Ha : analyst_score (py "hello") = 0%nat) by (vm_compute; reflexivity).
  assert (He : executor_score (py "hello") = 0%nat) by (vm_compute; reflexivity).
  assert (Hr : researcher_score (py "hello") = 0%nat) by (vm_compute; reflexivity).
  assert (Hs : _select_agent_type (py "hello") None = py "analyst")
    by (vm_compute; reflexivity).
  repeat (split; [assumption|]).
  intros H. specialize (H Ha He Hr). rewrite Hs in H. vm_compute in H. discriminate.
Qed.

End FactoryExamples.

(** ** The actor *)

Section ActorProofs.
Context {R : Runtime}.

Lemma generate_run (prompt : str) (n : Z) (w : world) :
  generate prompt n w =
    (fst (llm_generate prompt n (w_gen w)),
     World (snd (llm_generate prompt n (w_gen w))) (w_clock w) (S (w_calls w))).
Proof. unfold generate. destruct (llm_generate _ _ _); reflexivity. Qed.

(** The loop calls the generator once per iteration it starts, and starts
    no more iterations than it is given. *)
Lemma react_iterations_calls (self : SimpleActor) (task : str) (max_iterations : Z)
    (iterations : list nat) :
  forall context steps w r w',
    react_iterations self task max_iterations iterations context steps w = (r, w') ->
    (w_calls w <= w_calls w' <= w_calls w + List.length iterations)%nat.
Proof.
  induction iterations as [|i rest IH]; intros context steps w r w' E; cbn in E.
  - injection E as <- <-. cbn. lia.
  - unfold bind in E. rewrite generate_run in E.
    destruct (llm_generate _ _ _) as [[response|e] g]; cbn in E;
      [|injection E as <- <-; cbn; lia].
    destruct (_is_completion_response response); cbn in E;
      [injection E as <- <-; cbn; lia|].
    destruct (parse_response response) as [thought action]; cbn in E.
    destruct (_should_continue _ _ _); cbn in E; [|injection E as <- <-; cbn; lia].
    apply IH in E. cbn in E |- *. lia.
Qed.

Lemma generate_summary_shape (task : str) (steps : list Step) (timeout : bool) :
  steps <> [] ->
  exists rest,
    _generate_summary task steps timeout
      = (if timeout then py "任务执行超时（" else py "任务执行完成（") ++ rest.
Proof.
  intros Hs. destruct steps as [|s0 steps']; [congruence|].
  unfold _generate_summary. cbv beta iota zeta. clear Hs.
  generalize (s0 :: steps'). intros steps.
  match goal with |- context [fold_left ?f steps ?init] =>
    let H := fresh in
    assert (H : forall acc x, exists more, f acc x = acc ++ more)
      by (intros acc step; cbn; destruct (is_completion_step step); eexists; reflexivity);
    destruct (fold_left_extends f H steps init) as [suffix ->]
  end.
  destruct (last steps) as [l|]; [destruct (is_completion_step l)|];
    rewrite <- ?app_assoc; eexists; reflexivity.
Qed.

Lemma generate_summary_nonempty (task : str) (steps : list Step) (timeout : bool) :
  _generate_summary task steps timeout <> [].
Proof.
  destruct steps as [|s0 steps'].
  - unfold _generate_summary. vm_compute. discriminate.
  - destruct (generate_summary_shape task (s0 :: steps') timeout) as [rest ->]; [discriminate|].
    apply app_not_nil. destruct timeout; vm_compute; discriminate.
Qed.

Lemma generate_summary_timeout (task : str) (steps : list Step) :
  steps <> [] -> is_timeout_summary (_generate_summary task steps true) = true.
Proof.
  intros Hs. destruct (generate_summary_shape task steps true Hs) as [rest ->].
  unfold is_timeout_summary. apply startswith_app_more. vm_compute. reflexivity.
Qed.

Lemma generate_summary_completed (task : str) (steps : list Step) :
  is_timeout_summary (_generate_summary task steps false) = false.
Proof.
  destruct steps as [|s0 steps'].
  - vm_compute. reflexivity.
  - destruct (generate_summary_shape task (s0 :: steps') false) as [rest ->]; [discriminate|].
    unfold is_timeout_summary.
    replace (py "任务执行完成（") with (py "任务执行" ++ py "完成（") by (vm_compute; reflexivity).
    replace (py "任务执行超时") with (py "任务执行" ++ py "超时") by (vm_compute; reflexivity).
    rewrite <- app_assoc.
    vm_compute (py "完成（").
    vm_compute (py "任务执行"). vm_compute (py "超时"). cbn [app].
    rewrite !startswith_cons. reflexivity.
Qed.

Lemma react_iterations_timeout (self : SimpleActor) (task : str)
    (Inv : nat -> gen_state -> Prop) (rounds : nat) :
  (forall k g0, (k < rounds)%nat -> Inv k g0 -> forall prompt max_tokens,
     exists response g1,
       llm_generate prompt max_tokens g0 = (Ok response, g1) /\ Inv (S k) g1 /\
       goes_on_at self k response) ->
  forall n i context steps w,
    (i + n <= rounds)%nat ->
    Inv i (w_gen w) ->
    n <> 0%nat \/ steps <> [] ->
    exists steps' w',
      react_iterations self task MAX_ITERATIONS (seq i n) context steps w
        = (Ok (_generate_summary task steps' true), w') /\
      steps' <> [] /\
      w_calls w' = (w_calls w + n)%nat.
Proof.
  intros Hgen. induction n as [|n IH]; intros i context steps w Hin Hinv Hne; cbn.
  - destruct Hne as [Hne|Hne]; [congruence|].
    eexists _, _. split; [reflexivity|]. split; [exact Hne|]. lia.
  - unfold bind. rewrite generate_run.
    destruct (Hgen i (w_gen w) ltac:(lia) Hinv
                (_build_react_prompt self task context steps i) 800%Z)
      as (response & g1 & -> & Hinv1 & Hnc & Hgo).
    cbn. rewrite Hnc.
    destruct (parse_response response) as [thought action]; cbn in Hgo |- *.
    rewrite Hgo.
    match goal with |- context [react_iterations _ _ _ (seq (S i) n) ?c ?s ?w0] =>
      destruct (IH (S i) c s w0) as (steps' & w' & -> & Hs & Hc) end.
    + lia.
    + exact Hinv1.
    + right. destruct steps; discriminate.
    + eexists _, _. split; [reflexivity|]. split; [exact Hs|]. cbn in Hc. lia.
Qed.

(** How the loop ends when it returns: with a summary, or with the payload
    of the completion response that the generator has just given, as its
    answer to the last call of the run, to the prompt of an iteration. *)
Lemma react_iterations_outcome (self : SimpleActor) (task : str) (max_iterations : Z) :
  forall n i context steps w result w',
    react_iterations self task max_iterations (seq i n) context steps w = (Ok result, w') ->
    (exists steps' timeout, result = _generate_summary task steps' timeout) \/
    (exists context' steps' k g0 response,
       (k < n)%nat /\
       llm_generate (_build_react_prompt self task context' steps' (i + k)) 800 g0
         = (Ok response, w_gen w') /\
       w_calls w' = (w_calls w + S k)%nat /\
       _is_completion_response response = true /\
       result = _extract_completion_result response).
Proof.
  induction n as [|n IH]; intros i context steps w result w' E; cbn in E.
  - injection E as <- <-. left. eauto.
  - unfold bind in E. rewrite generate_run in E.
    destruct (llm_generate _ _ _) as [[response|e] g] eqn:Eg; cbn in E; [|discriminate E].
    destruct (_is_completion_response response) eqn:Ec; cbn in E.
    + injection E as <- <-. right. exists context, steps, 0%nat, (w_gen w), response.
      split; [lia|]. rewrite Nat.add_0_r. split; [exact Eg|]. cbn.
      split; [lia|]. split; [exact Ec|reflexivity].
    + destruct (parse_response response) as [thought action]; cbn in E.
      destruct (_should_continue _ _ _); cbn in E.
      * apply IH in E.
        destruct E as [Hsum|(c' & s' & k & g0 & r' & Hk & Hg & Hcalls & Hrest)].
        -- left. exact Hsum.
        -- right. exists c', s', (S k), g0, r'. split; [lia|].
           replace (i + S k)%nat with (S i + k)%nat by lia. split; [exact Hg|].
           cbn in Hcalls. split; [lia|exact Hrest].
      * injection E as <- <-. left. eauto.
Qed.

(** [execute] returns what the loop returns, or the error text made from
    the exception the loop raises; in both cases the task is cleared. *)
Lemma execute_run (self : SimpleActor) (w : world) (task : str) (context : option ContextDict) :
  exists result self' w',
    execute task context (self, w) = (Ok result, (self', w')) /\
    current_task self' = None /\
    match _react_loop (started self task) task
            (match context with Some c => c | None => [] end) w with
    | (Ok r, w1) => result = r /\ status self' = completed /\ w' = tick w1
    | (Raise e, w1) =>
      result = py "任务执行失败: " ++ exn_msg e /\ status self' = error /\ w' = tick w1
    end.
Proof.
  unfold execute, started, bind, try_finally, try_except, update_self, get_self, on_world; cbn.
  destruct (_react_loop _ _ _ w) as [[r|e] w1]; cbn;
    eexists _, _, _; (split; [reflexivity|]); cbn; auto.
Qed.

(** C7, amended. [execute] returns, and the generator has been called at
    most [MAX_ITERATIONS] times, once per iteration. When [MAX_ITERATIONS] is
    at least 1 and the generator answers each of the [MAX_ITERATIONS] calls
    with a response that is not a completion and whose action result lets
    the loop go on at that iteration (it passes [_should_continue] there: a
    result with a failure marker passes before the last two iterations
    only, a result without one passes unless it has a completion word), the
    loop runs [MAX_ITERATIONS] iterations and the result is tagged as a
    timeout summary. *)
Theorem execute_iteration_budget (self : SimpleActor) (w : world) (task : str)
    (context : option ContextDict) :
  exists result self' w',
    execute task context (self, w) = (Ok result, (self', w')) /\
    (w_calls w <= w_calls w' <= w_calls w + Z.to_nat MAX_ITERATIONS)%nat /\
    ((0 < MAX_ITERATIONS)%Z ->
     answers_in_turn (goes_on_at self) (Z.to_nat MAX_ITERATIONS) (w_gen w) ->
     is_timeout_summary result = true /\
     w_calls w' = (w_calls w + Z.to_nat MAX_ITERATIONS)%nat).
Proof.
  destruct (execute_run self w task context) as (result & self' & w' & E & _ & Hloop).
  exists result, self', w'. split; [exact E|].
  unfold _react_loop in Hloop.
  set (ctx := match context with Some c => c | None => [] end) in *.
  destruct (react_iterations (started self task) task MAX_ITERATIONS
              (seq 0 (Z.to_nat MAX_ITERATIONS)) ctx [] w) as [r w1] eqn:Eloop.
  pose proof (react_iterations_calls _ _ _ _ _ _ _ _ _ Eloop) as Hcalls.
  rewrite length_seq in Hcalls.
  assert (Hw : w_calls w' = w_calls w1) by (destruct r; destruct Hloop as (_ & _ & ->); reflexivity).
  split; [lia|].
  intros Hpos (Inv & Hinv & Hgen).
  destruct (react_iterations_timeout (started self task) task Inv (Z.to_nat MAX_ITERATIONS)
              Hgen (Z.to_nat MAX_ITERATIONS) 0%nat ctx [] w)
    as (steps' & w2 & E2 & Hne & Hc).
  - lia.
  - exact Hinv.
  - left. lia.
  - rewrite Eloop in E2. injection E2 as -> ->. destruct Hloop as (-> & _ & _).
    split; [apply generate_summary_timeout; exact Hne|].
    rewrite Hw, Hc. reflexivity.
Qed.

(** C8, amended. [execute] returns a string and propagates no exception:
    when the loop raises, the result is the error prefix followed by the
    text of the exception and the status is error; otherwise the result is
    the one of the loop and the status is completed. In both cases
    [current_task] is cleared. The result is an error text or a summary,
    which are not empty, or else it is the payload of the completion
    response that the generator has given to the last call of this run,
    and then it is empty exactly when that payload is empty once
    stripped. *)
Theorem execute_always_returns (self : SimpleActor) (w : world) (task : str)
    (context : option ContextDict) :
  exists result self' w',
    execute task context (self, w) = (Ok result, (self', w')) /\
    current_task self' = None /\
    (forall e w1,
       _react_loop (started self task) task
         (match context with Some c => c | None => [] end) w = (Raise e, w1) ->
       result = py "任务执行失败: " ++ exn_msg e /\ status self' = error) /\
    (forall r w1,
       _react_loop (started self task) task
         (match context with Some c => c | None => [] end) w = (Ok r, w1) ->
       result = r /\ status self' = completed) /\
    ((status self' = error /\ result <> [] /\
      exists e, result = py "任务执行失败: " ++ exn_msg e) \/
     (status self' = completed /\ result <> [] /\
      exists steps timeout, result = _generate_summary task steps timeout) \/
     (status self' = completed /\
      exists context' steps iteration g0 response,
        (iteration < Z.to_nat MAX_ITERATIONS)%nat /\
        llm_generate (_build_react_prompt (started self task) task context' steps iteration)
                     800 g0
          = (Ok response, w_gen w') /\
        w_calls w' = (w_calls w + S iteration)%nat /\
        _is_completion_response response = true /\
        result = _extract_completion_result response)).
Proof.
  destruct (execute_run self w task context) as (result & self' & w' & E & Hcur & Hloop).
  exists result, self', w'. split; [exact E|]. split; [exact Hcur|].
  destruct (_react_loop _ _ _ w) as [[r|e] w1] eqn:Eloop.
  - destruct Hloop as (-> & Hst & ->).
    split; [intros e w2 H; discriminate H|].
    split; [intros r' w2 H; injection H as <- <-; auto|].
    right. unfold _react_loop in Eloop.
    apply react_iterations_outcome in Eloop.
    destruct Eloop
      as [(steps' & timeout & ->)|(c' & s' & k & g0 & r' & Hk & Hg & Hcalls & Hc & Hr)].
    + left. split; [exact Hst|]. split; [apply generate_summary_nonempty|eauto].
    + right. split; [exact Hst|]. exists c', s', k, g0, r'.
      split; [exact Hk|]. split; [exact Hg|]. split; [cbn; lia|].
      split; [exact Hc|exact Hr].
  - destruct Hloop as (-> & Hst & _).
    split; [intros e' w2 H; injection H as <- <-; auto|].
    split; [intros r' w2 H; discriminate H|].
    left. split; [exact Hst|]. split; [|eauto].
    apply app_not_nil. vm_compute. discriminate.
Qed.

(** *** The calculator *)

Lemma class_run_spec (s : str) :
  class_run s = negb (bool_decide (s = [])) && forallb calc_char s.
Proof. destruct s; reflexivity. Qed.

(** The pattern matches the strings that are not empty and made of
    characters of the class only: a newline that ends the string is in the
    class too. *)
Lemma re_match_expression_spec (expression : str) :
  re_match_expression expression
    = negb (bool_decide (expression = [])) && forallb calc_char expression.
Proof.
  unfold re_match_expression. rewrite class_run_spec.
  destruct (negb (bool_decide (expression = [])) && forallb calc_char expression) eqn:E;
    [reflexivity|].
  cbn [orb]. destruct (rev expression) as [|c r] eqn:Er; [reflexivity|].
  destruct (c =? 10) eqn:Ec; [|reflexivity]. cbn [andb].
  rewrite class_run_spec.
  assert (Hx : expression = rev r ++ [c]).
  { rewrite <- (rev_involutive expression), Er. reflexivity. }
  rewrite Hx in E. rewrite forallb_app in E. cbn in E.
  apply N.eqb_eq in Ec. subst c.
  replace (calc_char 10) with true in E by (vm_compute; reflexivity).
  rewrite andb_true_r in E.
  replace (bool_decide (rev r ++ [10] = [])) with false in E
    by (symmetry; apply bool_decide_eq_false; destruct (rev r); discriminate).
  cbn in E. rewrite E. apply andb_false_r.
Qed.

End ActorProofs.

(** C10. The calculator returns a string for every input and raises
    nothing. An input with a character outside the class (digits,
    [+ - * / ( ) . %] and white space) is answered with the
    invalid-expression message, whatever [eval] would do with it (the answer
    is the same under every runtime: the input is not evaluated). When the
    input matches and its evaluation raises, the answer is the
    calculation-error message with the text of the exception. *)
Theorem calculator_never_raises (R1 R2 : Runtime) (expression : str) :
  (exists text, @_tool_calculator R1 expression = Ok text) /\
  (forallb calc_char expression = false ->
   @_tool_calculator R1 expression = Ok (py "无效的数学表达式: " ++ expression) /\
   @_tool_calculator R2 expression = @_tool_calculator R1 expression) /\
  (forall e,
     re_match_expression expression = true ->
     @py_eval R1 expression = Raise e ->
     @_tool_calculator R1 expression = Ok (py "计算错误: " ++ exn_msg e)).
Proof.
  split; [|split].
  - unfold _tool_calculator, rcatch.
    destruct (re_match_expression expression); [|eauto].
    destruct (py_eval expression); cbn; eauto.
  - intros Hbad. unfold _tool_calculator.
    rewrite re_match_expression_spec, Hbad, andb_false_r. split; reflexivity.
  - intros e Hm He. unfold _tool_calculator. rewrite Hm, He. reflexivity.
Qed.

Section ActorExamples.
#[local] Existing Instance Example.rt.

(** A generator that gives the same answer to every call does so from
    every state it reaches. *)
Lemma always_answers_constant (P : str -> Prop) (answer : str) :
  P answer -> always_answers P (Reference.always answer).
Proof.
  intros HP. exists (fun g => g = Reference.always answer). split; [reflexivity|].
  intros g0 -> prompt max_tokens. exists answer, (Reference.always answer).
  split; [reflexivity|]. split; [reflexivity|exact HP].
Qed.

Lemma goes_on_at_empty_answer (iteration : nat) : goes_on_at Example.analyst iteration [].
Proof.
  split; [vm_compute; reflexivity|].
  replace (_execute_action Example.analyst (snd (parse_response [])))
    with (py "无效行动") by (vm_compute; reflexivity).
  unfold _should_continue.
  replace (contains (py "失败") (py "无效行动")) with false by (vm_compute; reflexivity).
  replace (contains (py "错误") (py "无效行动")) with false by (vm_compute; reflexivity).
  cbn [orb]. vm_compute. reflexivity.
Qed.

(** The generator fails once, at the first iteration, then gives empty
    answers: the loop goes on at every iteration. *)
Lemma answers_in_turn_example :
  answers_in_turn (goes_on_at Example.analyst) (Z.to_nat MAX_ITERATIONS)
    (w_gen (Example.world_scripted [py "Action: calculator: 1/0"] [])).
Proof.
  exists (fun k g => g = match k with
                         | O => ([Ok (py "Action: calculator: 1/0")], Ok [])
                         | S _ => ([], Ok [])
                         end).
  split; [reflexivity|].
  intros k g0 _ -> prompt max_tokens. destruct k as [|k].
  - exists (py "Action: calculator: 1/0"), ([], Ok []).
    split; [reflexivity|]. split; [reflexivity|].
    split; vm_compute; reflexivity.
  - exists [], ([], Ok []).
    split; [reflexivity|]. split; [reflexivity|]. apply goes_on_at_empty_answer.
Qed.

Lemma execute_iteration_budget_witness :
  exists result self' w',
    (0 < MAX_ITERATIONS)%Z /\
    answers_in_turn (goes_on_at Example.analyst) (Z.to_nat MAX_ITERATIONS)
      (w_gen (Example.world_scripted [py "Action: calculator: 1/0"] [])) /\
    execute (py "add 125 and 375") None
      (Example.analyst, Example.world_scripted [py "Action: calculator: 1/0"] [])
      = (Ok result, (self', w')) /\
    is_timeout_summary result = true /\
    w_calls w' = 15%nat.
Proof.
  destruct (execute_iteration_budget Example.analyst
              (Example.world_scripted [py "Action: calculator: 1/0"] [])
              (py "add 125 and 375") None)
    as (result & self' & w' & E & _ & Htimeout).
  assert (Hpos : (0 < MAX_ITERATIONS)%Z) by reflexivity.
  destruct (Htimeout Hpos answers_in_turn_example) as (Ht & Hc).
  exists result, self', w'. split; [exact Hpos|]. split; [exact answers_in_turn_example|].
  split; [exact E|]. split; [exact Ht|exact Hc].
Defined.

(** C7, as stated, fails: the generator answers every call with the same
    response, which is not a completion; the result of its action contains
    a completion word, so the loop stops after one iteration with a summary
    that is tagged as completed, not as a timeout. *)
Lemma execute_stops_without_timeout_counterexample :
  ~ Spec.timeout_without_completion Example.analyst
      (Example.world_answering (py "行动: 任务成功")) (py "add 125 and 375") None.
Proof.
  intros H. destruct H as (result & ow & E & Ht).
  - apply always_answers_constant. vm_compute. reflexivity.
  - assert (F : fst (execute (py "add 125 and 375") None
                       (Example.analyst, Example.world_answering (py "行动: 任务成功")))
                = Ok (py "任务执行完成（1步）: add 125 and 375

执行过程:
- 

最新结果: 处理结果: 已处理输入'任务成功...'"))
      by (vm_compute; reflexivity).
    rewrite E in F. cbn [fst] in F. injection F as ->.
    vm_compute in Ht. discriminate Ht.
Qed.

Lemma execute_always_returns_witness :
  exists result self' w',
    execute (py "add 125 and 375") None
      (Example.analyst, Example.world_answering (py "Action: calculator: 125 + 375"))
      = (Ok result, (self', w')) /\
    current_task self' = None.
Proof.
  destruct (execute_always_returns Example.analyst
              (Example.world_answering (py "Action: calculator: 125 + 375"))
              (py "add 125 and 375") None)
    as (result & self' & w' & E & Hcur & _).
  exists result, self', w'. split; [exact E|exact Hcur].
Defined.

(** C8, as stated, fails: when the generator answers with the completion
    marker and nothing after it, [execute] returns the empty string. *)
Lemma execute_empty_result_counterexample :
  ~ Spec.execute_result_nonempty Example.analyst
      (Example.world_answering (py "完成:")) (py "add 125 and 375") None.
Proof.
  intros (result & ow & E & Hne).
  assert (F : fst (execute (py "add 125 and 375") None
                     (Example.analyst, Example.world_answering (py "完成:")))
              = Ok [])
    by (vm_compute; reflexivity).
  rewrite E in F. cbn [fst] in F. injection F as ->. congruence.
Qed.

Lemma calculator_never_raises_witness :
  forallb calc_char (py "2 + two") = false /\
  _tool_calculator (py "2 + two") = Ok (py "无效的数学表达式: 2 + two") /\
  re_match_expression (py "1/0") = true /\
  py_eval (py "1/0") = Raise Reference.ZeroDivisionError /\
  _tool_calculator (py "1/0") = Ok (py "计算错误: division by zero").
Proof.
  assert (Hbad : forallb calc_char (py "2 + two") = false) by (vm_compute; reflexivity).
  assert (Hm : re_match_expression (py "1/0") = true) by (vm_compute; reflexivity).
  assert (He : py_eval (py "1/0") = Raise Reference.ZeroDivisionError)
    by (vm_compute; reflexivity).
  split; [exact Hbad|].
  split; [exact (proj1 (proj1 (proj2 (calculator_never_raises Example.rt Example.rt
                                        (py "2 + two"))) Hbad))|].
  split; [exact Hm|]. split; [exact He|].
  exact (proj2 (proj2 (calculator_never_raises Example.rt Example.rt (py "1/0")))
           Reference.ZeroDivisionError Hm He).
Defined.

End ActorExamples.

(** * Further properties of the code *)

(** ** More on the progress tracker *)

Section TrackerMore.
Context {R : Runtime}.

(** X1. [create_task] returns the identifier made from the clock and stores
    under it a pending task with the description, type and priority given,
    no agent, no progress, no times and no result; it adds one to
    [total_tasks], and leaves the other tasks and the agents alone. *)
Theorem create_task_stores_pending_task (self : SimpleProgressManager) (w : world)
    (description task_type : str) (subtasks : option (list str)) (priority : str) :
  exists self' w' task,
    create_task description task_type subtasks priority (self, w)
      = (Ok (task_id_at (w_clock w)), (self', w')) /\
    get_task_status self' (task_id_at (w_clock w)) = Some task /\
    task_id task = task_id_at (w_clock w) /\
    t_description task = description /\ t_type task = task_type /\
    t_priority task = priority /\ t_status task = py "pending" /\
    t_progress task = 0%Q /\ t_assigned_agent task = None /\
    t_start_time task = None /\ t_end_time task = None /\
    t_result task = None /\ t_error_message task = None /\
    (forall other, other <> task_id_at (w_clock w) ->
       get_task_status self' other = get_task_status self other) /\
    agents self' = agents self /\
    total_tasks (system_stats self') = (total_tasks (system_stats self) + 1)%Z.
Proof.
  unfold create_task, bind, generate_task_id, on_world, ret, get_task_status; cbn.
  run_save. eexists _, _, _. split; [reflexivity|]. rewrite Htasks, Hagents, Hstats. cbn.
  fold (task_id_at (w_clock w)).
  rewrite lookup_insert_eq. split; [reflexivity|]. repeat (split; [reflexivity|]).
  split; [|split; reflexivity].
  intros other Hne. rewrite lookup_insert_ne by auto. reflexivity.
Qed.

Lemma clamp_progress_bounds (p : Q) :
  (0 <= clamp_progress p)%Q /\ (clamp_progress p <= 100)%Q.
Proof.
  unfold clamp_progress.
  destruct (Qle_bool 100 p) eqn:E1.
  - replace (Qle_bool 100 0) with false by reflexivity. split; [discriminate|apply Qle_refl].
  - destruct (Qle_bool p 0) eqn:E2.
    + split; [apply Qle_refl|discriminate].
    + split.
      * apply Qlt_le_weak. apply Qnot_le_lt. intros H. apply Qle_bool_iff in H. congruence.
      * apply Qlt_le_weak. apply Qnot_le_lt. intros H. apply Qle_bool_iff in H. congruence.
Qed.

Lemma clamp_progress_in_range (p : Q) :
  (0 <= p)%Q -> (p <= 100)%Q -> (clamp_progress p == p)%Q.
Proof.
  intros H0 H100. unfold clamp_progress.
  destruct (Qle_bool 100 p) eqn:E1.
  - apply Qle_bool_iff in E1. replace (Qle_bool 100 0) with false by reflexivity.
    apply Qle_antisym; assumption.
  - destruct (Qle_bool p 0) eqn:E2.
    + apply Qle_bool_iff in E2. apply Qle_antisym; assumption.
    + reflexivity.
Qed.

(** What [update_progress] leaves in the fields of the task other than
    the status and the end time. *)
Lemma update_progress_fields (self : SimpleProgressManager) (w : world) (task_id : str)
    (progress : option Q) (status result error_message : option str) (task : Task) :
  tasks self !! task_id = Some task ->
  exists self' w' task',
    update_progress task_id progress status result error_message (self, w)
      = (Ok (any_given progress status result error_message), (self', w')) /\
    tasks self' !! task_id = Some task' /\
    t_progress task' = match progress with
                       | Some p => clamp_progress p
                       | None => t_progress task
                       end /\
    t_result task' = match result with Some r => Some r | None => t_result task end /\
    t_error_message task' = match error_message with
                            | Some e => Some e
                            | None => t_error_message task
                            end /\
    t_assigned_agent task' = t_assigned_agent task /\
    t_start_time task' = t_start_time task /\
    t_description task' = t_description task.
Proof.
  intros Ht. unfold update_progress, bind, get_self; cbn. rewrite Ht.
  destruct status as [s|]; cbn.
  - destruct progress as [p|]; cbn.
    + destruct (update_status_run
                  (set_tasks (alter (set_t_progress (clamp_progress p)) task_id (tasks self)) self)
                  w task_id s (set_t_progress (clamp_progress p) task))
        as (s1 & -> & Hl & _).
      { cbn. rewrite lookup_alter_eq, Ht. reflexivity. }
      destruct result, error_message; cbn; run_save;
        eexists _, _, _; (split; [reflexivity|]); cbn; rewrite Htasks; cbn;
        rewrite ?lookup_alter_eq, Hl; cbn; (split; [reflexivity|]);
        destruct (ends_task _ s); cbn; repeat split; reflexivity.
    + destruct (update_status_run self w task_id s task Ht) as (s1 & -> & Hl & _).
      destruct result, error_message; cbn; run_save;
        eexists _, _, _; (split; [reflexivity|]); cbn; rewrite Htasks; cbn;
        rewrite ?lookup_alter_eq, Hl; cbn; (split; [reflexivity|]);
        destruct (ends_task _ s); cbn; repeat split; reflexivity.
  - destruct progress, result, error_message; cbn; try run_save;
      eexists _, _, _; (split; [reflexivity|]); cbn;
      rewrite ?Htasks; cbn; rewrite ?lookup_alter_eq, Ht; cbn;
      repeat split; reflexivity.
Qed.

(** X2. The progress that [update_progress] stores is between 0 and 100,
    and is the progress given when that is between 0 and 100. *)
Theorem update_progress_clamps (self : SimpleProgressManager) (w : world) (task_id : str)
    (p : Q) (status result error_message : option str) (task : Task) :
  tasks self !! task_id = Some task ->
  exists self' w' task',
    update_progress task_id (Some p) status result error_message (self, w)
      = (Ok true, (self', w')) /\
    get_task_status self' task_id = Some task' /\
    (0 <= t_progress task')%Q /\ (t_progress task' <= 100)%Q /\
    ((0 <= p)%Q -> (p <= 100)%Q -> (t_progress task' == p)%Q).
Proof.
  intros Ht.
  destruct (update_progress_fields self w task_id (Some p) status result error_message
              task Ht) as (s1 & w1 & t1 & E & Hl & Hp & _).
  exists s1, w1, t1. split; [exact E|]. split; [exact Hl|]. rewrite Hp.
  split; [apply clamp_progress_bounds|]. split; [apply clamp_progress_bounds|].
  apply clamp_progress_in_range.
Qed.

(** X3. After [assign_task] has accepted a task, a second [assign_task] for
    the same task, to the same agent or to another, returns false and
    changes nothing: the task stays with the first agent. *)
Theorem assign_task_only_once (self : SimpleProgressManager) (w : world)
    (task_id agent1 agent2 : str) (self1 : SimpleProgressManager) (w1 : world) :
  assign_task task_id agent1 (self, w) = (Ok true, (self1, w1)) ->
  assign_task task_id agent2 (self1, w1) = (Ok false, (self1, w1)) /\
  (exists task1, get_task_status self1 task_id = Some task1 /\
     t_assigned_agent task1 = Some agent1 /\ t_status task1 = py "running").
Proof.
  intros E.
  destruct (tasks self !! task_id) as [task|] eqn:Ht.
  - destruct (str_eqb (t_status task) (py "pending")) eqn:Es.
    + apply str_eqb_eq in Es.
      destruct (assign_task_accepts self w task_id agent1 task Ht Es)
        as (s' & w' & E' & (t1 & Hl & Hst & Hag & _) & _).
      rewrite E in E'. injection E' as <- <-.
      split.
      * apply assign_task_rejects. intros t Hlt. unfold get_task_status in *.
        rewrite Hl in Hlt. injection Hlt as <-. rewrite Hst. vm_compute. discriminate.
      * exists t1. auto.
    + rewrite assign_task_rejects in E; [discriminate|].
      intros t Hlt. rewrite Ht in Hlt. injection Hlt as <-.
      apply str_eqb_neq. exact Es.
  - rewrite assign_task_rejects in E; [discriminate|].
    intros t Hlt. rewrite Ht in Hlt. discriminate.
Qed.

End TrackerMore.

Lemma update_progress_clamps_witness :
  exists self' w' task',
    update_progress Example.the_task (Some 250%Q) None None None
      (fst Example.created, snd Example.created) = (Ok true, (self', w')) /\
    get_task_status self' Example.the_task = Some task' /\
    (t_progress task' <= 100)%Q.
Proof.
  assert (Hl : exists task, tasks (fst Example.created) !! Example.the_task = Some task)
    by (vm_compute; eexists; reflexivity).
  destruct Hl as (task & Hl).
  destruct (update_progress_clamps (fst Example.created) (snd Example.created)
              Example.the_task 250%Q None None None task Hl)
    as (self' & w' & task' & E & Hg & _ & Hle & _).
  exists self', w', task'. split; [exact E|]. split; [exact Hg|exact Hle].
Defined.

Lemma assign_task_only_once_witness :
  exists self1 w1,
    assign_task Example.the_task (py "analyst_7") (fst Example.created, snd Example.created)
      = (Ok true, (self1, w1)) /\
    assign_task Example.the_task (py "executor_3") (self1, w1) = (Ok false, (self1, w1)).
Proof.
  assert (Hpending : exists task,
            tasks (fst Example.created) !! Example.the_task = Some task /\
            t_status task = py "pending").
  { vm_compute. eexists. split; reflexivity. }
  destruct Hpending as (task & Hl & Hs).
  destruct (assign_task_accepts (fst Example.created) (snd Example.created)
              Example.the_task (py "analyst_7") task Hl Hs) as (self1 & w1 & E & _).
  exists self1, w1. split; [exact E|].
  exact (proj1 (assign_task_only_once (fst Example.created) (snd Example.created)
                  Example.the_task (py "analyst_7") (py "executor_3") self1 w1 E)).
Defined.

Section TrackerMore2.
Context {R : Runtime}.

(** The task [create_task] stores has the description given. *)
Lemma create_task_description (self : SimpleProgressManager) (w : world) d ty sub prio :
  exists self' task,
    create_task d ty sub prio (self, w)
      = (Ok (task_id_at (w_clock w)), (self', tick (tick (tick (tick w))))) /\
    tasks self' = <[task_id_at (w_clock w) := task]> (tasks self) /\
    t_description task = d /\
    total_tasks (system_stats self') = (total_tasks (system_stats self) + 1)%Z.
Proof.
  unfold create_task, bind, generate_task_id, on_world, ret; cbn.
  run_save. eexists _, _. split; [reflexivity|]. rewrite Htasks, Hstats. cbn.
  split; [reflexivity|]. split; reflexivity.
Qed.

(** X4. Two calls of [create_task] for which the clock gives the same
    millisecond get the same identifier: the second task replaces the
    first, so the collection has one task more, not two, while
    [total_tasks] has counted both. *)
Theorem create_task_same_millisecond (self : SimpleProgressManager) (w : world)
    (d1 ty1 : str) (sub1 : option (list str)) (prio1 : str)
    (d2 ty2 : str) (sub2 : option (list str)) (prio2 : str) :
  time_ms (w_clock w + 4) = time_ms (w_clock w) ->
  tasks self !! task_id_at (w_clock w) = None ->
  exists id self1 w1 self2 w2 task,
    create_task d1 ty1 sub1 prio1 (self, w) = (Ok id, (self1, w1)) /\
    create_task d2 ty2 sub2 prio2 (self1, w1) = (Ok id, (self2, w2)) /\
    get_task_status self2 id = Some task /\ t_description task = d2 /\
    size (tasks self2) = S (size (tasks self)) /\
    total_tasks (system_stats self2) = (total_tasks (system_stats self) + 2)%Z.
Proof.
  intros Hms Hfresh.
  destruct (create_task_run self w d1 ty1 sub1 prio1)
    as (self1 & t1 & E1 & Hts1 & _ & _ & _ & Hn1).
  destruct (create_task_description self1 (tick (tick (tick (tick w)))) d2 ty2 sub2 prio2)
    as (self2 & t2 & E2 & Hts2 & Hd & Hn2).
  assert (Hid : task_id_at (w_clock (tick (tick (tick (tick w))))) = task_id_at (w_clock w)).
  { unfold task_id_at. cbn. replace (S (S (S (S (w_clock w))))) with (w_clock w + 4)%nat by lia.
    rewrite Hms. reflexivity. }
  rewrite Hid in *.
  exists (task_id_at (w_clock w)), self1, (tick (tick (tick (tick w)))), self2,
    (tick (tick (tick (tick (tick (tick (tick (tick w)))))))), t2.
  split; [exact E1|]. split; [exact E2|].
  split; [unfold get_task_status; rewrite Hts2; apply lookup_insert_eq|].
  split; [exact Hd|]. split.
  - rewrite Hts2, Hts1. rewrite insert_insert_eq. apply map_size_insert_None. exact Hfresh.
  - rewrite Hn2, Hn1. lia.
Qed.

(** The agents after [update_status]. *)
Lemma update_status_agents (self : SimpleProgressManager) (w : world)
    (task_id status : str) (task : Task) :
  tasks self !! task_id = Some task ->
  ends_task task status = true ->
  exists self',
    update_status task_id status (self, w) = (Ok tt, (self', tick w)) /\
    agents self' =
      match t_assigned_agent task with
      | Some (c :: r) =>
        alter (fun a =>
                 let a := set_a_status (py "idle") (set_a_current_task None a) in
                 if str_eqb status (py "completed")
                 then set_a_completed_tasks (a_completed_tasks a ++ [task_id]) a
                 else if str_eqb status (py "failed")
                 then set_a_failed_tasks (a_failed_tasks a ++ [task_id]) a
                 else a) (c :: r) (agents self)
      | _ => agents self
      end.
Proof.
  intros Ht Hends. unfold update_status, bind, get_self; cbn. rewrite Ht.
  fold (ends_task task status). rewrite Hends. cbn.
  destruct (str_eqb status (py "completed")) eqn:Ec;
    [|destruct (str_eqb status (py "failed")) eqn:Ef]; cbn;
    (destruct (t_assigned_agent task) as [[|c r]|]; cbn;
     [| destruct (agents self !! (c :: r)) as [agent|] eqn:Ea; cbn |]);
    eexists; (split; [reflexivity|]); cbn; try reflexivity;
    apply map_eq; intros k; destruct (decide (c :: r = k)) as [<-|Hne];
    rewrite ?lookup_alter_eq, ?lookup_alter_ne by exact Hne; rewrite ?Ea; reflexivity.
Qed.

(** X5. The first update that gives a terminal status to a task assigned
    to a known agent releases the agent: it becomes idle and has no
    current task; the task joins its completed list when the status is
    completed, its failed list when the status is failed, and neither when
    it is cancelled. The other agents are not touched. *)
Theorem terminal_update_releases_agent (self : SimpleProgressManager) (w : world)
    (task_id status agent_id : str) (progress : option Q)
    (result error_message : option str) (task : Task) (agent : AgentRecord) :
  tasks self !! task_id = Some task ->
  t_end_time task = None ->
  is_terminal status = true ->
  t_assigned_agent task = Some agent_id -> agent_id <> [] ->
  agents self !! agent_id = Some agent ->
  exists self' w' agent',
    update_progress task_id progress (Some status) result error_message (self, w)
      = (Ok true, (self', w')) /\
    get_agent_status self' agent_id = Some agent' /\
    a_status agent' = py "idle" /\ a_current_task agent' = None /\
    a_completed_tasks agent' =
      a_completed_tasks agent ++ (if str_eqb status (py "completed") then [task_id] else []) /\
    a_failed_tasks agent' =
      a_failed_tasks agent
      ++ (if str_eqb status (py "completed") then []
          else if str_eqb status (py "failed") then [task_id] else []) /\
    a_assigned_tasks agent' = a_assigned_tasks agent /\
    (forall other, other <> agent_id ->
       get_agent_status self' other = get_agent_status self other).
Proof.
  intros Ht Hend Hterm Hag Hne Ha.
  assert (Hends : ends_task task status = true).
  { unfold ends_task. rewrite Hterm, Hend. reflexivity. }
  unfold update_progress, bind, get_self, get_agent_status; cbn. rewrite Ht.
  destruct agent_id as [|c r]; [congruence|].
  destruct progress as [p|]; cbn.
  - destruct (update_status_agents
                (set_tasks (alter (set_t_progress (clamp_progress p)) task_id (tasks self)) self)
                w task_id status (set_t_progress (clamp_progress p) task))
      as (s1 & -> & Hagents).
    { cbn. rewrite lookup_alter_eq, Ht. reflexivity. }
    { rewrite ends_task_progress. exact Hends. }
    cbn in Hagents. rewrite Hag in Hagents.
    destruct result, error_message; cbn; run_save;
      eexists _, _, _; (split; [reflexivity|]); rewrite Hagents0; cbn; rewrite Hagents;
      rewrite lookup_alter_eq, Ha; cbn; (split; [reflexivity|]);
      (destruct (str_eqb status (py "completed")); [|destruct (str_eqb status (py "failed"))]);
      cbn; rewrite ?app_nil_r; repeat (split; [reflexivity|]);
      intros other Hother; rewrite lookup_alter_ne by congruence; reflexivity.
  - destruct (update_status_agents self w task_id status task Ht Hends)
      as (s1 & -> & Hagents).
    rewrite Hag in Hagents.
    destruct result, error_message; cbn; run_save;
      eexists _, _, _; (split; [reflexivity|]); rewrite Hagents0; cbn; rewrite Hagents;
      rewrite lookup_alter_eq, Ha; cbn; (split; [reflexivity|]);
      (destruct (str_eqb status (py "completed")); [|destruct (str_eqb status (py "failed"))]);
      cbn; rewrite ?app_nil_r; repeat (split; [reflexivity|]);
      intros other Hother; rewrite lookup_alter_ne by congruence; reflexivity.
Qed.

End TrackerMore2.

Lemma create_task_same_millisecond_witness :
  exists id self1 w1 self2 w2,
    @create_task Scenario.coarse_rt (py "first") (py "general") None (py "normal")
      (fst Scenario.coarse_started, snd Scenario.coarse_started) = (Ok id, (self1, w1)) /\
    @create_task Scenario.coarse_rt (py "second") (py "general") None (py "normal")
      (self1, w1) = (Ok id, (self2, w2)) /\
    size (tasks self2) = S (size (tasks (fst Scenario.coarse_started))).
Proof.
  destruct (@create_task_same_millisecond Scenario.coarse_rt
              (fst Scenario.coarse_started) (snd Scenario.coarse_started)
              (py "first") (py "general") None (py "normal")
              (py "second") (py "general") None (py "normal"))
    as (id & self1 & w1 & self2 & w2 & task & E1 & E2 & _ & _ & Hsize & _).
  - vm_compute. reflexivity.
  - vm_compute. reflexivity.
  - exists id, self1, w1, self2, w2. split; [exact E1|]. split; [exact E2|exact Hsize].
Defined.

Lemma terminal_update_releases_agent_witness :
  exists self' w' agent',
    fail_task Example.the_task (py "no data") (fst Example.assigned, snd Example.assigned)
      = (Ok true, (self', w')) /\
    get_agent_status self' (py "analyst_7") = Some agent' /\
    a_status agent' = py "idle" /\
    a_failed_tasks agent' = [Example.the_task].
Proof.
  assert (Htask : exists task,
            tasks (fst Example.assigned) !! Example.the_task = Some task /\
            t_end_time task = None /\ t_assigned_agent task = Some (py "analyst_7")).
  { vm_compute. eexists. repeat split; reflexivity. }
  assert (Hagent : exists agent,
            agents (fst Example.assigned) !! py "analyst_7" = Some agent /\
            a_failed_tasks agent = []).
  { vm_compute. eexists. split; reflexivity. }
  destruct Htask as (task & Hl & Hend & Hag). destruct Hagent as (agent & Ha & Hf).
  destruct (terminal_update_releases_agent (fst Example.assigned) (snd Example.assigned)
              Example.the_task (py "failed") (py "analyst_7") None None (Some (py "no data"))
              task agent Hl Hend)
    as (self' & w' & agent' & E & Hg & Hs & _ & _ & Hfailed & _).
  - vm_compute. reflexivity.
  - exact Hag.
  - vm_compute. discriminate.
  - exact Ha.
  - exists self', w', agent'. split; [exact E|]. split; [exact Hg|]. split; [exact Hs|].
    rewrite Hfailed, Hf. vm_compute. reflexivity.
Defined.

Section TrackerCleaning.
Context {R : Runtime}.

Lemma lookup_fold_delete {A} (ks : list str) :
  forall (m : gmap str A) (k : str),
    fold_left (fun m k => delete k m) ks m !! k
      = if bool_decide (k ∈ ks) then None else m !! k.
Proof.
  induction ks as [|k0 ks IH]; intros m k; cbn.
  - reflexivity.
  - rewrite IH. destruct (decide (k = k0)) as [->|Hne].
    + rewrite lookup_delete_eq.
      rewrite (bool_decide_eq_true_2 (k0 ∈ k0 :: ks)) by (left).
      destruct (bool_decide (k0 ∈ ks)); reflexivity.
    + rewrite lookup_delete_ne by auto.
      destruct (decide (k ∈ ks)) as [Hin|Hnin].
      * rewrite !bool_decide_eq_true_2; [reflexivity| right; exact Hin | exact Hin].
      * rewrite !bool_decide_eq_false_2; [reflexivity| |exact Hnin].
        intros Hin. apply elem_of_cons in Hin as [?|?]; congruence.
Qed.

Lemma elem_of_completed_keys (m : gmap str Task) (status k : str) :
  k ∈ map fst (List.filter (fun kv => str_eqb (t_status (snd kv)) status) (map_to_list m))
  <-> exists t, m !! k = Some t /\ t_status t = status.
Proof.
  rewrite list_elem_of_In, in_map_iff. split.
  - intros ([k' t] & Hk & Hin). cbn in Hk. subst k'.
    apply filter_In in Hin as [Hin Hs]. cbn in Hs.
    apply list_elem_of_In, elem_of_map_to_list in Hin. apply str_eqb_eq in Hs. eauto.
  - intros (t & Hl & Hs). exists (k, t). split; [reflexivity|].
    apply filter_In. split.
    + apply list_elem_of_In, elem_of_map_to_list. exact Hl.
    + cbn. apply str_eqb_eq. exact Hs.
Qed.

Lemma filter_none {A} (f : A -> bool) (l : list A) :
  (forall x, In x l -> f x = false) -> List.filter f l = [].
Proof.
  induction l as [|x l IH]; intros H; cbn; [reflexivity|].
  rewrite (H x) by (left; reflexivity). apply IH. intros y Hy. apply H. right. exact Hy.
Qed.

(** X6. [clear_completed_tasks] returns the number of tasks whose status is
    completed and deletes exactly those: every other task stays as it is,
    and no completed task is left, so that a second call would return 0.
    The agents and the statistics, with the counter of completed tasks,
    are not changed. *)
Theorem clear_completed_tasks_removes_completed (self : SimpleProgressManager) (w : world) :
  exists self',
    clear_completed_tasks (self, w)
      = (Ok (count_tasks self (py "completed")), (self', tick w)) /\
    (forall task_id,
       get_task_status self' task_id
         = match get_task_status self task_id with
           | Some task => if str_eqb (t_status task) (py "completed") then None else Some task
           | None => None
           end) /\
    count_tasks self' (py "completed") = 0%nat /\
    agents self' = agents self /\
    system_stats self' = system_stats self.
Proof.
  unfold clear_completed_tasks, bind, get_self, update_self; cbn.
  run_save. eexists. split.
  - unfold count_tasks. rewrite length_map. reflexivity.
  - rewrite Hagents, Hstats. cbn.
    assert (Hlook : forall task_id,
      tasks saved !! task_id
        = match tasks self !! task_id with
          | Some task => if str_eqb (t_status task) (py "completed") then None else Some task
          | None => None
          end).
    { intros k. rewrite Htasks. cbn. rewrite lookup_fold_delete.
      destruct (tasks self !! k) as [t|] eqn:Hl.
      - destruct (str_eqb (t_status t) (py "completed")) eqn:Hs.
        + rewrite bool_decide_eq_true_2; [reflexivity|].
          apply elem_of_completed_keys. exists t. split; [exact Hl|].
          apply str_eqb_eq. exact Hs.
        + rewrite bool_decide_eq_false_2; [reflexivity|].
          intros Hin. apply elem_of_completed_keys in Hin as (t' & Hl' & Hs').
          rewrite Hl in Hl'. injection Hl' as <-. apply str_eqb_neq in Hs. congruence.
      - destruct (bool_decide _); reflexivity. }
    split; [exact Hlook|]. split; [|split; reflexivity].
    unfold count_tasks. rewrite filter_none; [reflexivity|].
    intros [k t] Hin. cbn. apply list_elem_of_In, elem_of_map_to_list in Hin.
    rewrite Hlook in Hin. destruct (tasks self !! k) as [t0|]; [|discriminate].
    destruct (str_eqb (t_status t0) (py "completed")) eqn:Hs; [discriminate|].
    injection Hin as <-. exact Hs.
Qed.

(** *** The status of the system *)





End TrackerCleaning.

(** *** The state file *)

Section TrackerFile.
Context {R : Runtime}.
Hypothesis writes : forall n, write_succeeds n = true.

Lemma save_state_sync (self : SimpleProgressManager) (w : world) :
  exists self', _save_state (self, w) = (Ok tt, (self', tick w)) /\ in_sync self'.
Proof using All.
  unfold _save_state, bind, get_self, now, on_world, datetime_now, update_self, ret; cbn.
  rewrite writes. eexists. split; [reflexivity|]. unfold in_sync. cbn. auto.
Qed.

Ltac run_save_sync :=
  match goal with
  | |- context [_save_state (?s, ?w0)] =>
    let s' := fresh "saved" in
    let E := fresh "Esave" in
    let H := fresh "Hsync" in
    destruct (save_state_sync s w0) as (s' & E & H); rewrite E; clear E
  end.

Lemma update_status_returns (task_id status : str)
    (ow : SimpleProgressManager * world) :
  exists ow', update_status task_id status ow = (Ok tt, ow').
Proof using All.
  destruct ow as [self w].
  destruct (tasks self !! task_id) as [task|] eqn:Ht.
  - destruct (update_status_run self w task_id status task Ht) as (self' & -> & _).
    eexists. reflexivity.
  - unfold update_status, bind, get_self; cbn. rewrite Ht. eexists. reflexivity.
Qed.

Lemma update_progress_sync (self : SimpleProgressManager) (w : world) (task_id : str)
    (progress : option Q) (status result error_message : option str) :
  in_sync self ->
  exists b self' w',
    update_progress task_id progress status result error_message (self, w)
      = (Ok b, (self', w')) /\ in_sync self'.
Proof using All.
  intros Hs. unfold update_progress, bind, get_self; cbn.
  destruct (tasks self !! task_id) as [task|]; [|eexists _, _, _; split; [reflexivity|exact Hs]].
  destruct progress as [p|], status as [s|]; cbn;
    try match goal with
        | |- context [update_status ?t ?s ?ow] =>
          let ow' := fresh "ow" in
          destruct (update_status_returns t s ow) as [[? ?] ->]
        end;
    destruct result, error_message; cbn;
    try (eexists _, _, _; split; [reflexivity|exact Hs]);
    run_save_sync; eexists _, _, _; (split; [reflexivity|exact Hsync]).
Qed.

Lemma call_sync (op : Op) (self : SimpleProgressManager) (w : world) :
  in_sync self ->
  exists self' w', call op (self, w) = (Ok tt, (self', w')) /\ in_sync self'.
Proof using All.
  intros Hs.
  assert (Hwrap : forall t p s r e,
    exists self' w',
      (update_progress t p s r e ;;; ret tt) (self, w) = (Ok tt, (self', w')) /\ in_sync self').
  { intros t p s r e.
    destruct (update_progress_sync self w t p s r e Hs) as (b & s1 & w1 & E & H1).
    unfold bind. rewrite E. eexists _, _. split; [reflexivity|exact H1]. }
  destruct op as [d ty sub prio|t a|t p s r e|t r|t e|t r]; cbn [call].
  - unfold create_task, bind, generate_task_id, on_world, ret; cbn.
    run_save_sync. eexists _, _. split; [reflexivity|exact Hsync].
  - unfold assign_task, bind, get_self; cbn.
    destruct (tasks self !! t) as [task|]; [|eexists _, _; split; [reflexivity|exact Hs]].
    destruct (str_eqb (t_status task) (py "pending")); cbn;
      [|eexists _, _; split; [reflexivity|exact Hs]].
    destruct (agents self !! a); cbn; run_save_sync;
      eexists _, _; (split; [reflexivity|exact Hsync]).
  - apply Hwrap.
  - apply Hwrap.
  - apply Hwrap.
  - apply Hwrap.
Qed.

Lemma run_sync (ops : list Op) :
  forall (self : SimpleProgressManager) (w : world),
    in_sync self ->
    exists self' w', run ops (self, w) = (Ok tt, (self', w')) /\ in_sync self'.
Proof using All.
  induction ops as [|op rest IH]; intros self w Hs; cbn.
  - eexists _, _. split; [reflexivity|exact Hs].
  - destruct (call_sync op self w Hs) as (s1 & w1 & E & H1).
    unfold bind at 1. rewrite E. apply IH. exact H1.
Qed.

Lemma init_sync (file : option Snapshot) (w : world) :
  exists self, init file w = (Ok self, tick w) /\ in_sync self /\ state_file self = file.
Proof using All.
  unfold init, bind, datetime_now, ret, _load_state; cbn.
  destruct file as [data|]; eexists; (split; [reflexivity|]); unfold in_sync; cbn; auto.
Qed.

End TrackerFile.

Section TrackerFileTheorem.
Context {R : Runtime}.

(** X8. When every write of the state file succeeds, the file follows the
    manager: start a manager on any file, or on none, and run any sequence
    of operations of the tracker; a second manager started on the file as
    it is then has the same tasks and the same agents, and the same
    statistics once the file exists. *)
Theorem state_file_follows_manager (file : option Snapshot) (ops : list Op) (w w0 : world) :
  (forall n, write_succeeds n = true) ->
  exists self0 self' w' reloaded,
    init file w = (Ok self0, tick w) /\
    run ops (self0, tick w) = (Ok tt, (self', w')) /\
    init (state_file self') w0 = (Ok reloaded, tick w0) /\
    tasks reloaded = tasks self' /\
    agents reloaded = agents self' /\
    (state_file self' <> None -> system_stats reloaded = system_stats self').
Proof.
  intros writes.
  destruct (init_sync writes file w) as (self0 & E0 & H0 & _).
  destruct (run_sync writes ops self0 (tick w) H0) as (self' & w' & E1 & H1).
  exists self0, self', w'. rewrite E0, E1.
  unfold init, bind, datetime_now, ret, _load_state; cbn.
  unfold in_sync in H1. destruct (state_file self') as [data|]; cbn.
  - destruct H1 as (Ht & Ha & Hst). eexists. repeat (split; [reflexivity|]).
    cbn. auto.
  - destruct H1 as (Ht & Ha). eexists. repeat (split; [reflexivity|]).
    cbn. split; [auto|]. split; [auto|]. congruence.
Qed.

End TrackerFileTheorem.

(** ** More on the planner *)

Section PlannerMore.
Context {R : Runtime}.

(** X9. Whatever [plan] is given and whatever the generator answers: when
    [plan] returns a plan, the history holds ten entries at most and its
    last entry records this goal, state, feedback and plan with the number
    of its tasks, and the history can still be formatted for the next
    prompt if it could before; when [plan] raises, the history is the one
    it had. *)
Theorem plan_keeps_bounded_history (self : SimpleDynamicPlanner) (w : world)
    (goal : str) (current_state feedback : option str) :
  match plan goal current_state feedback (self, w) with
  | (Ok p, (self', _)) =>
    (List.length (planning_history self') <= 10)%nat /\
    (exists entry,
       last (planning_history self') = Some entry /\
       h_goal entry = goal /\ h_plan entry = p /\
       h_current_state entry = current_state /\ h_feedback entry = feedback /\
       plan_task_count p = Ok (h_task_count entry)) /\
    (history_ok self -> history_ok self')
  | (Raise _, (self', _)) => self' = self
  end.
Proof.
  unfold plan. unfold bind at 1 2 3 4. unfold get_self, lift, on_world.
  cbn -[_save_planning_history bind].
  destruct (_build_prompt self _ goal current_state feedback) as [prompt|e];
    cbn -[_save_planning_history bind]; [|reflexivity].
  destruct (generate prompt 1500 w) as [[response|e] w1];
    cbn -[_save_planning_history bind]; [|reflexivity].
  destruct (_parse_plan response w1) as [[p|e] w2];
    cbn -[_save_planning_history bind]; [|reflexivity].
  unfold bind at 1.
  destruct (plan_task_count p) as [n|e] eqn:Hn.
  - destruct (save_planning_history_run self w2 goal p current_state feedback n Hn)
      as (self' & E & Hlen & Hlast & Hok).
    rewrite E. cbn. split; [exact Hlen|]. split; [|exact Hok].
    eexists. split; [exact Hlast|]. cbn. auto.
  - unfold _save_planning_history, bind, on_world, datetime_now, lift; cbn.
    rewrite Hn. reflexivity.
Qed.

(** *** The plan made from free text *)

Lemma guess_tool_type_range (description : str) : _guess_tool_type description ∈ tool_types.
Proof.
  unfold _guess_tool_type, tool_types.
  repeat (destruct (any_in _ _); [set_solver|]). set_solver.
Qed.

Lemma fallback_tasks_shape (lines : list str) :
  forall acc,
    (forall i task, acc !! i = Some task -> fallback_task_shape i task) ->
    forall i task,
      fallback_tasks lines acc !! i = Some task -> fallback_task_shape i task.
Proof.
  induction lines as [|line rest IH]; intros acc Hacc; cbn [fallback_tasks]; [exact Hacc|].
  cbv zeta.
  destruct (negb (str_eqb (strip line) []) && negb (startswith (strip line) (py "#"))
            && (10 <? List.length (strip line))%nat); [|apply IH; exact Hacc].
  apply IH. intros i task Hi.
  destruct (decide (i < List.length acc)%nat) as [Hlt|Hge].
  - rewrite lookup_app_l in Hi by exact Hlt. apply Hacc. exact Hi.
  - rewrite lookup_app_r in Hi by lia.
    destruct (i - List.length acc)%nat as [|k] eqn:Ek; [|discriminate Hi].
    cbn in Hi. injection Hi as <-.
    replace i with (List.length acc) by lia.
    eexists _, _. split; [reflexivity|]. split.
    + unfold prefix. rewrite length_take. lia.
    + apply guess_tool_type_range.
Qed.

(** X10. The plan [_fallback_parse] makes from a text that is not JSON: its
    strategy is sequential, its estimated time is 30 seconds per task, and
    its tasks are numbered task_1, task_2, ... in order, each with a
    description of 200 characters at most, one of the five tool types and
    the normal priority. *)
Theorem fallback_parse_shape (response : str) :
  _fallback_parse response
    = PDict [ (py "tasks", PList (fallback_task_list response));
              (py "strategy", PStr (py "sequential"));
              (py "estimated_time",
               PInt (Z.of_nat (List.length (fallback_task_list response)) * 30)) ] /\
  forall i task,
    fallback_task_list response !! i = Some task ->
    exists description tool_type,
      task = make_task (py "task_" ++ str_of_nat (i + 1)) description tool_type (py "normal") /\
      (List.length description <= 200)%nat /\
      tool_type ∈ [py "search"; py "calculator"; py "data_analysis"; py "file_ops";
                   py "general"].
Proof.
  split.
  - unfold _fallback_parse, fallback_task_list.
    destruct (fallback_tasks (split_lines response) []); reflexivity.
  - intros i task Hi. unfold fallback_task_list in Hi.
    destruct (fallback_tasks (split_lines response) []) as [|t0 ts] eqn:E.
    + destruct i as [|i]; [|discriminate Hi]. cbn in Hi. injection Hi as <-.
      eexists _, _. split; [reflexivity|]. split.
      * unfold prefix. rewrite length_take. lia.
      * set_solver.
    + rewrite <- E in Hi.
      apply (fallback_tasks_shape (split_lines response) []); [|exact Hi].
      intros j t Hj. discriminate Hj.
Qed.

(** *** The fields of a validated plan *)



End PlannerMore.

(** ** More on the actor *)

Section ActorMore.
Context {R : Runtime}.

Lemma flat_map_filter {A B} (f : A -> list B) (p : A -> bool) (l : list A) :
  (forall x, p x = false -> f x = []) ->
  flat_map f (List.filter p l) = flat_map f l.
Proof.
  intros H. induction l as [|x l IH]; cbn; [reflexivity|].
  destruct (p x) eqn:E; cbn.
  - rewrite IH. reflexivity.
  - rewrite (H x E). exact IH.
Qed.

(** X12. The entries of the context whose key starts with an underscore
    never reach the generator: the context text and the prompt are the
    ones of the context without these entries. *)
Theorem format_context_hides_private_keys (self : SimpleActor) (task_description : str)
    (context : ContextDict) (steps : list Step) (iteration : nat) :
  _format_context (public_entries context) = _format_context context /\
  _build_react_prompt self task_description (public_entries context) steps iteration
    = _build_react_prompt self task_description context steps iteration.
Proof.
  assert (H : _format_context (public_entries context) = _format_context context).
  { unfold _format_context, public_entries.
    match goal with
    | |- context [flat_map ?f (List.filter ?p context)] =>
      assert (Hf : flat_map f (List.filter p context) = flat_map f context)
    end.
    { apply flat_map_filter. intros [key value]. cbn.
      destruct (startswith key (py "_")); [reflexivity|discriminate]. }
    destruct context as [|kv rest]; [reflexivity|].
    destruct (List.filter _ (kv :: rest)) as [|kv' rest'] eqn:Ef.
    - cbv beta iota zeta. rewrite <- Hf. reflexivity.
    - cbv beta iota zeta. rewrite Hf. reflexivity. }
  split; [exact H|]. unfold _build_react_prompt. rewrite H. reflexivity.
Qed.

(** What [_log_execution_result] leaves in the history. *)
Lemma log_execution_result_run (self : SimpleActor) (w : world) (task result : str)
    (success : bool) :
  exists self',
    _log_execution_result task result success (self, w) = (Ok tt, (self', tick w)) /\
    (List.length (execution_history self') <= 20)%nat /\
    last (execution_history self')
      = Some {| log_timestamp := now_isoformat (w_clock w); log_task := prefix 200 task;
                log_result := prefix 500 result; log_success := success;
                log_agent_type := agent_type self |} /\
    agent_id self' = agent_id self /\ agent_type self' = agent_type self /\
    persona self' = persona self /\ available_tools self' = available_tools self /\
    capabilities self' = capabilities self /\ created_time self' = created_time self /\
    status self' = status self /\ current_task self' = current_task self.
Proof.
  unfold _log_execution_result, bind, on_world, datetime_now, get_self, update_self;
    cbn -[Nat.ltb].
  eexists. split; [reflexivity|]. cbn -[Nat.ltb].
  match goal with |- context [execution_history self ++ [?e]] => set (entry := e) end.
  destruct (20 <? List.length (execution_history self ++ [entry]))%nat eqn:E.
  - split; [unfold last_n; rewrite length_drop; lia|].
    split; [|repeat split].
    unfold last_n. rewrite length_app. cbn [List.length].
    rewrite drop_app_le by lia. apply last_snoc.
  - apply Nat.ltb_ge in E. split; [exact E|]. split; [apply last_snoc|repeat split].
Qed.

(** X13. [execute] always returns, and leaves a trace of the run: the
    history of the actor holds twenty entries at most, and its last entry
    has the first 200 characters of the task, the first 500 of the result
    returned and the outcome, which is a success exactly when the actor
    ends in the status completed; otherwise the actor ends in the status
    error. Its identity, persona and tools are not changed. *)
Theorem execute_logs_the_run (self : SimpleActor) (w : world) (task : str)
    (context : option ContextDict) :
  exists result self' w',
    execute task context (self, w) = (Ok result, (self', w')) /\
    (List.length (execution_history self') <= 20)%nat /\
    (exists entry,
       last (execution_history self') = Some entry /\
       log_task entry = prefix 200 task /\
       log_result entry = prefix 500 result /\
       log_success entry = match status self' with completed => true | _ => false end /\
       log_agent_type entry = agent_type self) /\
    (status self' = completed \/ status self' = error) /\
    agent_id self' = agent_id self /\ agent_type self' = agent_type self /\
    persona self' = persona self /\ available_tools self' = available_tools self.
Proof.
  unfold execute, bind, try_finally, try_except, update_self, get_self, on_world;
    cbn -[_log_execution_result].
  destruct (_react_loop _ _ _ w) as [[r|e] w1]; cbn -[_log_execution_result].
  - match goal with
    | |- context [_log_execution_result ?t ?res ?b (?s, ?w0)] =>
      destruct (log_execution_result_run s w0 t res b)
        as (s' & -> & Hlen & Hlast & Hid & Hty & Hp & Htools & _ & _ & Hst & _)
    end.
    cbn in *. eexists _, _, _. split; [reflexivity|]. cbn.
    split; [exact Hlen|]. split.
    + eexists. split; [exact Hlast|]. cbn. rewrite Hst. auto.
    + rewrite Hst. auto.
  - match goal with
    | |- context [_log_execution_result ?t ?res ?b (?s, ?w0)] =>
      destruct (log_execution_result_run s w0 t res b)
        as (s' & -> & Hlen & Hlast & Hid & Hty & Hp & Htools & _ & _ & Hst & _)
    end.
    cbn in *. eexists _, _, _. split; [reflexivity|]. cbn.
    split; [exact Hlen|]. split.
    + eexists. split; [exact Hlast|]. cbn. rewrite Hst. auto.
    + rewrite Hst. auto.
Qed.

(** X14. With a configured number of iterations that is zero or negative
    the loop does not run: [execute] returns the text for a run without
    any step, without calling the generator, and the actor still ends in
    the status completed. *)
Theorem execute_without_iterations (self : SimpleActor) (w : world) (task : str)
    (context : option ContextDict) :
  (MAX_ITERATIONS <= 0)%Z ->
  exists self' w',
    execute task context (self, w)
      = (Ok (py "无法完成任务，未执行任何步骤"), (self', w')) /\
    status self' = completed /\
    w_calls w' = w_calls w.
Proof.
  intros Hmax.
  destruct (execute_run self w task context) as (result & self' & w' & E & _ & Hloop).
  unfold _react_loop in Hloop. rewrite Z2Nat.nonpos in Hloop by exact Hmax.
  cbn [seq react_iterations ret] in Hloop. unfold _generate_summary in Hloop.
  destruct Hloop as (-> & Hst & ->).
  exists self', (tick w). split; [exact E|]. split; [exact Hst|reflexivity].
Qed.

Lemma should_continue_failing (action_result : str) (iteration : nat) (max_iterations : Z) :
  contains (py "失败") action_result || contains (py "错误") action_result = true ->
  _should_continue action_result iteration max_iterations
    = (Z.of_nat iteration <? max_iterations - 2)%Z.
Proof. intros H. unfold _should_continue. rewrite H. reflexivity. Qed.

Lemma react_iterations_failing (self : SimpleActor) (task : str) (Inv : gen_state -> Prop) :
  (forall g0, Inv g0 -> forall prompt max_tokens,
     exists response g1,
       llm_generate prompt max_tokens g0 = (Ok response, g1) /\ Inv g1 /\
       fails self response) ->
  forall k i context steps w,
    Inv (w_gen w) ->
    (i + k = Z.to_nat MAX_ITERATIONS)%nat -> (0 < k)%nat ->
    exists steps' w',
      react_iterations self task MAX_ITERATIONS (seq i k) context steps w
        = (Ok (_generate_summary task steps' false), w') /\
      w_calls w' = (w_calls w + Nat.max 1 (k - 1))%nat.
Proof.
  intros Hgen. induction k as [|k IH]; intros i context steps w Hinv Hik Hk; [lia|].
  cbn [seq react_iterations]. unfold bind at 1. rewrite generate_run.
  destruct (Hgen (w_gen w) Hinv
              (_build_react_prompt self task context steps i) 800%Z)
    as (response & g1 & -> & Hinv1 & Hnc & Hfail).
  cbn [fst snd]. rewrite Hnc.
  destruct (parse_response response) as [thought action] eqn:Ep. cbn [snd] in Hfail.
  unfold bind at 1. unfold datetime_now at 1.
  rewrite (should_continue_failing _ i MAX_ITERATIONS Hfail).
  destruct (Z.of_nat i <? MAX_ITERATIONS - 2)%Z eqn:Ec.
  - apply Z.ltb_lt in Ec.
    edestruct (IH (S i)) as (steps' & w' & -> & Hcalls); [exact Hinv1|lia|lia|].
    eexists _, _. split; [reflexivity|]. rewrite Hcalls. cbn. lia.
  - apply Z.ltb_ge in Ec. eexists _, _. split; [reflexivity|]. cbn. lia.
Qed.

(** X15. When every response of the generator has an action that fails,
    the loop gives up two iterations before its budget ends: [execute]
    calls the generator [MAX_ITERATIONS - 1] times (once when the budget is
    one or two), and returns a summary tagged as completed, not as a
    timeout, in the status completed. *)
Theorem execute_gives_up_on_failing_actions (self : SimpleActor) (w : world) (task : str)
    (context : option ContextDict) :
  (0 < MAX_ITERATIONS)%Z ->
  always_answers (fails (started self task)) (w_gen w) ->
  exists result self' w',
    execute task context (self, w) = (Ok result, (self', w')) /\
    is_timeout_summary result = false /\
    status self' = completed /\
    w_calls w' = (w_calls w + Z.to_nat (Z.max 1 (MAX_ITERATIONS - 1)))%nat.
Proof.
  intros Hmax (Inv & Hinv & Hgen).
  destruct (execute_run self w task context) as (result & self' & w' & E & _ & Hloop).
  unfold _react_loop in Hloop.
  destruct (react_iterations_failing (started self task) task Inv Hgen
              (Z.to_nat MAX_ITERATIONS) 0%nat
              (match context with Some c => c | None => [] end) [] w Hinv)
    as (steps' & w1 & E1 & Hcalls); [lia|lia|].
  rewrite E1 in Hloop. destruct Hloop as (-> & Hst & ->).
  exists (_generate_summary task steps' false), self', (tick w1).
  split; [exact E|]. split; [apply generate_summary_completed|].
  split; [exact Hst|]. cbn. rewrite Hcalls. lia.
Qed.

End ActorMore.

(** ** The client of the generator *)

Section ClientProofs.
Variable service : nat -> str -> Z -> result (option str).
Variable MAX_RETRIES : Z.

Lemma attempts_run (prompt : str) (max_tokens : Z) :
  forall k i s,
    (i + k = Z.to_nat MAX_RETRIES)%nat ->
    exists r n,
      Client.attempts service MAX_RETRIES (seq i k) prompt max_tokens s
        = (Ok r, {| Client.requests := Client.requests s + n;
                    Client.slept := Client.slept s
                                    ++ map (fun a => (2 ^ Z.of_nat a)%Z) (seq i (n - 1)) |}) /\
      (n <= k)%nat /\
      (k = 0%nat -> r = None /\ n = 0%nat) /\
      ((0 < k)%nat ->
       (0 < n)%nat /\
       (forall j, (j < n - 1)%nat ->
          exists e, service (Client.requests s + j)%nat prompt max_tokens = Raise e) /\
       match service (Client.requests s + (n - 1))%nat prompt max_tokens with
       | Ok content => r = content
       | Raise e => r = Some (py "LLM调用失败: " ++ exn_msg e) /\ n = k
       end).
Proof.
  induction k as [|k IH]; intros i s Hik.
  - exists None, 0%nat. cbn. rewrite Nat.add_0_r, app_nil_r. destruct s.
    split; [reflexivity|]. split; [lia|]. split; [auto|lia].
  - cbn [seq Client.attempts].
    destruct (service (Client.requests s) prompt max_tokens) as [content|e] eqn:Es.
    + exists content, 1%nat. cbn [Nat.sub seq map]. rewrite app_nil_r, Nat.add_1_r.
      split; [reflexivity|]. split; [lia|]. split; [lia|]. intros _.
      split; [lia|]. split; [intros j Hj; lia|].
      rewrite Nat.add_0_r, Es. reflexivity.
    + destruct (Z.of_nat i =? MAX_RETRIES - 1)%Z eqn:Elast.
      * apply Z.eqb_eq in Elast. assert (k = 0%nat) by lia. subst k.
        exists (Some (py "LLM调用失败: " ++ exn_msg e)), 1%nat.
        cbn [Nat.sub seq map]. rewrite app_nil_r, Nat.add_1_r.
        split; [reflexivity|]. split; [lia|]. split; [lia|]. intros _.
        split; [lia|]. split; [intros j Hj; lia|].
        rewrite Nat.add_0_r, Es. auto.
      * apply Z.eqb_neq in Elast. assert (Hk : (0 < k)%nat) by lia.
        destruct (IH (S i) {| Client.requests := S (Client.requests s);
                              Client.slept := Client.slept s ++ [(2 ^ Z.of_nat i)%Z] |})
          as (r & n & E & Hn & _ & Hrest); [lia|].
        destruct (Hrest Hk) as (Hpos & Hfail & Hlast). cbn [Client.requests Client.slept] in *.
        exists r, (S n). rewrite E.
        replace (S n - 1)%nat with (S (n - 1)) by lia. cbn [seq map].
        rewrite <- app_assoc. cbn [app].
        replace (S (Client.requests s) + n)%nat with (Client.requests s + S n)%nat by lia.
        split; [reflexivity|]. split; [lia|]. split; [lia|]. intros _.
        split; [lia|]. split.
        -- intros j Hj. destruct j as [|j].
           ++ rewrite Nat.add_0_r. eauto.
           ++ replace (Client.requests s + S j)%nat with (S (Client.requests s) + j)%nat by lia.
              apply Hfail. lia.
        -- replace (Client.requests s + S (n - 1))%nat
             with (S (Client.requests s) + (n - 1))%nat by lia.
           revert Hlast.
           destruct (service (S (Client.requests s) + (n - 1))%nat prompt max_tokens);
             [auto|].
           intros (-> & ->). auto.
Qed.

(** X16. [LLMClient.generate] never raises. With a number of retries of
    one or more it sends a request, and sends the next one only when the
    last one has raised, at most [MAX_RETRIES] in all, pausing 1, 2, 4, ...
    seconds between two requests; it returns the text of the first answer
    that comes back, or, when every request has raised, the failure text
    made from the last exception. With a number of retries of zero or less
    it sends nothing and returns [None]. *)
Theorem generate_retries (prompt : str) (max_tokens : Z) (s : Client.Session) :
  exists r n,
    Client.generate service MAX_RETRIES prompt max_tokens s
      = (Ok r, {| Client.requests := Client.requests s + n;
                  Client.slept := Client.slept s
                                  ++ map (fun a => (2 ^ Z.of_nat a)%Z) (seq 0 (n - 1)) |}) /\
    (n <= Z.to_nat MAX_RETRIES)%nat /\
    ((MAX_RETRIES <= 0)%Z -> r = None /\ n = 0%nat) /\
    ((0 < MAX_RETRIES)%Z ->
     (0 < n)%nat /\
     (forall j, (j < n - 1)%nat ->
        exists e, service (Client.requests s + j)%nat prompt max_tokens = Raise e) /\
     match service (Client.requests s + (n - 1))%nat prompt max_tokens with
     | Ok content => r = content
     | Raise e =>
       r = Some (py "LLM调用失败: " ++ exn_msg e) /\ n = Z.to_nat MAX_RETRIES
     end).
Proof.
  unfold Client.generate.
  destruct (attempts_run prompt max_tokens (Z.to_nat MAX_RETRIES) 0%nat s)
    as (r & n & E & Hn & Hzero & Hpos); [lia|].
  exists r, n. split; [exact E|]. split; [exact Hn|]. split.
  - intros Hmax. apply Hzero. lia.
  - intros Hmax. apply Hpos. lia.
Qed.

End ClientProofs.

(** ** The agents of the factory *)

Section AgentsProofs.
Context {R : Runtime}.

(** The type selected always has a template. *)
Lemma select_agent_type_in_templates (task_description : str) (task_type : option str) :
  in_templates (_select_agent_type task_description task_type) = true.
Proof.
  assert (Ha : in_templates (py "analyst") = true) by (vm_compute; reflexivity).
  assert (He : in_templates (py "executor") = true) by (vm_compute; reflexivity).
  assert (Hr : in_templates (py "researcher") = true) by (vm_compute; reflexivity).
  unfold _select_agent_type.
  generalize (analyst_score task_description) (executor_score task_description)
             (researcher_score task_description).
  intros a e r.
  assert (Hk : in_templates
                 (if (e <=? a)%nat && (r <=? a)%nat then py "analyst"
                  else if (r <=? e)%nat then py "executor" else py "researcher") = true).
  { destruct ((e <=? a)%nat && (r <=? a)%nat); [exact Ha|].
    destruct (r <=? e)%nat; [exact He|exact Hr]. }
  destruct task_type as [t|]; [|exact Hk].
  destruct (negb (str_eqb t []) && in_templates t) eqn:Et; [|exact Hk].
  apply andb_true_iff in Et as [_ Et]. exact Et.
Qed.

(** X17. [create_actor] never raises: the type it selects always has a
    template. It returns the agent of the cache that has the identifier
    made from the type and the hash of the description, without changing
    anything, when there is one; otherwise it makes an idle agent with
    this identifier and type and with the persona, tools and capabilities
    of the template, without task and history, and stores it in the cache
    under the identifier, leaving the other agents alone. *)
Theorem create_actor_uses_cache_or_template (hash : str -> Z)
    (self : SimpleActorFactory) (w : world)
    (task_description : str) (task_type : option str) :
  let type := _select_agent_type task_description task_type in
  let id := generate_agent_id type (hash task_description) in
  exists actor self' w',
    create_actor hash task_description task_type (self, w) = (Ok actor, (self', w')) /\
    created_agents self' !! id = Some actor /\
    (forall other, other <> id ->
       created_agents self' !! other = created_agents self !! other) /\
    match created_agents self !! id with
    | Some cached => actor = cached /\ self' = self /\ w' = w
    | None =>
      agent_id actor = id /\ agent_type actor = type /\
      dict_get type _init_agent_templates
        = Some {| tpl_persona := persona actor; tpl_tools := available_tools actor;
                  tpl_capabilities := capabilities actor |} /\
      status actor = idle /\ current_task actor = None /\
      execution_history actor = [] /\ w' = tick w
    end.
Proof.
  intros type id. unfold create_actor. fold type. fold id.
  pose proof (select_agent_type_in_templates task_description task_type) as Hin.
  fold type in Hin. unfold in_templates in Hin.
  destruct (dict_get type _init_agent_templates) as [template|] eqn:Et; [|discriminate Hin].
  unfold bind, get_self. cbn [fst snd].
  destruct (created_agents self !! id) as [cached|] eqn:Ec.
  - exists cached, self, w. split; [reflexivity|]. split; [exact Ec|]. auto.
  - unfold on_world, new_actor, bind, datetime_now, ret, update_self. cbn [fst snd].
    eexists _, _, _. split; [reflexivity|]. cbn.
    split; [apply lookup_insert_eq|]. split.
    + intros other Hne. apply lookup_insert_ne. congruence.
    + destruct template. cbn. repeat split; reflexivity.
Qed.

(** The first of two calls of [create_actor] leaves the agent it returns
    in the cache. *)
Lemma create_actor_run (hash : str -> Z) (self : SimpleActorFactory) (w : world)
    (task_description : str) (task_type : option str) :
  exists actor self' w',
    create_actor hash task_description task_type (self, w) = (Ok actor, (self', w')) /\
    created_agents self'
      !! generate_agent_id (_select_agent_type task_description task_type)
                           (hash task_description) = Some actor.
Proof.
  unfold create_actor.
  pose proof (select_agent_type_in_templates task_description task_type) as Hin.
  unfold in_templates in Hin.
  destruct (dict_get _ _init_agent_templates) as [template|] eqn:Et; [|discriminate Hin].
  unfold bind, get_self. cbn [fst snd].
  destruct (created_agents self !! _) as [cached|] eqn:Ec.
  - exists cached, self, w. split; [reflexivity|exact Ec].
  - unfold on_world, new_actor, bind, datetime_now, ret, update_self. cbn [fst snd].
    eexists _, _, _. split; [reflexivity|]. cbn. apply lookup_insert_eq.
Qed.

(** X18. Two task descriptions for which the same type is selected and
    whose hashes fall in the same bucket of 1000 get one agent: the second
    call of [create_actor] returns the agent the first call returned, and
    changes neither the cache nor the world, although the descriptions
    differ. *)
Theorem create_actor_shares_agents (hash : str -> Z) (self : SimpleActorFactory) (w : world)
    (d1 d2 : str) (t1 t2 : option str) :
  _select_agent_type d1 t1 = _select_agent_type d2 t2 ->
  (Z.abs (hash d1) mod 1000 = Z.abs (hash d2) mod 1000)%Z ->
  exists actor self1 w1,
    create_actor hash d1 t1 (self, w) = (Ok actor, (self1, w1)) /\
    create_actor hash d2 t2 (self1, w1) = (Ok actor, (self1, w1)).
Proof.
  intros Htype Hbucket.
  destruct (create_actor_run hash self w d1 t1) as (actor & self1 & w1 & E1 & Hc).
  exists actor, self1, w1. split; [exact E1|].
  unfold create_actor. rewrite <- Htype.
  pose proof (select_agent_type_in_templates d1 t1) as Hin. unfold in_templates in Hin.
  destruct (dict_get _ _init_agent_templates) as [template|] eqn:Et; [|discriminate Hin].
  unfold bind, get_self. cbn [fst snd].
  unfold generate_agent_id in *. rewrite <- Hbucket, Hc. reflexivity.
Qed.

End AgentsProofs.

(** ** Examples of the further properties *)

Section MoreExamples.
#[local] Existing Instance Example.rt.

Lemma state_file_follows_manager_witness :
  exists self0 self' w' reloaded,
    init (Some Example.state_file_data) (Example.world_answering [])
      = (Ok self0, tick (Example.world_answering [])) /\
    run [CreateTask (py "collect the data") (py "general") None (py "high");
         CompleteTask Example.restored_task (py "done")]
        (self0, tick (Example.world_answering []))
      = (Ok tt, (self', w')) /\
    init (state_file self') (Example.world_answering [])
      = (Ok reloaded, tick (Example.world_answering [])) /\
    tasks reloaded = tasks self' /\
    agents reloaded = agents self'.
Proof.
  destruct (state_file_follows_manager (Some Example.state_file_data)
              [CreateTask (py "collect the data") (py "general") None (py "high");
               CompleteTask Example.restored_task (py "done")]
              (Example.world_answering []) (Example.world_answering [])
              (fun n => eq_refl))
    as (self0 & self' & w' & reloaded & E0 & E1 & E2 & Ht & Ha & _).
  exists self0, self', w', reloaded.
  split; [exact E0|]. split; [exact E1|]. split; [exact E2|]. split; [exact Ht|exact Ha].
Defined.


Lemma execute_gives_up_on_failing_actions_witness :
  exists result self' w',
    (0 < MAX_ITERATIONS)%Z /\
    execute (py "divide 1 by 0") None
      (Example.analyst, Example.world_answering (py "Action: calculator: 1/0"))
      = (Ok result, (self', w')) /\
    is_timeout_summary result = false /\
    w_calls w' = 14%nat.
Proof.
  assert (Hpos : (0 < MAX_ITERATIONS)%Z) by reflexivity.
  destruct (execute_gives_up_on_failing_actions Example.analyst
              (Example.world_answering (py "Action: calculator: 1/0"))
              (py "divide 1 by 0") None Hpos)
    as (result & self' & w' & E & Ht & _ & Hc).
  - apply always_answers_constant. split; vm_compute; reflexivity.
  - exists result, self', w'. split; [exact Hpos|]. split; [exact E|].
    split; [exact Ht|exact Hc].
Defined.

Lemma create_actor_shares_agents_witness :
  exists actor self1 w1,
    create_actor (fun _ => 42%Z) (py "compare the two offers") (Some (py "analyst"))
      ({| created_agents := ∅ |}, Example.world_answering [])
      = (Ok actor, (self1, w1)) /\
    create_actor (fun _ => 42%Z) (py "sum the invoices") (Some (py "analyst")) (self1, w1)
      = (Ok actor, (self1, w1)).
Proof.
  apply (create_actor_shares_agents (fun _ => 42%Z) {| created_agents := ∅ |}
           (Example.world_answering [])
           (py "compare the two offers") (py "sum the invoices")
           (Some (py "analyst")) (Some (py "analyst"))).
  - vm_compute. reflexivity.
  - reflexivity.
Defined.

End MoreExamples.

Lemma execute_without_iterations_witness :
  exists self' w',
    @execute Scenario.no_budget_rt (py "add 125 and 375") None
      (Example.analyst, @World Scenario.no_budget_rt (Reference.always []) 0 0)
      = (Ok (py "无法完成任务，未执行任何步骤"), (self', w')) /\
    status self' = completed /\
    @w_calls Scenario.no_budget_rt w' = 0%nat.
Proof.
  apply (@execute_without_iterations Scenario.no_budget_rt Example.analyst
           (@World Scenario.no_budget_rt (Reference.always []) 0 0)
           (py "add 125 and 375") None).
  vm_compute. discriminate.
Defined.
